(** * MDirectory: data processing, import/export, search and filter

    A shallow embedding of the data layer of the hospital room directory
    (normalizeAbbreviation, processRoomData, importCustomTags,
    exportSession / importSession, createUnifiedTags, searchRoomsByTags,
    data_getFilteredData, buildUnifiedAutocomplete) together with the
    properties the specification states about it.

    Modelling conventions.
    - A JavaScript string is a [string] whose characters are code units
      below 256 (the Latin-1 range); [toLowerCase], the class [\s] and
      [trim] are the JavaScript ones restricted to that range.
    - A JavaScript value is a [value]: null, booleans, numbers, strings,
      arrays, plain objects, and what a plain object inherits from
      [Object.prototype].  A number is an integer that a double holds
      exactly and prints in plain digits (below 2^53 in absolute value).
      [undefined] is the [None] of an [option value]; a property holding
      [undefined] is the same as an absent property (the code only ever
      reads properties).
    - An object is the list of its own properties in enumeration order;
      a property read with a computed key falls back on
      [Object.prototype] ([Js.lookup]).
    - A thrown [TypeError] is the [None] of the result of a function.
    - A file that the code reads and that holds what the model has no
      value for (a character above U+00FF, a number that is not such an
      integer) is told apart from a file that the code refuses
      ([Json.beyond], [OutOfModel]). *)

From Stdlib Require Import String Ascii List ZArith Bool Arith Lia.
From Stdlib Require Import DecimalString DecimalPos DecimalZ FinFun.
From Stdlib Require Import FSets.FSetPositive FSets.FSetFacts.
From Stdlib Require Import Sorted Permutation.
Import ListNotations.
Local Open Scope string_scope.
Local Open Scope list_scope.
Local Open Scope nat_scope.


(** ** Strings *)

Module Str.

Definition code (c : ascii) : nat := nat_of_ascii c.

(** The class [\s] on code units below 256: TAB, LF, VT, FF, CR, SPACE
    and NO-BREAK SPACE.  [String.prototype.trim] strips the same set. *)
Definition is_space (c : ascii) : bool :=
  let n := code c in
  ((9 <=? n) && (n <=? 13)) || (n =? 32) || (n =? 160).

(** The class [\d]. *)
Definition is_digit (c : ascii) : bool :=
  let n := code c in (48 <=? n) && (n <=? 57).

(** [/[\s,]+/]: the separators of a search query. *)
Definition is_query_sep (c : ascii) : bool := is_space c || (code c =? 44).

(** [/[\s\-]+/]: the separators of a compound term and of a category tag. *)
Definition is_word_sep (c : ascii) : bool := is_space c || (code c =? 45).

(** [/[\s\-\/]+/]: the separators of a room type label. *)
Definition is_type_sep (c : ascii) : bool :=
  is_space c || (code c =? 45) || (code c =? 47).

(** [toLowerCase] on one code unit: A-Z and the Latin-1 capitals
    U+00C0..U+00DE (U+00D7, the multiplication sign, excepted). *)
Definition lower_char (c : ascii) : ascii :=
  let n := code c in
  if ((65 <=? n) && (n <=? 90))
     || ((192 <=? n) && (n <=? 222) && negb (n =? 215))
  then ascii_of_nat (n + 32) else c.

Fixpoint map (f : ascii -> ascii) (s : string) : string :=
  match s with
  | EmptyString => EmptyString
  | String c s' => String (f c) (map f s')
  end.

Definition toLowerCase (s : string) : string := map lower_char s.

Fixpoint forallb (p : ascii -> bool) (s : string) : bool :=
  match s with
  | EmptyString => true
  | String c s' => p c && forallb p s'
  end.

Fixpoint existsb (p : ascii -> bool) (s : string) : bool :=
  match s with
  | EmptyString => false
  | String c s' => p c || existsb p s'
  end.

Definition starts_with_sep (sep : ascii -> bool) (s : string) : bool :=
  match s with
  | EmptyString => false
  | String c _ => sep c
  end.

(** [s.split(/[sep]+/)]: the pieces between the maximal runs of
    separators; a leading or trailing run leaves an empty piece, and the
    empty string splits into one empty piece. *)
Fixpoint split_on (sep : ascii -> bool) (s : string) : list string :=
  match s with
  | EmptyString => [EmptyString]
  | String c s' =>
      if sep c then
        if starts_with_sep sep s' then split_on sep s'
        else EmptyString :: split_on sep s'
      else
        match split_on sep s' with
        | [] => [String c EmptyString]
        | w :: ws => String c w :: ws
        end
  end.

Fixpoint trim_start (s : string) : string :=
  match s with
  | EmptyString => EmptyString
  | String c s' => if is_space c then trim_start s' else s
  end.

(** Strips trailing white space: the string is rebuilt from its end. *)
Fixpoint trim_end (s : string) : string :=
  match s with
  | EmptyString => EmptyString
  | String c s' =>
      match trim_end s' with
      | EmptyString => if is_space c then EmptyString else String c EmptyString
      | t => String c t
      end
  end.

Definition trim (s : string) : string := trim_end (trim_start s).

(** [s.startsWith(p)] *)
Definition startsWith (s p : string) : bool := String.prefix p s.

(** [s.includes(p)] *)
Fixpoint includes (s p : string) : bool :=
  String.prefix p s ||
  match s with
  | EmptyString => false
  | String _ s' => includes s' p
  end.

(** [/^\d/.test(s)] *)
Definition starts_with_digit (s : string) : bool :=
  match s with
  | EmptyString => false
  | String c _ => is_digit c
  end.

(** [/^\s*$/.test(s)] *)
Definition is_blank (s : string) : bool := forallb is_space s.

(** [a.join(sep)] on an array of strings. *)
Fixpoint join (sep : string) (l : list string) : string :=
  match l with
  | [] => EmptyString
  | [x] => x
  | x :: r => (x ++ sep ++ join sep r)%string
  end.

(** The piece of [s] before the first occurrence of the character [c],
    and what follows that occurrence. *)
Fixpoint break_at (c : ascii) (s : string) : string * option string :=
  match s with
  | EmptyString => (EmptyString, None)
  | String a s' =>
      if Ascii.eqb a c then (EmptyString, Some s')
      else let '(h, t) := break_at c s' in (String a h, t)
  end.

(** [s.replace(p, "")] for a literal pattern: the first occurrence of
    [p] is removed. *)
Fixpoint remove_first (p s : string) : string :=
  if String.prefix p s then substring (String.length p) (String.length s - String.length p) s
  else match s with
       | EmptyString => EmptyString
       | String a s' => String a (remove_first p s')
       end.

(** Comparison by code units, the order of [Array.prototype.sort]
    without a comparator. *)
Definition leb (a b : string) : bool := String.leb a b.
Definition ltb (a b : string) : bool := String.ltb a b.

(** Decimal rendering of an integer number. *)
Definition of_Z (n : Z) : string := NilZero.string_of_int (Z.to_int n).

End Str.

(** ** Values and objects *)

(** An object used as a dictionary or as a record: its own properties in
    enumeration order.  The keys are distinct; the keys that are array
    indices come first, in increasing numeric order, and the other keys
    follow in the order of their creation. *)
Definition jsobj (A : Type) : Type := list (string * A).

#[local] Unset Elimination Schemes.
Inductive value : Type :=
| VNull
| VBool (b : bool)
| VNum (n : Z)
| VStr (s : string)
| VArr (l : list value)
| VObj (o : list (string * value))
| (** what a plain object inherits under [name] from [Object.prototype]:
      a built-in function, or the prototype itself for [__proto__] *)
  VNative (name : string).
#[local] Set Elimination Schemes.

Definition obj : Type := jsobj value.

(** Induction over a value, through its arrays and objects. *)
Fixpoint value_ind' (P : value -> Prop)
    (HNull : P VNull) (HBool : forall b, P (VBool b))
    (HNum : forall n, P (VNum n)) (HStr : forall s, P (VStr s))
    (HArr : forall l, Forall P l -> P (VArr l))
    (HObj : forall o, Forall (fun kv => P (snd kv)) o -> P (VObj o))
    (HNative : forall name, P (VNative name))
    (v : value) {struct v} : P v :=
  match v with
  | VNull => HNull
  | VBool b => HBool b
  | VNum n => HNum n
  | VStr s => HStr s
  | VArr l =>
      HArr l
        ((fix elements (l : list value) : Forall P l :=
            match l with
            | [] => Forall_nil P
            | x :: r =>
                Forall_cons x
                  (value_ind' P HNull HBool HNum HStr HArr HObj HNative x)
                  (elements r)
            end) l)
  | VObj o =>
      HObj o
        ((fix members (o : list (string * value))
            : Forall (fun kv => P (snd kv)) o :=
            match o with
            | [] => Forall_nil _
            | kv :: r =>
                Forall_cons kv
                  (value_ind' P HNull HBool HNum HStr HArr HObj HNative (snd kv))
                  (members r)
            end) o)
  | VNative name => HNative name
  end.

Module Js.

(** The own property [k] of [o]; [None] when [o] has none.  This is
    [o.k] for the names the code writes out, none of which is a property
    of [Object.prototype]. *)
Fixpoint get {A} (o : jsobj A) (k : string) : option A :=
  match o with
  | [] => None
  | (k', v) :: o' => if String.eqb k' k then Some v else get o' k
  end.

Definition has {A} (o : jsobj A) (k : string) : bool :=
  match get o k with Some _ => true | None => false end.

Definition keys {A} (o : jsobj A) : list string := List.map fst o.

(** The properties of [Object.prototype], which a plain object inherits:
    eleven built-in functions and the accessor [__proto__]. *)
Definition prototype_names : list string :=
  ["constructor"; "__defineGetter__"; "__defineSetter__"; "hasOwnProperty";
   "__lookupGetter__"; "__lookupSetter__"; "isPrototypeOf";
   "propertyIsEnumerable"; "toString"; "valueOf"; "__proto__";
   "toLocaleString"].

Definition inherited (k : string) : bool :=
  List.existsb (String.eqb k) prototype_names.

(** [o[k]] for a computed key [k]: an own property, or else what
    [Object.prototype] has under that name; [None] is [undefined]. *)
Definition lookup (o : obj) (k : string) : option value :=
  match get o k with
  | Some v => Some v
  | None => if inherited k then Some (VNative k) else None
  end.

(** [o[k]] in a dictionary whose own properties all have the type [A]:
    one of them, an inherited property (never of that type), or
    [undefined]. *)
Inductive property (A : Type) : Type :=
| Own (a : A)
| Inherited
| Missing.

Arguments Own {A} a.
Arguments Inherited {A}.
Arguments Missing {A}.

Definition read {A} (o : jsobj A) (k : string) : property A :=
  match get o k with
  | Some a => Own a
  | None => if inherited k then Inherited else Missing
  end.

(** The inherited value is the prototype, not a function. *)
Definition is_prototype (name : string) : bool := String.eqb name "__proto__".

(** [f.name] for an inherited function. *)
Definition native_name (name : string) : string :=
  if String.eqb name "constructor" then "Object" else name.

(** [f.length] for an inherited function: the number of its parameters. *)
Definition native_length (name : string) : Z :=
  if List.existsb (String.eqb name) ["__defineGetter__"; "__defineSetter__"]
  then 2%Z
  else if List.existsb (String.eqb name) ["toString"; "valueOf"; "toLocaleString"]
  then 0%Z
  else 1%Z.

(** [String(v)] for an inherited value: the source text of a built-in
    function, written as V8 and JavaScriptCore write it (the white space
    inside it is left to the engine), or the text of a plain object. *)
Definition native_text (name : string) : string :=
  if is_prototype name then "[object Object]"
  else ("function " ++ native_name name ++ "() { [native code] }")%string.

Fixpoint digits_value (acc : N) (s : string) : option N :=
  match s with
  | EmptyString => Some acc
  | String c s' =>
      if Str.is_digit c
      then digits_value (acc * 10 + N.of_nat (Str.code c - 48)) s'
      else None
  end.

(** A key is an array index when it is the canonical decimal form of an
    integer between 0 and 2^32 - 2; such keys are enumerated first. *)
Definition array_index (k : string) : option N :=
  match k with
  | EmptyString => None
  | String c rest =>
      if (Str.code c =? 48) && negb (String.eqb rest EmptyString) then None
      else if 10 <? String.length k then None
      else match digits_value 0 k with
           | Some n => if (n <=? 4294967294)%N then Some n else None
           | None => None
           end
  end.

(** Where a new property goes: after the array indices below it when it
    is an array index itself, at the end otherwise. *)
Fixpoint insert_index {A} (i : N) (k : string) (v : A) (o : jsobj A) : jsobj A :=
  match o with
  | [] => [(k, v)]
  | (k', v') :: o' =>
      match array_index k' with
      | Some j => if (j <? i)%N then (k', v') :: insert_index i k v o'
                  else (k, v) :: o
      | None => (k, v) :: o
      end
  end.

Fixpoint replace {A} (k : string) (v : A) (o : jsobj A) : jsobj A :=
  match o with
  | [] => []
  | (k', v') :: o' =>
      if String.eqb k' k then (k', v) :: o' else (k', v') :: replace k v o'
  end.

(** [o[k] = v], for a key other than [__proto__] (an assignment to that
    key changes the prototype of [o] instead). *)
Definition set {A} (k : string) (v : A) (o : jsobj A) : jsobj A :=
  if has o k then replace k v o
  else match array_index k with
       | Some i => insert_index i k v o
       | None => o ++ [(k, v)]
       end.

Fixpoint remove {A} (k : string) (o : jsobj A) : jsobj A :=
  match o with
  | [] => []
  | (k', v') :: o' =>
      if String.eqb k' k then o' else (k', v') :: remove k o'
  end.

(** [o[k] = v] where [v] may be [undefined]: reading the property then
    gives [undefined], as for an absent one. *)
Definition put (k : string) (v : option value) (o : obj) : obj :=
  match v with
  | Some x => set k x o
  | None => remove k o
  end.

(** [{...a, ...b}] *)
Definition spread {A} (a b : jsobj A) : jsobj A :=
  fold_left (fun acc kv => set (fst kv) (snd kv) acc) b a.

(** The object literal with the given properties, in source order. *)
Definition literal {A} (props : list (string * A)) : jsobj A :=
  spread [] props.

(** Truthiness. *)
Definition truthy (v : option value) : bool :=
  match v with
  | None => false
  | Some VNull => false
  | Some (VBool b) => b
  | Some (VNum n) => negb (Z.eqb n 0)
  | Some (VStr s) => negb (String.eqb s EmptyString)
  | Some (VArr _) => true
  | Some (VObj _) => true
  | Some (VNative _) => true
  end.

(** [a || b] *)
Definition or_else (a : option value) (b : value) : value :=
  match a with
  | Some v => if truthy a then v else b
  | None => b
  end.

(** [a || b] when [b] may be [undefined] too. *)
Definition or_opt (a b : option value) : option value :=
  if truthy a then a else b.

(** [String(v)], also the conversion made by a template literal, by a
    property key and by [v.toString()] when [v] has that method.  (An
    object with a property [toString] or [valueOf] of its own, on which
    the conversion throws, is not told apart.) *)
Fixpoint to_string (v : value) : string :=
  match v with
  | VNull => "null"
  | VBool true => "true"
  | VBool false => "false"
  | VNum n => Str.of_Z n
  | VStr s => s
  | VArr l =>
      let elem (x : value) : string :=
        match x with VNull => EmptyString | _ => to_string x end in
      Str.join "," (List.map elem l)
  | VObj _ => "[object Object]"
  | VNative name => native_text name
  end.

Definition toStr (v : option value) : string :=
  match v with
  | None => "undefined"
  | Some x => to_string x
  end.

(** [a === b].  Two arrays or two objects are compared by identity; the
    values compared by the code always come from different documents, so
    they are never the same object.  An inherited value is the same
    object wherever it is read. *)
Definition strict_eq (a b : option value) : bool :=
  match a, b with
  | None, None => true
  | Some VNull, Some VNull => true
  | Some (VBool x), Some (VBool y) => Bool.eqb x y
  | Some (VNum x), Some (VNum y) => Z.eqb x y
  | Some (VStr x), Some (VStr y) => String.eqb x y
  | Some (VNative x), Some (VNative y) => String.eqb x y
  | _, _ => false
  end.

Fixpoint indexed {A} (i : nat) (l : list A) : list (string * A) :=
  match l with
  | [] => []
  | x :: r => (Str.of_Z (Z.of_nat i), x) :: indexed (S i) r
  end.

(** [v[k]] for a value that is not [null]: the properties of an object,
    its own or inherited; the elements and the length of an array, the
    characters and the length of a string; the name and the length of an
    inherited function, the properties of the prototype.  The methods
    that an array, a string, a number, a boolean or a function inherit
    are left out: the code reads a computed key of such a value only to
    look for [rmrecnbr], [rmnbr] and [building] in what it finds, and a
    method has none of them. *)
Definition prop (v : value) (k : string) : option value :=
  match v with
  | VObj o => lookup o k
  | VArr l =>
      if String.eqb k "length" then Some (VNum (Z.of_nat (List.length l)))
      else match array_index k with
           | Some i => nth_error l (N.to_nat i)
           | None => None
           end
  | VStr s =>
      if String.eqb k "length" then Some (VNum (Z.of_nat (String.length s)))
      else match array_index k with
           | Some i =>
               match String.get (N.to_nat i) s with
               | Some c => Some (VStr (String c EmptyString))
               | None => None
               end
           | None => None
           end
  | VNative name =>
      if is_prototype name then
        if is_prototype k then Some VNull
        else if inherited k then Some (VNative k) else None
      else if String.eqb k "length" then Some (VNum (native_length name))
      else if String.eqb k "name" then Some (VStr (native_name name))
      else None
  | _ => None
  end.

(** A function: [JSON.stringify] leaves it out of an object. *)
Definition is_function (v : value) : bool :=
  match v with
  | VNative name => negb (is_prototype name)
  | _ => false
  end.

(** The elements that are there. *)
Fixpoint somes {A} (l : list (option A)) : list A :=
  match l with
  | [] => []
  | Some x :: r => x :: somes r
  | None :: r => somes r
  end.

(** [v.k] where [v] may be [undefined] or [null]: the read then throws. *)
Definition member (v : option value) (k : string) : option (option value) :=
  match v with
  | None | Some VNull => None
  | Some x => Some (prop x k)
  end.

(** [Object.keys(v)] with the value of each key. *)
Definition entries (v : value) : list (string * value) :=
  match v with
  | VObj o => o
  | VArr l => indexed 0 l
  | VStr s =>
      indexed 0 (List.map (fun c => VStr (String c EmptyString))
                   (list_ascii_of_string s))
  | _ => []
  end.

(** [v === undefined || v === null] *)
Definition nullish (v : option value) : bool :=
  match v with
  | None | Some VNull => true
  | _ => false
  end.

(** [v.toLowerCase()]: only a string has the method, the call throws
    on any other value. *)
Definition toLowerCase (v : option value) : option string :=
  match v with
  | Some (VStr s) => Some (Str.toLowerCase s)
  | _ => None
  end.

(** [[...new Set(l)]]: the first occurrence of every element is kept. *)
Fixpoint uniq_acc {A} (eqb : A -> A -> bool) (seen l : list A) : list A :=
  match l with
  | [] => []
  | x :: r =>
      if List.existsb (eqb x) seen then uniq_acc eqb seen r
      else x :: uniq_acc eqb (x :: seen) r
  end.

Definition uniq {A} (eqb : A -> A -> bool) (l : list A) : list A :=
  uniq_acc eqb [] l.

Definition same_value (a b : value) : bool := strict_eq (Some a) (Some b).

(** Stable insertion sort for a "less or equal" test; this is
    [Array.prototype.sort] for a comparator that is a total preorder. *)
Fixpoint insert_sorted {A} (le : A -> A -> bool) (x : A) (l : list A) : list A :=
  match l with
  | [] => [x]
  | y :: r => if le x y then x :: l else y :: insert_sorted le x r
  end.

Definition sort {A} (le : A -> A -> bool) (l : list A) : list A :=
  fold_right (fun x acc => insert_sorted le x acc) [] l.

(** The "less or equal" test of a comparator, given the sign of what it
    returns ([NaN] counting as zero). *)
Definition le_of {A} (compareFn : A -> A -> comparison) (a b : A) : bool :=
  match compareFn a b with
  | Gt => false
  | _ => true
  end.

Definition same_sign (x y : comparison) : bool :=
  match x, y with
  | Lt, Lt | Eq, Eq | Gt, Gt => true
  | _, _ => false
  end.

(** A comparator is consistent on the elements of an array when it
    orders them as a total preorder: an element equals itself, swapping
    the arguments swaps the sign, and "less or equal" is transitive.
    [Array.prototype.sort] sorts (and keeps equal elements in their
    order) for such a comparator only. *)
Definition consistent {A} (compareFn : A -> A -> comparison) (l : list A) : bool :=
  List.forallb (fun a => same_sign (compareFn a a) Eq) l
  && List.forallb
       (fun a =>
          List.forallb
            (fun b => same_sign (compareFn a b) (CompOpp (compareFn b a))) l) l
  && List.forallb
       (fun a =>
          List.forallb
            (fun b =>
               List.forallb
                 (fun c => implb (le_of compareFn a b && le_of compareFn b c)
                             (le_of compareFn a c)) l) l) l.

(** The insertion sort keeps the elements. *)
Definition insert_sorted_permutes {A} (le : A -> A -> bool) (x : A) (l : list A)
  : Permutation (insert_sorted le x l) (x :: l).
Proof.
  induction l as [|y r IH]; simpl; [apply Permutation_refl|].
  destruct (le x y); [apply Permutation_refl|].
  apply perm_trans with (y :: x :: r); [apply perm_skip; exact IH | apply perm_swap].
Qed.

Definition sort_permutes {A} (le : A -> A -> bool) (l : list A)
  : Permutation (sort le l) l.
Proof.
  unfold sort. induction l as [|x l IH]; simpl; [apply perm_nil|].
  apply perm_trans with (x :: fold_right (fun x acc => insert_sorted le x acc) [] l);
    [apply insert_sorted_permutes | apply perm_skip; exact IH].
Qed.

End Js.

(** ** Numbers *)

Module Num.

(** What [Number(v)] gives: a finite double [(-1)^negative * m * 2^e]
    ([m] not negative), an infinity, or [NaN]. *)
Inductive number : Type :=
| NaN
| Infinite (negative : bool)
| Finite (negative : bool) (m : Z) (e : Z).

(** The integers that a double holds exactly, with their neighbours:
    below 2^53 in absolute value. *)
Definition safe (n : Z) : bool := (Z.abs n <? 9007199254740992)%Z.

Definition of_Z (n : Z) : number := Finite (n <? 0)%Z (Z.abs n) 0.

(** [2^l <= p / q] *)
Definition reaches (p q l : Z) : bool :=
  if (0 <=? l)%Z then (q * 2 ^ l <=? p)%Z else (q <=? p * 2 ^ (- l))%Z.

(** The double nearest to [p / q] ([p] not negative, [q] positive), the
    even one of two that are as near: IEEE 754 binary64, 53 bits above
    2^-1022 and multiples of 2^-1074 below. *)
Definition round (negative : bool) (p q : Z) : number :=
  if (p =? 0)%Z then Finite negative 0 0
  else
    let l := (Z.log2 p - Z.log2 q)%Z in
    let e := if reaches p q l then l else (l - 1)%Z in
    let shift := Z.max (e - 52) (-1074) in
    let num := if (0 <=? shift)%Z then p else (p * 2 ^ (- shift))%Z in
    let den := if (0 <=? shift)%Z then (q * 2 ^ shift)%Z else q in
    let m := (num / den)%Z in
    let r := (num mod den)%Z in
    let m :=
      if (den <? 2 * r)%Z || ((den =? 2 * r)%Z && Z.odd m) then (m + 1)%Z
      else m in
    if (971 <? shift)%Z || ((shift =? 971)%Z && (m =? 2 ^ 53)%Z)
    then Infinite negative
    else Finite negative m shift.

(** The value [digits * 10^exponent] of a decimal literal, rounded.  A
    literal far above the largest double or far below the smallest is
    settled on the number of its digits. *)
Definition of_decimal (negative : bool) (digits : Z) (exponent : Z) : number :=
  if (digits =? 0)%Z then Finite negative 0 0
  else
    if (400 <? Z.log2 digits / 4 + exponent)%Z then Infinite negative
    else if (Z.log2 digits + 1 + exponent <? -400)%Z then Finite negative 0 0
    else if (0 <=? exponent)%Z then round negative (digits * 10 ^ exponent) 1
    else round negative digits (10 ^ (- exponent)).

Definition digit_of (base : N) (c : ascii) : option N :=
  let n := Str.code c in
  let d :=
    if (48 <=? n) && (n <=? 57) then Some (N.of_nat (n - 48))
    else if (97 <=? n) && (n <=? 102) then Some (N.of_nat (n - 87))
    else if (65 <=? n) && (n <=? 70) then Some (N.of_nat (n - 55))
    else None in
  match d with
  | Some x => if (x <? base)%N then Some x else None
  | None => None
  end.

(** The leading digits of [s] in a base, their value after [acc], their
    number and what follows them. *)
Fixpoint span_base (base : N) (acc : N) (count : nat) (s : string)
  : N * nat * string :=
  match s with
  | EmptyString => (acc, count, s)
  | String c r =>
      match digit_of base c with
      | Some d => span_base base (acc * base + d) (S count) r
      | None => (acc, count, s)
      end
  end.

(** [ExponentPart], when one follows: its value and what follows it;
    [None] for an [e] without digits. *)
Definition exponent_part (s : string) : option (Z * string) :=
  match s with
  | String c r =>
      if (Str.code c =? 101) || (Str.code c =? 69) then
        let '(negative, body) :=
          match r with
          | String sign r' =>
              if Str.code sign =? 45 then (true, r')
              else if Str.code sign =? 43 then (false, r')
              else (false, r)
          | EmptyString => (false, r)
          end in
        let '(x, count, rest) := span_base 10 0 0 body in
        if count =? 0 then None
        else Some (if negative then (- Z.of_N x)%Z else Z.of_N x, rest)
      else Some (0%Z, s)
  | EmptyString => Some (0%Z, s)
  end.

(** [StrUnsignedDecimalLiteral]: [Infinity], or digits with an optional
    fraction and an optional exponent, one digit at least before the
    exponent. *)
Definition of_unsigned_decimal (negative : bool) (s : string) : number :=
  if String.eqb s "Infinity" then Infinite negative
  else
    let '(int, int_count, after_int) := span_base 10 0 0 s in
    let '(digits, frac_count, after_frac) :=
      match after_int with
      | String c r =>
          if Str.code c =? 46 then
            let '(all, count, rest) := span_base 10 int 0 r in
            (all, count, rest)
          else (int, 0, after_int)
      | EmptyString => (int, 0, after_int)
      end in
    if int_count + frac_count =? 0 then NaN
    else
      match exponent_part after_frac with
      | Some (x, EmptyString) =>
          of_decimal negative (Z.of_N digits) (x - Z.of_nat frac_count)
      | _ => NaN
      end.

(** [NonDecimalIntegerLiteral]: [0x], [0o] or [0b] and digits of the
    base, without a sign. *)
Definition of_prefixed (s : string) : option number :=
  match s with
  | String z (String p body) =>
      if Str.code z =? 48 then
        let n := Str.code p in
        let base :=
          if (n =? 120) || (n =? 88) then Some 16%N
          else if (n =? 111) || (n =? 79) then Some 8%N
          else if (n =? 98) || (n =? 66) then Some 2%N
          else None in
        match base with
        | Some b =>
            let '(x, count, rest) := span_base b 0 0 body in
            if (0 <? count) && String.eqb rest EmptyString
            then Some (round false (Z.of_N x) 1)
            else Some NaN
        | None => None
        end
      else None
  | _ => None
  end.

(** [Number(s)] for a string: the white space around it is dropped, the
    empty string is 0, a text that is no numeric literal is [NaN]. *)
Definition of_string (s : string) : number :=
  let t := Str.trim s in
  match t with
  | EmptyString => Finite false 0 0
  | String c r =>
      match of_prefixed t with
      | Some x => x
      | None =>
          if Str.code c =? 45 then of_unsigned_decimal true r
          else if Str.code c =? 43 then of_unsigned_decimal false r
          else of_unsigned_decimal false t
      end
  end.

(** [Number(v)] *)
Definition of_value (v : option value) : number :=
  match v with
  | None => NaN
  | Some VNull => Finite false 0 0
  | Some (VBool b) => Finite false (if b then 1 else 0) 0
  | Some (VNum n) => of_Z n
  | Some (VStr s) => of_string s
  | Some (VArr l) => of_string (Js.to_string (VArr l))
  | Some (VObj _) => NaN
  | Some (VNative _) => NaN
  end.

(** The integer [(-1)^negative * m * 2^(e - k)], for [k] at most [e]. *)
Definition scaled (negative : bool) (m e k : Z) : Z :=
  let x := (m * 2 ^ (e - k))%Z in if negative then (- x)%Z else x.

(** The sign of [a - b]; a difference that is [NaN] counts as zero, as
    [Array.prototype.sort] takes it. *)
Definition subtract (a b : number) : comparison :=
  match a, b with
  | NaN, _ | _, NaN => Eq
  | Infinite s, Infinite s' =>
      if Bool.eqb s s' then Eq else if s then Lt else Gt
  | Infinite s, Finite _ _ _ => if s then Lt else Gt
  | Finite _ _ _, Infinite s => if s then Gt else Lt
  | Finite s m e, Finite s' m' e' =>
      let k := Z.min e e' in
      Z.compare (scaled s m e k) (scaled s' m' e' k)
  end.

(** [v > 0] *)
Definition positive (v : option value) : bool :=
  match of_value v with
  | Finite false m _ => (0 <? m)%Z
  | Infinite false => true
  | _ => false
  end.

(** The comparator [(a, b) => Number(a) - Number(b)]. *)
Definition compare_numeric (a b : string) : comparison :=
  subtract (of_string a) (of_string b).

End Num.

(** ** Exceptions *)

(** A computation that may throw: [None] is the thrown exception. *)
Notation "x <- e ;; k" :=
  (match e with Some x => k | None => None end)
    (at level 61, e at next level, right associativity).

Fixpoint mapM {A B} (f : A -> option B) (l : list A) : option (list B) :=
  match l with
  | [] => Some []
  | x :: r => y <- f x ;; ys <- mapM f r ;; Some (y :: ys)
  end.

(** [l.filter(p)] for a callback that may throw. *)
Fixpoint filterM {A} (p : A -> option bool) (l : list A) : option (list A) :=
  match l with
  | [] => Some []
  | x :: r => b <- p x ;; ys <- filterM p r ;; Some (if b then x :: ys else ys)
  end.

(** ** JSON text *)

Module Json.

Definition hex_digit (n : nat) : ascii :=
  if n <? 10 then ascii_of_nat (48 + n) else ascii_of_nat (87 + n).

Definition hex_value (c : ascii) : option nat :=
  let n := Str.code c in
  if (48 <=? n) && (n <=? 57) then Some (n - 48)
  else if (97 <=? n) && (n <=? 102) then Some (n - 87)
  else if (65 <=? n) && (n <=? 70) then Some (n - 55)
  else None.

(** How [JSON.stringify] writes one character of a string. *)
Definition escape_char (c : ascii) : string :=
  let n := Str.code c in
  if n =? 34 then String "\" (String c EmptyString)
  else if n =? 92 then "\\"
  else if n =? 8 then "\b"
  else if n =? 12 then "\f"
  else if n =? 10 then "\n"
  else if n =? 13 then "\r"
  else if n =? 9 then "\t"
  else if n <? 32 then
    String "\" (String "u" (String "0" (String "0"
      (String (hex_digit (n / 16)) (String (hex_digit (n mod 16)) EmptyString)))))
  else String c EmptyString.

Fixpoint quote_body (s : string) : string :=
  match s with
  | EmptyString => EmptyString
  | String c r => (escape_char c ++ quote_body r)%string
  end.

Definition dquote : ascii := ascii_of_nat 34.

Definition quote (s : string) : string :=
  String dquote (quote_body s ++ String dquote EmptyString)%string.

(** [JSON.stringify(v)] without indentation.  A property that holds a
    function is left out; an element that is one is written [null] (and
    [JSON.stringify] of a function alone is [undefined]: the code calls
    it on objects). *)
Fixpoint stringify (v : value) : string :=
  match v with
  | VNull => "null"
  | VBool true => "true"
  | VBool false => "false"
  | VNum n => Str.of_Z n
  | VStr s => quote s
  | VArr l => ("[" ++ Str.join "," (List.map stringify l) ++ "]")%string
  | VObj o =>
      let member (kv : string * value) : option string :=
        match kv with
        | (k, x) =>
            if Js.is_function x then None
            else Some (quote k ++ ":" ++ stringify x)%string
        end in
      ("{" ++ Str.join "," (Js.somes (List.map member o)) ++ "}")%string
  | VNative name => if Js.is_prototype name then "{}" else "null"
  end.

(** White space of the JSON grammar. *)
Definition is_ws (c : ascii) : bool :=
  let n := Str.code c in (n =? 32) || (n =? 9) || (n =? 10) || (n =? 13).

Fixpoint skip_ws (s : string) : string :=
  match s with
  | EmptyString => EmptyString
  | String c r => if is_ws c then skip_ws r else s
  end.

Fixpoint span_digits (s : string) : string * string :=
  match s with
  | EmptyString => (EmptyString, EmptyString)
  | String c r =>
      if Str.is_digit c
      then let '(d, rest) := span_digits r in (String c d, rest)
      else (EmptyString, s)
  end.

Definition span_number (s : string) : string * string :=
  match s with
  | EmptyString => (EmptyString, EmptyString)
  | String c r =>
      if Str.code c =? 45
      then let '(d, rest) := span_digits r in (String c d, rest)
      else span_digits s
  end.

(** The integer written by a literal of the JSON grammar: an optional
    minus sign, then either a single 0 or digits that do not start
    with 0.  An integer that a double does not hold exactly is not a
    number of the model. *)
Definition number_of (p : string) : option Z :=
  match NilZero.int_of_string p with
  | Some d =>
      let z := Z.of_int d in
      if (String.eqb (Str.of_Z z) p || String.eqb p "-0") && Num.safe z
      then Some z else None
  | None => None
  end.

(** A number of the model; [None] for a literal with a fraction or an
    exponent, which [valid] below accepts. *)
Definition parse_number (s : string) : option (value * string) :=
  let '(p, rest) := span_number s in
  match number_of p with
  | Some z =>
      match rest with
      | String c _ =>
          let n := Str.code c in
          if (n =? 46) || (n =? 101) || (n =? 69) then None
          else Some (VNum z, rest)
      | EmptyString => Some (VNum z, rest)
      end
  | None => None
  end.

Definition unescape_char (c : ascii) : option ascii :=
  let n := Str.code c in
  if n =? 34 then Some c
  else if n =? 92 then Some c
  else if n =? 47 then Some c
  else if n =? 98 then Some (ascii_of_nat 8)
  else if n =? 102 then Some (ascii_of_nat 12)
  else if n =? 110 then Some (ascii_of_nat 10)
  else if n =? 114 then Some (ascii_of_nat 13)
  else if n =? 116 then Some (ascii_of_nat 9)
  else None.

(** The characters of a string literal after its opening quote, and
    what follows the closing quote; [None] for an escape [\uXXXX] above
    U+00FF, which [valid] below accepts. *)
Fixpoint parse_string_body (s : string) : option (string * string) :=
  match s with
  | EmptyString => None
  | String c r =>
      let n := Str.code c in
      if n =? 34 then Some (EmptyString, r)
      else if n =? 92 then
        match r with
        | String e r1 =>
            if Str.code e =? 117 then
              match r1 with
              | String h1 (String h2 (String h3 (String h4 r2))) =>
                  match hex_value h1, hex_value h2, hex_value h3, hex_value h4 with
                  | Some 0, Some 0, Some a, Some b =>
                      match parse_string_body r2 with
                      | Some (t, rest) =>
                          Some (String (ascii_of_nat (16 * a + b)) t, rest)
                      | None => None
                      end
                  | _, _, _, _ => None
                  end
              | _ => None
              end
            else
              match unescape_char e with
              | Some x =>
                  match parse_string_body r1 with
                  | Some (t, rest) => Some (String x t, rest)
                  | None => None
                  end
              | None => None
              end
        | EmptyString => None
        end
      else if n <? 32 then None
      else
        match parse_string_body r with
        | Some (t, rest) => Some (String c t, rest)
        | None => None
        end
  end.

(** What follows the word [word] at the start of [s]. *)
Fixpoint strip_prefix (word s : string) : option string :=
  match word with
  | EmptyString => Some s
  | String a w =>
      match s with
      | String b r => if Ascii.eqb a b then strip_prefix w r else None
      | EmptyString => None
      end
  end.

Definition expect (word : string) (v : value) (s : string)
  : option (value * string) :=
  match strip_prefix word s with
  | Some rest => Some (v, rest)
  | None => None
  end.

(** The properties of an object literal are created in the order of the
    text; a repeated key keeps its place and takes the later value. *)
Definition object_of (members : list (string * value)) : value :=
  VObj (Js.literal members).

Fixpoint parse_value (fuel : nat) (s : string) : option (value * string) :=
  match fuel with
  | 0 => None
  | S fuel' =>
      match skip_ws s with
      | EmptyString => None
      | String c r as t =>
          let n := Str.code c in
          if n =? 110 then expect "null" VNull t
          else if n =? 116 then expect "true" (VBool true) t
          else if n =? 102 then expect "false" (VBool false) t
          else if n =? 34 then
            match parse_string_body r with
            | Some (str, rest) => Some (VStr str, rest)
            | None => None
            end
          else if n =? 91 then
            match skip_ws r with
            | String c' r' =>
                if Str.code c' =? 93 then Some (VArr [], r')
                else match parse_elements fuel' r with
                     | Some (l, rest) => Some (VArr l, rest)
                     | None => None
                     end
            | EmptyString => None
            end
          else if n =? 123 then
            match skip_ws r with
            | String c' r' =>
                if Str.code c' =? 125 then Some (VObj [], r')
                else match parse_members fuel' r with
                     | Some (l, rest) => Some (object_of l, rest)
                     | None => None
                     end
            | EmptyString => None
            end
          else if (n =? 45) || Str.is_digit c then parse_number t
          else None
      end
  end
with parse_elements (fuel : nat) (s : string) : option (list value * string) :=
  match fuel with
  | 0 => None
  | S fuel' =>
      match parse_value fuel' s with
      | Some (v, r) =>
          match skip_ws r with
          | String c r' =>
              if Str.code c =? 44 then
                match parse_elements fuel' r' with
                | Some (vs, rest) => Some (v :: vs, rest)
                | None => None
                end
              else if Str.code c =? 93 then Some ([v], r')
              else None
          | EmptyString => None
          end
      | None => None
      end
  end
with parse_members (fuel : nat) (s : string)
  : option (list (string * value) * string) :=
  match fuel with
  | 0 => None
  | S fuel' =>
      match skip_ws s with
      | String q r0 =>
          if Str.code q =? 34 then
            match parse_string_body r0 with
            | Some (k, r1) =>
                match skip_ws r1 with
                | String colon r2 =>
                    if Str.code colon =? 58 then
                      match parse_value fuel' r2 with
                      | Some (v, r3) =>
                          match skip_ws r3 with
                          | String c r' =>
                              if Str.code c =? 44 then
                                match parse_members fuel' r' with
                                | Some (ms, rest) => Some ((k, v) :: ms, rest)
                                | None => None
                                end
                              else if Str.code c =? 125 then Some ([(k, v)], r')
                              else None
                          | EmptyString => None
                          end
                      | None => None
                      end
                    else None
                | EmptyString => None
                end
            | None => None
            end
          else None
      | EmptyString => None
      end
  end.

(** [JSON.parse(text)] when the text is JSON and the model has a value
    for it; [None] is the [SyntaxError], or a text for which [beyond]
    holds. *)
Definition parse (text : string) : option value :=
  match parse_value (S (String.length text)) text with
  | Some (v, rest) =>
      match skip_ws rest with
      | EmptyString => Some v
      | _ => None
      end
  | None => None
  end.

(** *** The whole grammar

    What [JSON.parse] accepts, whether or not the model has a value for
    it: any number literal, any escape. *)

(** What follows the closing quote of a string literal. *)
Fixpoint valid_string_body (s : string) : option string :=
  match s with
  | EmptyString => None
  | String c r =>
      let n := Str.code c in
      if n =? 34 then Some r
      else if n =? 92 then
        match r with
        | String e r1 =>
            if Str.code e =? 117 then
              match r1 with
              | String h1 (String h2 (String h3 (String h4 r2))) =>
                  match hex_value h1, hex_value h2, hex_value h3, hex_value h4 with
                  | Some _, Some _, Some _, Some _ => valid_string_body r2
                  | _, _, _, _ => None
                  end
              | _ => None
              end
            else
              match unescape_char e with
              | Some _ => valid_string_body r1
              | None => None
              end
        | EmptyString => None
        end
      else if n <? 32 then None
      else valid_string_body r
  end.

(** One digit at least, and what follows the digits. *)
Definition valid_digits (s : string) : option string :=
  match span_digits s with
  | (EmptyString, _) => None
  | (_, rest) => Some rest
  end.

(** What follows a number literal: an optional minus sign, a single 0 or
    digits that do not start with 0, an optional fraction, an optional
    exponent. *)
Definition valid_number (s : string) : option string :=
  let unsigned :=
    match s with
    | String c r => if Str.code c =? 45 then r else s
    | EmptyString => s
    end in
  let after_int :=
    match unsigned with
    | String c r => if Str.code c =? 48 then Some r else valid_digits unsigned
    | EmptyString => None
    end in
  let after_frac :=
    match after_int with
    | Some (String c r) => if Str.code c =? 46 then valid_digits r else after_int
    | other => other
    end in
  match after_frac with
  | Some (String c r) =>
      if (Str.code c =? 101) || (Str.code c =? 69) then
        match r with
        | String sign r' =>
            if (Str.code sign =? 45) || (Str.code sign =? 43)
            then valid_digits r' else valid_digits r
        | EmptyString => None
        end
      else after_frac
  | other => other
  end.

Fixpoint valid_value (fuel : nat) (s : string) : option string :=
  match fuel with
  | 0 => None
  | S fuel' =>
      match skip_ws s with
      | EmptyString => None
      | String c r as t =>
          let n := Str.code c in
          if n =? 110 then strip_prefix "null" t
          else if n =? 116 then strip_prefix "true" t
          else if n =? 102 then strip_prefix "false" t
          else if n =? 34 then valid_string_body r
          else if n =? 91 then
            match skip_ws r with
            | String c' r' =>
                if Str.code c' =? 93 then Some r' else valid_elements fuel' r
            | EmptyString => None
            end
          else if n =? 123 then
            match skip_ws r with
            | String c' r' =>
                if Str.code c' =? 125 then Some r' else valid_members fuel' r
            | EmptyString => None
            end
          else if (n =? 45) || Str.is_digit c then valid_number t
          else None
      end
  end
with valid_elements (fuel : nat) (s : string) : option string :=
  match fuel with
  | 0 => None
  | S fuel' =>
      match valid_value fuel' s with
      | Some r =>
          match skip_ws r with
          | String c r' =>
              if Str.code c =? 44 then valid_elements fuel' r'
              else if Str.code c =? 93 then Some r'
              else None
          | EmptyString => None
          end
      | None => None
      end
  end
with valid_members (fuel : nat) (s : string) : option string :=
  match fuel with
  | 0 => None
  | S fuel' =>
      match skip_ws s with
      | String q r0 =>
          if Str.code q =? 34 then
            match valid_string_body r0 with
            | Some r1 =>
                match skip_ws r1 with
                | String colon r2 =>
                    if Str.code colon =? 58 then
                      match valid_value fuel' r2 with
                      | Some r3 =>
                          match skip_ws r3 with
                          | String c r' =>
                              if Str.code c =? 44 then valid_members fuel' r'
                              else if Str.code c =? 125 then Some r'
                              else None
                          | EmptyString => None
                          end
                      | None => None
                      end
                    else None
                | EmptyString => None
                end
            | None => None
            end
          else None
      | EmptyString => None
      end
  end.

(** The text is JSON. *)
Definition valid (text : string) : bool :=
  match valid_value (S (String.length text)) text with
  | Some rest => String.eqb (skip_ws rest) EmptyString
  | None => false
  end.

(** The text is JSON that the model has no value for: [JSON.parse]
    returns a document that holds a number which is not an integer below
    2^53, or a character above U+00FF. *)
Definition beyond (text : string) : bool :=
  valid text && match parse text with Some _ => false | None => true end.

End Json.

(** ** Transport encodings *)

Module Uri.

Definition HEX (n : nat) : ascii :=
  if n <? 10 then ascii_of_nat (48 + n) else ascii_of_nat (55 + n).

(** [%XX] *)
Definition pct (n : nat) : string :=
  String "%" (String (HEX (n / 16)) (String (HEX (n mod 16)) EmptyString)).

Definition is_alnum (c : ascii) : bool :=
  let n := Str.code c in
  ((48 <=? n) && (n <=? 57)) || ((65 <=? n) && (n <=? 90))
  || ((97 <=? n) && (n <=? 122)).

(** The characters [encodeURIComponent] leaves alone: letters, digits
    and [- _ . ! ~ * ' ( )]. *)
Definition component_unreserved (c : ascii) : bool :=
  let n := Str.code c in
  is_alnum c || (n =? 45) || (n =? 95) || (n =? 46) || (n =? 33)
  || (n =? 126) || (n =? 42) || (n =? 39) || (n =? 40) || (n =? 41).

(** The characters [escape] leaves alone: letters, digits and
    [@ * _ + - . /]. *)
Definition escape_unreserved (c : ascii) : bool :=
  let n := Str.code c in
  is_alnum c || (n =? 64) || (n =? 42) || (n =? 95) || (n =? 43)
  || (n =? 45) || (n =? 46) || (n =? 47).

(** [encodeURIComponent(s)]: the UTF-8 bytes of every other character,
    percent-encoded.  A code unit below 256 takes one or two bytes, and
    no string of the model holds a lone surrogate, so the call does not
    throw. *)
Definition encode_char (c : ascii) : string :=
  let n := Str.code c in
  if component_unreserved c then String c EmptyString
  else if n <? 128 then pct n
  else String.append (pct (192 + n / 64)) (pct (128 + n mod 64)).

Fixpoint encodeURIComponent (s : string) : string :=
  match s with
  | EmptyString => EmptyString
  | String c r => String.append (encode_char c) (encodeURIComponent r)
  end.

(** [unescape(s)]: [%XX] and [%uXXXX] become the character with that
    code; a code above 255 is outside the Latin-1 model ([None]). *)
Definition cons_opt (c : ascii) (o : option string) : option string :=
  match o with
  | Some u => Some (String c u)
  | None => None
  end.

Fixpoint unescape (s : string) : option string :=
  match s with
  | EmptyString => Some EmptyString
  | String c t =>
      if Str.code c =? 37 then
        match t with
        | String h (String l r) =>
            if Str.code h =? 117 then
              match r with
              | String h2 (String h3 (String h4 r')) =>
                  match Json.hex_value l, Json.hex_value h2,
                        Json.hex_value h3, Json.hex_value h4 with
                  | Some a, Some b, Some c', Some d =>
                      if (a =? 0) && (b =? 0)
                      then cons_opt (ascii_of_nat (16 * c' + d)) (unescape r')
                      else None
                  | _, _, _, _ => cons_opt c (unescape t)
                  end
              | _ => cons_opt c (unescape t)
              end
            else
              match Json.hex_value h, Json.hex_value l with
              | Some a, Some b => cons_opt (ascii_of_nat (16 * a + b)) (unescape r)
              | _, _ => cons_opt c (unescape t)
              end
        | _ => cons_opt c (unescape t)
        end
      else cons_opt c (unescape t)
  end.

(** [escape(s)] *)
Definition escape_char (c : ascii) : string :=
  if escape_unreserved c then String c EmptyString else pct (Str.code c).

Fixpoint escape (s : string) : string :=
  match s with
  | EmptyString => EmptyString
  | String c r => String.append (escape_char c) (escape r)
  end.

(** [decodeURIComponent(s)]: the percent-encoded bytes are read as
    UTF-8.  [None] is the [URIError] of a malformed sequence, or a
    character above U+00FF. *)
Fixpoint decodeURIComponent (s : string) : option string :=
  match s with
  | EmptyString => Some EmptyString
  | String c t =>
      if Str.code c =? 37 then
        match t with
        | String h (String l r) =>
            match Json.hex_value h, Json.hex_value l with
            | Some a, Some b =>
                let byte := 16 * a + b in
                if byte <? 128 then
                  match decodeURIComponent r with
                  | Some v => Some (String (ascii_of_nat byte) v)
                  | None => None
                  end
                else if (byte =? 194) || (byte =? 195) then
                  match r with
                  | String p (String h' (String l' r')) =>
                      match (if Str.code p =? 37 then Some tt else None),
                            Json.hex_value h', Json.hex_value l' with
                      | Some _, Some a', Some b' =>
                          let cont := 16 * a' + b' in
                          if (128 <=? cont) && (cont <? 192) then
                            match decodeURIComponent r' with
                            | Some v =>
                                Some (String
                                        (ascii_of_nat ((byte - 192) * 64 + (cont - 128)))
                                        v)
                            | None => None
                            end
                          else None
                      | _, _, _ => None
                      end
                  | _ => None
                  end
                else None
            | _, _ => None
            end
        | _ => None
        end
      else
        match decodeURIComponent t with
        | Some v => Some (String c v)
        | None => None
        end
  end.

(** The bytes are well-formed UTF-8: what [decodeURIComponent] accepts
    of a text in which every byte is percent-encoded. *)
Definition continuation (c : ascii) : bool :=
  (128 <=? Str.code c) && (Str.code c <=? 191).

Definition between (low high : nat) (c : ascii) : bool :=
  (low <=? Str.code c) && (Str.code c <=? high).

Fixpoint utf8_valid (bytes : string) : bool :=
  match bytes with
  | EmptyString => true
  | String a r =>
      let x := Str.code a in
      if x <? 128 then utf8_valid r
      else if (194 <=? x) && (x <=? 223) then
        match r with
        | String b r1 => continuation b && utf8_valid r1
        | _ => false
        end
      else if (224 <=? x) && (x <=? 239) then
        match r with
        | String b (String c r2) =>
            (if x =? 224 then between 160 191 b
             else if x =? 237 then between 128 159 b
             else continuation b)
            && continuation c && utf8_valid r2
        | _ => false
        end
      else if (240 <=? x) && (x <=? 244) then
        match r with
        | String b (String c (String d r3)) =>
            (if x =? 240 then between 144 191 b
             else if x =? 244 then between 128 143 b
             else continuation b)
            && continuation c && continuation d && utf8_valid r3
        | _ => false
        end
      else false
  end.

End Uri.

Module Base64.

Definition pad : ascii := "=".

(** The character of a 6-bit group. *)
Definition enc (n : nat) : ascii :=
  if n <? 26 then ascii_of_nat (65 + n)
  else if n <? 52 then ascii_of_nat (71 + n)
  else if n <? 62 then ascii_of_nat (n - 4)
  else if n =? 62 then "+" else "/".

Definition dec (c : ascii) : option nat :=
  let n := Str.code c in
  if (65 <=? n) && (n <=? 90) then Some (n - 65)
  else if (97 <=? n) && (n <=? 122) then Some (n - 71)
  else if (48 <=? n) && (n <=? 57) then Some (n + 4)
  else if n =? 43 then Some 62
  else if n =? 47 then Some 63
  else None.

(** [btoa(s)]; every character of the model is below 256, so the call
    does not throw. *)
Fixpoint btoa (s : string) : string :=
  match s with
  | EmptyString => EmptyString
  | String a EmptyString =>
      let a := Str.code a in
      String (enc (a / 4)) (String (enc (a mod 4 * 16))
        (String pad (String pad EmptyString)))
  | String a (String b EmptyString) =>
      let a := Str.code a in
      let b := Str.code b in
      String (enc (a / 4)) (String (enc (a mod 4 * 16 + b / 16))
        (String (enc (b mod 16 * 4)) (String pad EmptyString)))
  | String a (String b (String c r)) =>
      let a := Str.code a in
      let b := Str.code b in
      let c := Str.code c in
      String (enc (a / 4)) (String (enc (a mod 4 * 16 + b / 16))
        (String (enc (b mod 16 * 4 + c / 64)) (String (enc (c mod 64))
           (btoa r))))
  end.

Definition byte1 (w x : nat) : ascii := ascii_of_nat (w * 4 + x / 16).
Definition byte2 (x y : nat) : ascii := ascii_of_nat (x mod 16 * 16 + y / 4).
Definition byte3 (y z : nat) : ascii := ascii_of_nat (y mod 4 * 64 + z).

Definition is_ascii_ws (c : ascii) : bool :=
  let n := Str.code c in
  (n =? 9) || (n =? 10) || (n =? 12) || (n =? 13) || (n =? 32).

Fixpoint strip_ws (s : string) : string :=
  match s with
  | EmptyString => EmptyString
  | String c r => if is_ascii_ws c then strip_ws r else String c (strip_ws r)
  end.

(** The groups of four characters; the padding is accepted at the end
    of a text whose length is a multiple of four, and a last group of
    two or three characters is accepted without it. *)
Fixpoint decode_groups (s : string) : option string :=
  match s with
  | EmptyString => Some EmptyString
  | String _ EmptyString => None
  | String w (String x rest) =>
      match dec w, dec x with
      | Some w, Some x =>
          match rest with
          | EmptyString => Some (String (byte1 w x) EmptyString)
          | String y EmptyString =>
              match dec y with
              | Some y => Some (String (byte1 w x) (String (byte2 x y) EmptyString))
              | None => None
              end
          | String y (String z r) =>
              if Ascii.eqb z pad && String.eqb r EmptyString then
                if Ascii.eqb y pad then Some (String (byte1 w x) EmptyString)
                else
                  match dec y with
                  | Some y =>
                      Some (String (byte1 w x) (String (byte2 x y) EmptyString))
                  | None => None
                  end
              else
                match dec y, dec z, decode_groups r with
                | Some y, Some z, Some t =>
                    Some (String (byte1 w x) (String (byte2 x y)
                            (String (byte3 y z) t)))
                | _, _, _ => None
                end
          end
      | _, _ => None
      end
  end.

(** [atob(s)]; [None] is the exception for a text that is not base64. *)
Definition atob (s : string) : option string := decode_groups (strip_ws s).

End Base64.

(** ** The store and its collaborators *)

(** What the data layer takes from the other scripts of the page: the
    configuration tables and the helpers of the utilities and of the user
    interface. *)
Record Env : Type := {
  (** built-in code-to-label table, a plain object *)
  abbreviationMap : obj;
  (** overrides for a "type subtype" pair, a plain object *)
  fullReplacements : obj;
  (** the ordered (pattern, tag) rules; a pattern is its [test] method *)
  tagRules : list ((string -> bool) * string);
  generateMgisLink : obj -> option value;
  assignBuildingColor : value -> nat -> option value;
  (** [createRichTag(name, type, description, link, contact, imageUrl, color)] *)
  createRichTag :
    option value -> option value -> option value -> option value ->
    option value -> option value -> option value -> obj;
  (** [Array.prototype.sort] with a comparator, as the engine of the page
      runs it on an array of strings, the comparator given by the sign of
      what it returns.  The result has the elements of the array; for a
      consistent comparator it is sorted and stable, which settles it;
      for any other comparator ECMAScript leaves the order to the
      engine. *)
  sortBy : (string -> string -> comparison) -> list string -> list string;
  sortBy_permutes :
    forall compareFn l, Permutation (sortBy compareFn l) l;
  sortBy_consistent :
    forall compareFn l,
      Js.consistent compareFn l = true ->
      sortBy compareFn l = Js.sort (Js.le_of compareFn) l
}.

Record Filters : Type := {
  building : option value;
  floor : option value;
  tags : list string
}.

(** The process-wide [state] object, with the fields the data layer reads
    or writes. *)
Record State : Type := {
  processedData : list obj;
  customTags : jsobj (list obj);
  staffTags : jsobj (list string);
  buildingColors : obj;
  activeFilters : Filters;
  searchQuery : string;
  currentViewMode : value;
  resultsPerPage : value;
  currentPage : Z;
  availableBuildings : list value;
  availableFloors : list string;
  availableTags : list value;
  unmappedAbbreviations : jsobj Z;
  customAbbreviationMappings : option obj;
  currentFilteredData : list obj;
  autocompleteItems : list string;
  loadedFiles : list obj
}.

(** ** Unified search *)

Section UnifiedSearch.

Variable state : State.

(** [s.split(sep).forEach(word => { if (word.length > n) tags.push(word) })] *)
Definition long_words (sep : ascii -> bool) (n : nat) (s : string) : list string :=
  filter (fun word => n <? String.length word) (Str.split_on sep s).

(** The three pushes made for one label: the label, its qualified form
    and its words. *)
Definition label_tags (prefix : string) (sep : ascii -> bool) (n : nat)
    (label : string) : list string :=
  [label; (prefix ++ label)%string] ++ long_words sep n label.

Definition customTag_tags (tagObj : obj) : option (list string) :=
  a <- (if Js.truthy (Js.get tagObj "name")
        then l <- Js.toLowerCase (Js.get tagObj "name") ;;
             Some (label_tags "custom:" Str.is_space 1 l)
        else Some []) ;;
  b <- (if Js.truthy (Js.get tagObj "type")
        then l <- Js.toLowerCase (Js.get tagObj "type") ;;
             Some [("tagtype:" ++ l)%string]
        else Some []) ;;
  c <- (if Js.truthy (Js.get tagObj "color")
        then l <- Js.toLowerCase (Js.get tagObj "color") ;;
             Some [("color:" ++ l)%string]
        else Some []) ;;
  Some (a ++ b ++ c).

Definition staffTag_tags (staffTag : string) : list string :=
  let name := Str.toLowerCase (Str.remove_first "Staff: " staffTag) in
  label_tags "staff:" Str.is_space 1 name.

Definition category_tags (tag : value) : option (list string) :=
  l <- Js.toLowerCase (Some tag) ;; Some (label_tags "category:" Str.is_word_sep 2 l).

(** [None] is a [TypeError]: [toLowerCase] on a label that is not a
    string, [forEach] on tags that are not an array or on what
    [state.customTags[room.id]] and [state.staffTags[room.id]] inherit
    when the id is the name of a property of [Object.prototype]. *)
Definition createUnifiedTags (room : obj) : option (list string) :=
  let building := Js.get room "building" in
  let bld_descrshort := Js.get room "bld_descrshort" in
  let floor := Js.get room "floor" in
  let dept_descr := Js.get room "dept_descr" in
  let typeFull := Js.get room "typeFull" in
  let rmnbr := Js.get room "rmnbr" in
  (* Building tags *)
  t1 <- (if Js.truthy building
         then l <- Js.toLowerCase building ;;
              Some (label_tags "building:" Str.is_space 1 l)
         else Some []) ;;
  t2 <- (if Js.truthy bld_descrshort && negb (Js.strict_eq bld_descrshort building)
         then l <- Js.toLowerCase bld_descrshort ;;
              Some (label_tags "building:" Str.is_space 1 l)
         else Some []) ;;
  (* Floor tags *)
  let t3 :=
    if negb (Js.nullish floor)
    then let f := Js.toStr floor in
         [("floor:" ++ f)%string; ("f" ++ f)%string; ("level:" ++ f)%string; f]
    else [] in
  (* Department tags *)
  t4 <- (if Js.truthy dept_descr
         then l <- Js.toLowerCase dept_descr ;;
              Some (label_tags "department:" Str.is_space 2 l)
         else Some []) ;;
  (* Room type tags *)
  t5 <- (if Js.truthy typeFull
         then l <- Js.toLowerCase typeFull ;;
              Some (label_tags "type:" Str.is_type_sep 2 l)
         else Some []) ;;
  (* System-generated category tags *)
  t6 <- (match Js.get room "tags" with
         | Some (VArr l) => ts <- mapM category_tags l ;; Some (concat ts)
         | v => if Js.truthy v then None else Some []
         end) ;;
  (* Custom tags *)
  t7 <- (customTags <-
           match Js.read (customTags state) (Js.toStr (Js.get room "id")) with
           | Js.Own l => Some l
           | Js.Inherited => None
           | Js.Missing => Some []
           end ;;
         ts <- mapM customTag_tags customTags ;; Some (concat ts)) ;;
  (* Staff tags *)
  t8 <- (staffTags <-
           match Js.read (staffTags state) (Js.toStr (Js.get room "id")) with
           | Js.Own l => Some l
           | Js.Inherited => None
           | Js.Missing => Some []
           end ;;
         Some (concat (List.map staffTag_tags staffTags))) ;;
  (* Room number variations *)
  let t9 :=
    if Js.truthy rmnbr
    then let n := Str.toLowerCase (Js.toStr rmnbr) in
         [n; ("room:" ++ n)%string]
    else [] in
  Some (Js.uniq String.eqb (t1 ++ t2 ++ t3 ++ t4 ++ t5 ++ t6 ++ t7 ++ t8 ++ t9)).

(** The test made on one tag for one search term. *)
Definition tagMatches (roomTags : list string) (searchTerm tag : string) : bool :=
  (* Exact match *)
  if String.eqb tag searchTerm then true
  (* Prefix match for room numbers and IDs *)
  else if Str.startsWith tag searchTerm
          && ((2 <=? String.length searchTerm) || Str.starts_with_digit searchTerm)
  then true
  (* Contains match for longer terms *)
  else if (3 <=? String.length searchTerm) && Str.includes tag searchTerm then true
  (* Partial matches for compound terms *)
  else if Str.includes searchTerm "-" || Str.includes searchTerm " " then
    let searchWords := Str.split_on Str.is_word_sep searchTerm in
    List.forallb
      (fun word => (1 <? String.length word)
                   && List.existsb (fun t => Str.includes t word) roomTags)
      searchWords
  else false.

Definition termMatches (roomTags : list string) (searchTerm : string) : bool :=
  List.existsb (tagMatches roomTags searchTerm) roomTags.

Definition searchTermsOf (searchQuery : string) : list string :=
  filter (fun term => 0 <? String.length term)
    (List.map Str.trim
       (Str.split_on Str.is_query_sep (Str.toLowerCase searchQuery))).

Definition roomMatches (searchTerms : list string) (room : obj) : option bool :=
  roomTags <- createUnifiedTags room ;;
  Some (List.forallb (termMatches roomTags) searchTerms).

Definition searchRoomsByTags (searchQuery : string) : option (list obj) :=
  if String.eqb searchQuery EmptyString
     || (List.length (processedData state) =? 0)
  then Some (processedData state)
  else
    let searchTerms := searchTermsOf searchQuery in
    if List.length searchTerms =? 0 then Some (processedData state)
    else filterM (roomMatches searchTerms) (processedData state).

(** [[currentQuery, ...state.activeFilters.tags].filter(Boolean).join(' ')] *)
Definition combinedQuery : string :=
  Str.join " "
    (filter (fun s => negb (String.eqb s EmptyString))
       (searchQuery state :: tags (activeFilters state))).

(** The list returned by [data_getFilteredData]; the call also stores it
    in [state.currentFilteredData] (see [data_getFilteredData] below). *)
Definition filteredData : option (list obj) :=
  result <- searchRoomsByTags (searchQuery state) ;;
  let result :=
    if Js.truthy (building (activeFilters state))
    then filter (fun r => Js.strict_eq (Js.get r "building")
                            (building (activeFilters state))) result
    else result in
  let result :=
    if Js.truthy (floor (activeFilters state))
    then filter (fun r => String.eqb (Js.toStr (Js.get r "floor"))
                            (Js.toStr (floor (activeFilters state)))) result
    else result in
  if 0 <? List.length (tags (activeFilters state))
  then searchRoomsByTags combinedQuery
  else Some result.

End UnifiedSearch.

Definition set_currentFilteredData (result : list obj) (st : State) : State :=
  {| processedData := processedData st;
     customTags := customTags st;
     staffTags := staffTags st;
     buildingColors := buildingColors st;
     activeFilters := activeFilters st;
     searchQuery := searchQuery st;
     currentViewMode := currentViewMode st;
     resultsPerPage := resultsPerPage st;
     currentPage := currentPage st;
     availableBuildings := availableBuildings st;
     availableFloors := availableFloors st;
     availableTags := availableTags st;
     unmappedAbbreviations := unmappedAbbreviations st;
     customAbbreviationMappings := customAbbreviationMappings st;
     currentFilteredData := result;
     autocompleteItems := autocompleteItems st;
     loadedFiles := loadedFiles st |}.

(** [data_getFilteredData()]: the result and the store after the call. *)
Definition data_getFilteredData (st : State) : option (list obj * State) :=
  result <- filteredData st ;;
  Some (result, set_currentFilteredData result st).

(** ** Autocomplete vocabulary and search index *)

(** [suggestions.add(x)] on a [Set] of strings, kept in insertion order. *)
Definition set_add (x : string) (suggestions : list string) : list string :=
  if List.existsb (String.eqb x) suggestions then suggestions
  else suggestions ++ [x].

(** [const [prefix, value] = tag.split(':', 2)]: the second piece. *)
Definition split_value (tag : string) : option string :=
  match snd (Str.break_at ":" tag) with
  | Some rest => Some (fst (Str.break_at ":" rest))
  | None => None
  end.

Section Autocomplete.

Variable state : State.
Variable limit : nat.

(** The body of [tags.forEach] in [buildUnifiedAutocomplete]. *)
Definition suggest_tag (suggestions : list string) (tag : string) : list string :=
  if List.length suggestions <? limit then
    (* Add the tag as-is *)
    let suggestions := set_add tag suggestions in
    (* Add variations without prefixes for user convenience *)
    if Str.includes tag ":" then
      match split_value tag with
      | Some value => set_add value suggestions
      | None => suggestions
      end
    else suggestions
  else suggestions.

(** The body of [state.processedData.forEach]. *)
Definition suggest_room (suggestions : list string) (room : obj)
  : option (list string) :=
  if limit <=? List.length suggestions then Some suggestions
  else
    tags <- createUnifiedTags state room ;;
    let suggestions := fold_left suggest_tag tags suggestions in
    (* Add room number *)
    if Js.truthy (Js.get room "rmnbr") && (List.length suggestions <? limit)
    then Some (set_add (Js.toStr (Js.get room "rmnbr")) suggestions)
    else Some suggestions.

Fixpoint suggest_rooms (suggestions : list string) (rooms : list obj)
  : option (list string) :=
  match rooms with
  | [] => Some suggestions
  | room :: rest =>
      suggestions <- suggest_room suggestions room ;;
      suggest_rooms suggestions rest
  end.

Definition buildUnifiedAutocompleteUpTo : option (list string) :=
  suggestions <- suggest_rooms [] (processedData state) ;;
  Some (Js.sort Str.leb suggestions).

End Autocomplete.

(** [const limit = 5000] *)
Definition limit : nat := 5000.

Definition buildUnifiedAutocomplete (state : State) : option (list string) :=
  buildUnifiedAutocompleteUpTo state limit.

Definition set_autocompleteItems (items : list string) (st : State) : State :=
  {| processedData := processedData st;
     customTags := customTags st;
     staffTags := staffTags st;
     buildingColors := buildingColors st;
     activeFilters := activeFilters st;
     searchQuery := searchQuery st;
     currentViewMode := currentViewMode st;
     resultsPerPage := resultsPerPage st;
     currentPage := currentPage st;
     availableBuildings := availableBuildings st;
     availableFloors := availableFloors st;
     availableTags := availableTags st;
     unmappedAbbreviations := unmappedAbbreviations st;
     customAbbreviationMappings := customAbbreviationMappings st;
     currentFilteredData := currentFilteredData st;
     autocompleteItems := items;
     loadedFiles := loadedFiles st |}.

(** [createSearchIndex()]: the fuzzy index is an object of the Fuse
    library and is not part of the store modelled here; building its input
    calls [createUnifiedTags] on every room, and the autocomplete
    vocabulary is rebuilt after it.  An exception thrown on the way leaves
    the store as it was. *)
Definition createSearchIndex (st : State) : State :=
  match processedData st with
  | [] =>
      match buildUnifiedAutocomplete st with
      | Some items => set_autocompleteItems items st
      | None => st
      end
  | _ =>
      match mapM (createUnifiedTags st) (processedData st) with
      | Some _ =>
          match buildUnifiedAutocomplete st with
          | Some items => set_autocompleteItems items st
          | None => st
          end
      | None => st
      end
  end.

(** ** Ingestion *)


(** [abbr.length > 0] *)
Definition has_positive_length (abbr : option value) : bool :=
  match abbr with
  | Some (VStr s) => 0 <? String.length s
  | Some (VArr l) => 0 <? List.length l
  | Some (VObj o) => Num.positive (Js.get o "length")
  | Some (VNative name) => Num.positive (Js.prop (VNative name) "length")
  | _ => false
  end.

(** [o[key]] when the code goes on only if the property is truthy: an
    own property, or what [o] inherits under that key. *)
Definition lookup_truthy (o : obj) (key : string) : option value :=
  match Js.lookup o key with
  | Some v => if Js.truthy (Some v) then Some v else None
  | None => None
  end.

Record Batch : Type := {
  processed : list obj;
  unmapped : jsobj Z;
  buildings : list value;
  floors : list string;
  batchTags : list string;
  uniqueIdCounter : Z
}.

Section Ingestion.

Variable env : Env.

(** [normalizeAbbreviation(abbr, unmapped)]: the label and the counter
    after the call.  The counter is a plain object too; a code that
    reaches it is no property of [Object.prototype] (the table before it
    would have answered with the inherited value), so that [unmapped[abbr]]
    reads an own property or nothing. *)
Definition normalizeAbbreviation (state : State) (abbr : option value)
    (unmapped : jsobj Z) : value * jsobj Z :=
  match abbr with
  | None => (VStr EmptyString, unmapped)
  | Some a =>
      if negb (Js.truthy abbr) then (VStr EmptyString, unmapped)
      else
        let key := Js.toStr abbr in
        match
          match customAbbreviationMappings state with
          | Some mappings => lookup_truthy mappings key
          | None => None
          end
        with
        | Some label => (label, unmapped)
        | None =>
            match lookup_truthy (abbreviationMap env) key with
            | Some label => (label, unmapped)
            | None =>
                if has_positive_length abbr && negb (Str.is_blank key)
                then
                  let count :=
                    match Js.get unmapped key with
                    | Some n => n
                    | None => 0%Z
                    end in
                  (a, Js.set key (count + 1)%Z unmapped)
                else (a, unmapped)
            end
        end
  end.

Definition generateTags (roomType : value) (department : option value)
  : list string :=
  let fired :=
    filter (fun rule =>
              fst rule (Js.to_string roomType)
              || fst rule (Js.to_string (Js.or_else department (VStr EmptyString))))
           (tagRules env) in
  Js.uniq String.eqb (List.map snd fired).

(** The body of [data.forEach] in [processRoomData]. *)
Definition processRow (state : State) (acc : Batch) (row : obj) : Batch :=
  if negb (Js.truthy (Js.get row "rmnbr")) || Js.nullish (Js.get row "floor")
  then acc
  else
    let building :=
      Js.or_else (Js.get row "bld_descrshort") (VStr "Unknown Building") in
    let '(type, unmapped1) :=
      normalizeAbbreviation state (Js.get row "rmtyp_descrshort") (unmapped acc) in
    let '(sub, unmapped2) :=
      normalizeAbbreviation state (Js.get row "rmsubtyp_descrshort") unmapped1 in
    let full := type in
    let full :=
      if Js.truthy (Some sub) && negb (Js.strict_eq (Some type) (Some sub))
      then VStr (Js.to_string type ++ " - " ++ Js.to_string sub)%string
      else full in
    let pair := Str.trim (Js.to_string type ++ " " ++ Js.to_string sub)%string in
    let full :=
      match lookup_truthy (fullReplacements env) pair with
      | Some replacement => replacement
      | None => if Js.strict_eq (Some type) (Some sub) then type else full
      end in
    let rowTags := generateTags full (Js.get row "dept_descr") in
    let room :=
      Js.put "building" (Some building)
        (Js.put "mgisLink" (generateMgisLink env row)
           (Js.put "tags" (Some (VArr (List.map VStr rowTags)))
              (Js.put "typeFull" (Some full)
                 (Js.put "id" (Some (VNum (uniqueIdCounter acc))) row)))) in
    {| processed := processed acc ++ [room];
       unmapped := unmapped2;
       buildings := Js.uniq Js.same_value (buildings acc ++ [building]);
       floors := Js.uniq String.eqb (floors acc ++ [Js.toStr (Js.get row "floor")]);
       batchTags := Js.uniq String.eqb (batchTags acc ++ rowTags);
       uniqueIdCounter := (uniqueIdCounter acc + 1)%Z |}.

(** [buildingsArray.forEach]: a building without a colour gets one. *)
Definition colourBuilding (colors : obj) (b : value) : obj :=
  if negb (Js.truthy (Js.lookup colors (Js.to_string b)))
  then Js.put (Js.to_string b)
         (assignBuildingColor env b (List.length (Js.keys colors))) colors
  else colors.

Definition le_string_of (a b : value) : bool :=
  Str.leb (Js.to_string a) (Js.to_string b).

(** [processRoomData(data)] up to the rebuild of the search index. *)
Definition mergeRoomData (state : State) (data : list obj) : State :=
  let start :=
    {| processed := []; unmapped := []; buildings := []; floors := [];
       batchTags := [];
       uniqueIdCounter := Z.of_nat (List.length (processedData state)) |} in
  let batch := fold_left (processRow state) data start in
  {| processedData := processedData state ++ processed batch;
     customTags := customTags state;
     staffTags := staffTags state;
     buildingColors :=
       fold_left colourBuilding (buildings batch) (buildingColors state);
     activeFilters := activeFilters state;
     searchQuery := searchQuery state;
     currentViewMode := currentViewMode state;
     resultsPerPage := resultsPerPage state;
     currentPage := 1%Z;
     availableBuildings :=
       Js.sort le_string_of
         (Js.uniq Js.same_value (availableBuildings state ++ buildings batch));
     availableFloors :=
       sortBy env Num.compare_numeric
         (Js.uniq String.eqb (availableFloors state ++ floors batch));
     availableTags :=
       Js.sort le_string_of
         (Js.uniq Js.same_value
            (availableTags state ++ List.map VStr (batchTags batch)));
     unmappedAbbreviations :=
       Js.spread (unmappedAbbreviations state) (unmapped batch);
     customAbbreviationMappings := customAbbreviationMappings state;
     currentFilteredData := currentFilteredData state;
     autocompleteItems := autocompleteItems state;
     loadedFiles := loadedFiles state |}.

Definition processRoomData (state : State) (data : list obj) : State :=
  createSearchIndex (mergeRoomData state data).

End Ingestion.

(** ** Custom tag import *)

(** [l.find(p)] for a callback that may throw. *)
Fixpoint findM {A} (p : A -> option bool) (l : list A) : option (option A) :=
  match l with
  | [] => Some None
  | x :: r => b <- p x ;; if b then Some (Some x) else findM p r
  end.

(** [if (!targetRoom) targetRoom = lookup] *)
Definition unless_found (targetRoom lookup : option obj) : option obj :=
  match targetRoom with
  | Some _ => targetRoom
  | None => lookup
  end.

Record TagImport : Type := {
  tagStore : jsobj (list obj);
  importedCount : nat;
  skippedCount : nat;
  (** an exception left the loop *)
  thrown : bool
}.

Section TagImport.

Variable env : Env.
Variable state : State.

(** [roomRef.k] behind the guard [roomRef && ...]. *)
Definition refField (roomRef : option value) (k : string) : option value :=
  match roomRef with
  | Some r => if Js.truthy roomRef then Js.prop r k else None
  | None => None
  end.

(** The room an entry of the file is attached to; the outer [None] is
    the [TypeError] of [r.id.toString()] on a room without an id. *)
Definition resolveTargetRoom (roomIdFromFile : string) (roomRef : option value)
  : option (option obj) :=
  let rooms := processedData state in
  let targetRoom : option obj := None in
  let targetRoom :=
    if Js.truthy (refField roomRef "rmrecnbr")
    then List.find
           (fun r => String.eqb (Js.toStr (Js.get r "rmrecnbr"))
                       (Js.toStr (refField roomRef "rmrecnbr"))) rooms
    else targetRoom in
  targetRoom <-
    match targetRoom with
    | Some _ => Some targetRoom
    | None =>
        findM (fun r =>
                 match Js.get r "id" with
                 | None | Some VNull => None
                 | Some id => Some (String.eqb (Js.to_string id) roomIdFromFile)
                 end) rooms
    end ;;
  let targetRoom :=
    unless_found targetRoom
      (if Js.truthy (refField roomRef "rmnbr")
          && Js.truthy (refField roomRef "building")
       then List.find
              (fun r =>
                 Js.strict_eq (Js.get r "rmnbr") (refField roomRef "rmnbr")
                 && (Js.strict_eq (Js.get r "bld_descrshort")
                       (refField roomRef "building")
                     || Js.strict_eq (Js.get r "building")
                          (refField roomRef "building"))) rooms
       else None) in
  let targetRoom :=
    unless_found targetRoom
      (if Js.truthy (refField roomRef "rmnbr")
       then List.find
              (fun r => Js.strict_eq (Js.get r "rmnbr")
                          (refField roomRef "rmnbr")) rooms
       else None) in
  Some targetRoom.

(** The rich tag made from an entry of the file; reading a property of
    [null] throws. *)
Definition richTagOf (tagFromFile : value) : option obj :=
  match tagFromFile with
  | VStr name =>
      Some (createRichTag env (Some (VStr name)) (Some (VStr "simple"))
              (Some (VStr EmptyString)) (Some (VStr EmptyString))
              (Some (VStr EmptyString)) (Some (VStr EmptyString))
              (Some (VStr "blue")))
  | VNull => None
  | t =>
      Some (createRichTag env (Js.prop t "name") (Js.prop t "type")
              (Js.prop t "description") (Js.prop t "link")
              (Js.prop t "contact") (Js.prop t "imageUrl") (Js.prop t "color"))
  end.

Definition tagsOf (store : jsobj (list obj)) (key : string) : list obj :=
  match Js.get store key with
  | Some l => l
  | None => []
  end.

(** [tagsToImport.forEach], on the tag list stored under [key]. *)
Fixpoint importTags (key : string) (acc : TagImport) (tagsToImport : list value)
  : TagImport :=
  match tagsToImport with
  | [] => acc
  | tagFromFile :: rest =>
      match richTagOf tagFromFile with
      | None =>
          {| tagStore := tagStore acc; importedCount := importedCount acc;
             skippedCount := skippedCount acc; thrown := true |}
      | Some richTagObject =>
          let existing := tagsOf (tagStore acc) key in
          if negb (List.existsb
                     (fun existingTag =>
                        Js.strict_eq (Js.get existingTag "name")
                          (Js.get richTagObject "name")) existing)
          then importTags key
                 {| tagStore := Js.set key (existing ++ [richTagObject]) (tagStore acc);
                    importedCount := S (importedCount acc);
                    skippedCount := skippedCount acc;
                    thrown := thrown acc |} rest
          else importTags key acc rest
      end
  end.

(** The body of [Object.keys(importData.customTags).forEach]. *)
Definition importEntry (roomReference : option value) (acc : TagImport)
    (entry : string * value) : TagImport :=
  let '(roomIdFromFile, tagsToImport) := entry in
  match tagsToImport with
  | VArr (t :: ts) =>
      let roomRef :=
        match roomReference with
        | Some refs => if Js.truthy roomReference
                       then Js.prop refs roomIdFromFile else Some VNull
        | None => Some VNull
        end in
      match resolveTargetRoom roomIdFromFile roomRef with
      | None =>
          {| tagStore := tagStore acc; importedCount := importedCount acc;
             skippedCount := skippedCount acc; thrown := true |}
      | Some (Some targetRoom) =>
          let key := Js.toStr (Js.get targetRoom "id") in
          match Js.read (tagStore acc) key with
          | Js.Inherited =>
              (* [state.customTags[targetRoom.id]] is inherited: it is
                 truthy and has no method [some] *)
              {| tagStore := tagStore acc; importedCount := importedCount acc;
                 skippedCount := skippedCount acc; thrown := true |}
          | _ =>
              let store :=
                if Js.has (tagStore acc) key then tagStore acc
                else Js.set key [] (tagStore acc) in
              importTags key
                {| tagStore := store; importedCount := importedCount acc;
                   skippedCount := skippedCount acc; thrown := thrown acc |}
                (t :: ts)
          end
      | Some None =>
          {| tagStore := tagStore acc; importedCount := importedCount acc;
             skippedCount := S (skippedCount acc); thrown := thrown acc |}
      end
  | _ => acc
  end.

Fixpoint importEntries (roomReference : option value) (acc : TagImport)
    (entries : list (string * value)) : TagImport :=
  match entries with
  | [] => acc
  | entry :: rest =>
      let acc := importEntry roomReference acc entry in
      if thrown acc then acc else importEntries roomReference acc rest
  end.

(** The loop of [importCustomTags] on the parsed document; [None] when
    the document has no [customTags]. *)
Definition importCustomTagsData (importData : value) : option TagImport :=
  match Js.member (Some importData) "customTags" with
  | Some (Some tagsByRoom) =>
      if Js.truthy (Some tagsByRoom) then
        Some (importEntries (Js.prop importData "roomReference")
                {| tagStore := customTags state; importedCount := 0;
                   skippedCount := 0; thrown := false |}
                (Js.entries tagsByRoom))
      else None
  | _ => None
  end.

End TagImport.

Definition set_customTags (store : jsobj (list obj)) (st : State) : State :=
  {| processedData := processedData st;
     customTags := store;
     staffTags := staffTags st;
     buildingColors := buildingColors st;
     activeFilters := activeFilters st;
     searchQuery := searchQuery st;
     currentViewMode := currentViewMode st;
     resultsPerPage := resultsPerPage st;
     currentPage := currentPage st;
     availableBuildings := availableBuildings st;
     availableFloors := availableFloors st;
     availableTags := availableTags st;
     unmappedAbbreviations := unmappedAbbreviations st;
     customAbbreviationMappings := customAbbreviationMappings st;
     currentFilteredData := currentFilteredData st;
     autocompleteItems := autocompleteItems st;
     loadedFiles := loadedFiles st |}.

(** [importCustomTags(file)] on the text of the file, for a text of the
    model ([Json.beyond text = false]): the store after the call and the
    two counters.  A text that is not JSON, or a document without
    [customTags], leaves the store as it was; an exception inside the
    loop keeps what was imported before it and skips the rebuild of the
    search index. *)
Definition importCustomTags (env : Env) (text : string) (st : State)
  : State * option TagImport :=
  match Json.parse text with
  | None => (st, None)
  | Some importData =>
      match importCustomTagsData env st importData with
      | None => (st, None)
      | Some result =>
          let st' := set_customTags (tagStore result) st in
          (if thrown result then st' else createSearchIndex st', Some result)
      end
  end.

(** ** Session export and import *)

Module Shape.

(** The typed store holds rooms as objects, tag lists as arrays of
    objects and staff lists as arrays of strings.  These functions read
    a parsed document at those types; [None] is a document of another
    shape, which the typed store cannot hold. *)

Definition as_obj (v : value) : option obj :=
  match v with VObj o => Some o | _ => None end.

Definition as_string (v : value) : option string :=
  match v with VStr s => Some s | _ => None end.

Definition as_array {A} (f : value -> option A) (v : value) : option (list A) :=
  match v with VArr l => mapM f l | _ => None end.

Definition as_dict {A} (f : value -> option A) (v : value) : option (jsobj A) :=
  match v with
  | VObj o => mapM (fun kv => x <- f (snd kv) ;; Some (fst kv, x)) o
  | _ => None
  end.

Definition of_dict {A} (f : A -> value) (o : jsobj A) : value :=
  VObj (List.map (fun kv => (fst kv, f (snd kv))) o).

Definition of_rooms (l : list obj) : value := VArr (List.map VObj l).
Definition of_strings (l : list string) : value := VArr (List.map VStr l).

Definition of_filters (f : Filters) : value :=
  VObj (Js.put "tags" (Some (of_strings (tags f)))
          (Js.put "floor" (floor f) (Js.put "building" (building f) []))).

Definition as_filters (v : value) : option Filters :=
  match v with
  | VObj o =>
      match Js.get o "tags" with
      | Some t =>
          ts <- as_array as_string t ;;
          Some {| building := Js.get o "building";
                  floor := Js.get o "floor";
                  tags := ts |}
      | None => None
      end
  | _ => None
  end.

End Shape.

(** [exportSession()], given the time stamp of the call: the text handed
    to [downloadFile]; [None] when there is nothing to export or when the
    encoding throws. *)
Definition sessionDocument (now : string) (state : State) : value :=
  VObj
    [("version", VStr "1.1"); ("timestamp", VStr now); ("type", VStr "um_session");
     ("data",
      VObj
        [("processedData", Shape.of_rooms (processedData state));
         ("customTags", Shape.of_dict Shape.of_rooms (customTags state));
         ("staffTags", Shape.of_dict Shape.of_strings (staffTags state));
         ("buildingColors", VObj (buildingColors state));
         ("activeFilters", Shape.of_filters (activeFilters state));
         ("searchQuery", VStr (searchQuery state));
         ("currentViewMode", currentViewMode state);
         ("resultsPerPage", resultsPerPage state)])].

(** [btoa(unescape(encodeURIComponent(jsonString)))] *)
Definition encodeSession (jsonString : string) : option string :=
  bytes <- Uri.unescape (Uri.encodeURIComponent jsonString) ;;
  Some (Base64.btoa bytes).

(** [decodeURIComponent(escape(atob(compressedData)))] *)
Definition decodeSession (compressedData : string) : option string :=
  bytes <- Base64.atob compressedData ;;
  Uri.decodeURIComponent (Uri.escape bytes).

Definition exportSession (now : string) (state : State) : option string :=
  if (List.length (processedData state) =? 0)
     && (List.length (Js.keys (customTags state)) =? 0)
  then None
  else
    let sessionData := sessionDocument now state in
    let jsonString := Json.stringify sessionData in
    encodeSession jsonString.

Inductive SessionImport : Type :=
| (** the session replaced the store *)
  Restored (st : State)
| (** an exception was caught before the store was touched *)
  Failed
| (** the code reads the file and the model cannot follow it: the text
      has a character above U+00FF or a number that is not an integer
      below 2^53, or the document holds what the typed store has no
      place for (a room that is not an object, a staff tag that is not a
      string, ...) *)
  OutOfModel.

Definition roomBuilding (r : obj) : value :=
  Js.or_else (Js.or_opt (Js.get r "building") (Js.get r "bld_descrshort"))
    (VStr "Unknown").

Definition roomFloor (r : obj) : string :=
  if negb (Js.nullish (Js.get r "floor")) then Js.toStr (Js.get r "floor")
  else "N/A".

(** [r.tags || []] under [flatMap]: an array gives its elements, any
    other truthy value is one element. *)
Definition roomTagList (r : obj) : list value :=
  match Js.get r "tags" with
  | Some (VArr l) => l
  | Some v => if Js.truthy (Some v) then [v] else []
  | None => []
  end.

(** The comparator
    [(a, b) => (a === 'N/A') ? 1 : (b === 'N/A') ? -1 : Number(a) - Number(b)]. *)
Definition compare_floor (a b : string) : comparison :=
  if String.eqb a "N/A" then Gt
  else if String.eqb b "N/A" then Lt
  else Num.compare_numeric a b.

Definition facetBuildings (rooms : list obj) : list value :=
  Js.sort le_string_of (Js.uniq Js.same_value (List.map roomBuilding rooms)).

Definition facetFloors (env : Env) (rooms : list obj) : list string :=
  sortBy env compare_floor (Js.uniq String.eqb (List.map roomFloor rooms)).

Definition facetTags (rooms : list obj) : list value :=
  Js.sort le_string_of (Js.uniq Js.same_value (flat_map roomTagList rooms)).

(** The facet lists of a store are those of its rooms: the buildings are
    the values [r.building || r.bld_descrshort || 'Unknown'] of the rooms,
    the floors their values [r.floor.toString()] (['N/A'] without a
    floor), the tags the elements of their [tags], and nothing else; no
    floor is listed twice; the buildings and the tags stand in the order
    of their texts, and the floors in the order of the comparator when it
    orders them (floors that are numbers). *)
Definition facetsOfRooms (st : State) : Prop :=
  (forall b, In b (availableBuildings st)
             <-> exists room, In room (processedData st) /\ b = roomBuilding room)
  /\ (forall f, In f (availableFloors st)
                <-> exists room, In room (processedData st) /\ f = roomFloor room)
  /\ (forall t, In t (availableTags st)
                <-> exists room, In room (processedData st)
                                 /\ In t (roomTagList room))
  /\ NoDup (availableFloors st)
  /\ (Js.consistent compare_floor (availableFloors st) = true ->
      Sorted (fun a b => Js.le_of compare_floor a b = true) (availableFloors st))
  /\ Sorted (fun a b => le_string_of a b = true) (availableBuildings st)
  /\ Sorted (fun a b => le_string_of a b = true) (availableTags st).

Definition defaultFilters : value :=
  VObj [("building", VStr EmptyString); ("floor", VStr EmptyString);
        ("tags", VArr [])].

(** The bytes of the file are the UTF-8 text of characters of which one
    is above U+00FF. *)
Definition sessionBeyond (compressedData : string) : bool :=
  match Base64.atob compressedData, decodeSession compressedData with
  | Some bytes, None => Uri.utf8_valid bytes
  | _, _ => false
  end.

(** [importSession(file)] on the name and the text of the file. *)
Definition importSession (env : Env) (fileName : string) (compressedData : string)
    (state : State) : SessionImport :=
  match decodeSession compressedData with
  | None => if sessionBeyond compressedData then OutOfModel else Failed
  | Some jsonString =>
      match Json.parse jsonString with
      | None => if Json.beyond jsonString then OutOfModel else Failed
      | Some sessionData =>
          match Js.member (Some sessionData) "type" with
          | None => Failed
          | Some type =>
              if negb (Js.truthy type)
                 || negb (Js.strict_eq type (Some (VStr "um_session")))
              then Failed
              else
                match Js.member (Js.prop sessionData "data") "processedData" with
                | None => Failed
                | Some _ =>
                    let field (k : string) (default : value) : value :=
                      match Js.prop sessionData "data" with
                      | Some data => Js.or_else (Js.prop data k) default
                      | None => default
                      end in
                    match
                      Shape.as_array Shape.as_obj (field "processedData" (VArr [])),
                      Shape.as_dict (Shape.as_array Shape.as_obj)
                        (field "customTags" (VObj [])),
                      Shape.as_dict (Shape.as_array Shape.as_string)
                        (field "staffTags" (VObj [])),
                      Shape.as_obj (field "buildingColors" (VObj [])),
                      Shape.as_filters (field "activeFilters" defaultFilters),
                      Shape.as_string (field "searchQuery" (VStr EmptyString))
                    with
                    | Some rooms, Some custom, Some staff, Some colors,
                      Some filters, Some query =>
                        Restored
                          (createSearchIndex
                             {| processedData := rooms;
                                customTags := custom;
                                staffTags := staff;
                                buildingColors := colors;
                                activeFilters := filters;
                                searchQuery := query;
                                currentViewMode :=
                                  field "currentViewMode" (VStr "desktop");
                                resultsPerPage := field "resultsPerPage" (VNum 10);
                                currentPage := 1%Z;
                                availableBuildings := facetBuildings rooms;
                                availableFloors := facetFloors env rooms;
                                availableTags := facetTags rooms;
                                unmappedAbbreviations := unmappedAbbreviations state;
                                customAbbreviationMappings :=
                                  customAbbreviationMappings state;
                                currentFilteredData := currentFilteredData state;
                                autocompleteItems := autocompleteItems state;
                                loadedFiles :=
                                  loadedFiles state
                                  ++ [[("name", VStr fileName);
                                       ("type", VStr "session");
                                       ("status", VStr "processed")]] |})
                    | _, _, _, _, _, _ => OutOfModel
                    end
                end
          end
      end
  end.

(** ** Example data *)

(** Modelled from the spec: the store before any file is loaded (the
    [state] object is declared by another script of the page): no room, no
    annotation, no filter, an empty query. *)
Definition initialState : State :=
  {| processedData := [];
     customTags := [];
     staffTags := [];
     buildingColors := [];
     activeFilters :=
       {| building := Some (VStr EmptyString);
          floor := Some (VStr EmptyString);
          tags := [] |};
     searchQuery := EmptyString;
     currentViewMode := VStr "desktop";
     resultsPerPage := VNum 10;
     currentPage := 1%Z;
     availableBuildings := [];
     availableFloors := [];
     availableTags := [];
     unmappedAbbreviations := [];
     customAbbreviationMappings := None;
     currentFilteredData := [];
     autocompleteItems := [];
     loadedFiles := [] |}.

Module Example.

(** Modelled from the spec: a rich tag holds the seven fields it is made
    from (the helper [createRichTag] is in the utilities script; the time
    stamp and the synthetic id it adds play no part here). *)
Definition richTag (name type description link contact imageUrl color : option value)
  : obj :=
  Js.put "color" color
    (Js.put "imageUrl" imageUrl
       (Js.put "contact" contact
          (Js.put "link" link
             (Js.put "description" description
                (Js.put "type" type (Js.put "name" name [])))))).

(** An instance of the collaborators, to run the model on examples. *)
Definition env : Env :=
  {| abbreviationMap := [("OFF", VStr "Office"); ("LAB", VStr "Laboratory")];
     fullReplacements := [];
     tagRules := [((fun s => Str.includes (Str.toLowerCase s) "lab"), "Research");
                  ((fun s => Str.includes (Str.toLowerCase s) "radiology"), "Imaging")];
     generateMgisLink := fun _ => None;
     assignBuildingColor := fun _ _ => Some (VStr "blue");
     createRichTag := richTag;
     sortBy := fun compareFn => Js.sort (Js.le_of compareFn);
     sortBy_permutes := fun compareFn => Js.sort_permutes (Js.le_of compareFn);
     sortBy_consistent := fun compareFn l _ => eq_refl |}.

(** The room of the specification's example. *)
Definition row4101 : obj :=
  [("rmnbr", VStr "4101"); ("floor", VNum 4); ("bld_descrshort", VStr "Main");
   ("dept_descr", VStr "Radiology"); ("rmrecnbr", VNum 555001)].

Definition row4102 : obj :=
  [("rmnbr", VStr "4102"); ("floor", VNum 4); ("bld_descrshort", VStr "Main");
   ("dept_descr", VStr "Orthopedics"); ("rmtyp_descrshort", VStr "XYZ");
   ("rmrecnbr", VNum 555002)].

(** The store after the two rows are merged. *)
Definition state : State := processRoomData env initialState [row4101; row4102].

(** The same store with a building filter that no room satisfies and one
    active tag filter. *)
Definition filteredState : State :=
  {| processedData := processedData state;
     customTags := customTags state;
     staffTags := staffTags state;
     buildingColors := buildingColors state;
     activeFilters :=
       {| building := Some (VStr "Annex");
          floor := Some (VStr EmptyString);
          tags := ["Imaging"] |};
     searchQuery := "41";
     currentViewMode := currentViewMode state;
     resultsPerPage := resultsPerPage state;
     currentPage := currentPage state;
     availableBuildings := availableBuildings state;
     availableFloors := availableFloors state;
     availableTags := availableTags state;
     unmappedAbbreviations := unmappedAbbreviations state;
     customAbbreviationMappings := customAbbreviationMappings state;
     currentFilteredData := currentFilteredData state;
     autocompleteItems := autocompleteItems state;
     loadedFiles := loadedFiles state |}.


(** Room 4101 (id 0) already carries the custom tag ICU. *)
Definition taggedState : State :=
  set_customTags
    [("0", [richTag (Some (VStr "ICU")) (Some (VStr "simple"))
              (Some (VStr EmptyString)) (Some (VStr EmptyString))
              (Some (VStr EmptyString)) (Some (VStr EmptyString))
              (Some (VStr "blue"))])]
    state.

(** A tag file for room 4101 with the tag in lower case and in capitals. *)
Definition icuFile : value :=
  VObj
    [("version", VStr "1.2");
     ("customTags", VObj [("0", VArr [VStr "icu"; VStr "ICU"])]);
     ("roomReference",
      VObj [("0", VObj [("rmnbr", VStr "4101"); ("typeFull", VStr EmptyString);
                        ("rmrecnbr", VNum 555001); ("building", VStr "Main")])])].

(** A larger import: 2496 rooms on floor 1 of one building, numbered from
    1000, and one room on floor 2. *)
Definition towerRow (rmnbr floor : Z) : obj :=
  [("rmnbr", VNum rmnbr); ("floor", VNum floor); ("bld_descrshort", VStr "Tower A")].

Definition towerRows : list obj :=
  List.map (fun i => towerRow (1000 + Z.of_nat i) 1) (seq 0 2496)
  ++ [towerRow 9000 2].

Definition towerState : State := mergeRoomData env initialState towerRows.

(** A row whose room type is the name of a property that every plain
    object inherits. *)
Definition rowConstructor : obj :=
  [("rmnbr", VStr "4103"); ("floor", VNum 4); ("bld_descrshort", VStr "Main");
   ("rmtyp_descrshort", VStr "constructor")].

(** The store after that row is merged: the type of its room is the
    function that [abbreviationMap["constructor"]] gave. *)
Definition inheritedState : State := processRoomData env initialState [rowConstructor].

(** The document of a session file that this store did not write (the
    file of another copy of the page, or one edited by hand): its two
    rooms carry the ids 1 and 2. *)
Definition foreignRoom (id : Z) (rmnbr : string) : obj :=
  [("rmnbr", VStr rmnbr); ("floor", VNum 4); ("bld_descrshort", VStr "Main");
   ("id", VNum id); ("typeFull", VStr EmptyString); ("tags", VArr []);
   ("building", VStr "Main")].

Definition foreignSession : value :=
  VObj
    [("version", VStr "1.1"); ("timestamp", VStr "2025-01-01T00:00:00.000Z");
     ("type", VStr "um_session");
     ("data",
      VObj
        [("processedData",
          VArr [VObj (foreignRoom 1 "4101"); VObj (foreignRoom 2 "4102")]);
         ("customTags", VObj []); ("staffTags", VObj []);
         ("buildingColors", VObj [("Main", VStr "blue")]);
         ("activeFilters", defaultFilters); ("searchQuery", VStr EmptyString);
         ("currentViewMode", VStr "desktop"); ("resultsPerPage", VNum 10)])].

(** The text of that file. *)
Definition foreignFile : string :=
  Eval vm_compute in
    match encodeSession (Json.stringify foreignSession) with
    | Some compressedData => compressedData
    | None => EmptyString
    end.

End Example.

(** ** Vocabulary of the properties *)

Definition nonempty (w : string) : bool := 0 <? String.length w.

Definition no_sep (sep : ascii -> bool) (w : string) : bool :=
  Str.forallb (fun c => negb (sep c)) w.

(** A term of a query: not empty, without white space or comma. *)
Definition is_term (t : string) : bool :=
  nonempty t && no_sep Str.is_query_sep t.

(** The compound rule of [tagMatches]: every sub-word is longer than one
    character and is contained in some tag. *)
Definition compoundMatches (roomTags : list string) (searchTerm : string) : bool :=
  List.forallb
    (fun word => (1 <? String.length word)
                 && List.existsb (fun t => Str.includes t word) roomTags)
    (Str.split_on Str.is_word_sep searchTerm).

(** The id of a room. *)
Definition roomId (room : obj) : option value := Js.get room "id".

(** The ids a dataset of [n] rooms holds when they were given out by the
    merges: 0, 1, ..., n - 1, in the order of the rooms. *)
Definition idsFrom (start : Z) (n : nat) : list (option value) :=
  List.map (fun i => Some (VNum (start + Z.of_nat i))) (seq 0 n).

(** The store after a sequence of merges. *)
Definition mergeBatches (env : Env) (st : State) (batches : list (list obj)) : State :=
  fold_left (processRoomData env) batches st.

(** The four ways the specification lists to find the room of an entry
    of a tag file, each on its own. *)
Definition byRecordNumber (st : State) (roomRef : option value) : option obj :=
  if Js.truthy (refField roomRef "rmrecnbr")
  then List.find
         (fun r => String.eqb (Js.toStr (Js.get r "rmrecnbr"))
                     (Js.toStr (refField roomRef "rmrecnbr")))
         (processedData st)
  else None.

Definition byRawId (st : State) (roomIdFromFile : string) : option (option obj) :=
  findM (fun r =>
           match Js.get r "id" with
           | None | Some VNull => None
           | Some id => Some (String.eqb (Js.to_string id) roomIdFromFile)
           end) (processedData st).

Definition byNumberAndBuilding (st : State) (roomRef : option value) : option obj :=
  if Js.truthy (refField roomRef "rmnbr") && Js.truthy (refField roomRef "building")
  then List.find
         (fun r =>
            Js.strict_eq (Js.get r "rmnbr") (refField roomRef "rmnbr")
            && (Js.strict_eq (Js.get r "bld_descrshort") (refField roomRef "building")
                || Js.strict_eq (Js.get r "building") (refField roomRef "building")))
         (processedData st)
  else None.

Definition byNumber (st : State) (roomRef : option value) : option obj :=
  if Js.truthy (refField roomRef "rmnbr")
  then List.find
         (fun r => Js.strict_eq (Js.get r "rmnbr") (refField roomRef "rmnbr"))
         (processedData st)
  else None.

(** The lookups are tried in order and the first that finds a room wins;
    a lookup that throws ends the search with its exception. *)
Fixpoint firstFound (lookups : list (unit -> option (option obj)))
  : option (option obj) :=
  match lookups with
  | [] => Some None
  | lookup :: rest =>
      match lookup tt with
      | None => None
      | Some (Some room) => Some (Some room)
      | Some None => firstFound rest
      end
  end.

Definition resolutionOrder (st : State) (roomIdFromFile : string)
    (roomRef : option value) : option (option obj) :=
  firstFound
    [fun _ => Some (byRecordNumber st roomRef);
     fun _ => byRawId st roomIdFromFile;
     fun _ => Some (byNumberAndBuilding st roomRef);
     fun _ => Some (byNumber st roomRef)].



Definition tagNames (stored : list obj) : list (option value) :=
  List.map (fun t => Js.get t "name") stored.

(** The UTF-8 bytes of a string, one character per byte. *)
Definition utf8_char (c : ascii) : string :=
  let n := Str.code c in
  if n <? 128 then String c EmptyString
  else String (ascii_of_nat (192 + n / 64))
         (String (ascii_of_nat (128 + n mod 64)) EmptyString).

Fixpoint utf8 (s : string) : string :=
  match s with
  | EmptyString => EmptyString
  | String c r => String.append (utf8_char c) (utf8 r)
  end.

(** What [JSON.parse] makes of the text of a value: every object is built
    again, property after property, without the functions it held; a
    function in an array has become [null], and the prototype an empty
    object. *)
Fixpoint normalize (v : value) : value :=
  match v with
  | VArr l => VArr (List.map normalize l)
  | VObj o =>
      let member (kv : string * value) : option (string * value) :=
        match kv with
        | (k, x) => if Js.is_function x then None else Some (k, normalize x)
        end in
      Json.object_of (Js.somes (List.map member o))
  | VNative name => if Js.is_prototype name then VObj [] else VNull
  | _ => v
  end.

(** The properties of an object that [JSON.stringify] writes. *)
Definition written (o : obj) : obj :=
  filter (fun kv => negb (Js.is_function (snd kv))) o.

(** The fuel that parsing the text of a value takes. *)
Fixpoint weight (v : value) : nat :=
  match v with
  | VArr l => S (list_sum (List.map (fun x => S (weight x)) l))
  | VObj o =>
      let member (kv : string * value) : nat :=
        match kv with
        | (_, x) => if Js.is_function x then 0 else S (weight x)
        end in
      S (list_sum (List.map member o))
  | _ => 1
  end.

(** The enumeration order of the keys of an object: array indices first,
    in increasing order, then the other keys, all distinct. *)
Definition precedes (k0 k : string) : bool :=
  match Js.array_index k0, Js.array_index k with
  | Some i, Some j => (i <? j)%N
  | Some _, None => true
  | None, Some _ => false
  | None, None => negb (String.eqb k0 k)
  end.

Fixpoint canonical_keys (ks : list string) : bool :=
  match ks with
  | [] => true
  | k :: rest => List.forallb (precedes k) rest && canonical_keys rest
  end.

(** A value all of whose numbers are numbers of the model. *)
Fixpoint numeric (v : value) : bool :=
  match v with
  | VNum n => Num.safe n
  | VArr l => List.forallb numeric l
  | VObj o =>
      let member (kv : string * value) : bool :=
        match kv with
        | (_, x) => numeric x
        end in
      List.forallb member o
  | _ => true
  end.

(** A value as the model writes one: every object lists its properties
    in enumeration order and every number is a number of the model. *)
Fixpoint wf_value (v : value) : bool :=
  match v with
  | VNum n => Num.safe n
  | VArr l => List.forallb wf_value l
  | VObj o =>
      let member (kv : string * value) : bool :=
        match kv with
        | (_, x) => wf_value x
        end in
      canonical_keys (List.map fst o) && List.forallb member o
  | _ => true
  end.

(** A value that is JSON data: no part of it is inherited from
    [Object.prototype]. *)
Fixpoint json_value (v : value) : bool :=
  match v with
  | VArr l => List.forallb json_value l
  | VObj o =>
      let member (kv : string * value) : bool :=
        match kv with
        | (_, x) => json_value x
        end in
      List.forallb member o
  | VNative _ => false
  | _ => true
  end.

Definition wf_obj (o : obj) : bool := wf_value (VObj o).

(** The value of a dropdown filter: numbers of the model, and no
    function. *)
Definition written_filter (v : option value) : bool :=
  match v with
  | Some x => numeric x && negb (Js.is_function x)
  | None => true
  end.

(** What a session takes from a store is written as the model writes
    values: the rooms, the custom tags and the staff tags are objects in
    enumeration order, and every number is a number of the model; the
    two dropdown filters are values that a dropdown or a session file
    gives, no functions. *)
Definition wf_session (st : State) : bool :=
  List.forallb wf_obj (processedData st)
  && canonical_keys (List.map fst (customTags st))
  && List.forallb (fun kv => List.forallb wf_obj (snd kv)) (customTags st)
  && canonical_keys (List.map fst (staffTags st))
  && numeric (VObj (buildingColors st))
  && written_filter (building (activeFilters st))
  && written_filter (floor (activeFilters st))
  && numeric (currentViewMode st)
  && numeric (resultsPerPage st).

(** The rooms and the custom tags of a store are JSON data: no label of
    a room and no field of a tag is a function that the room or the tag
    got from [Object.prototype]. *)
Definition json_session (st : State) : bool :=
  List.forallb (fun room => json_value (VObj room)) (processedData st)
  && List.forallb
       (fun kv => List.forallb (fun tag => json_value (VObj tag)) (snd kv))
       (customTags st).

(** The settings that the text of a session carries: a view mode or a
    page size that is a function is left out. *)
Definition writtenSettings (st : State) : obj :=
  List.map (fun kv : string * value => (fst kv, normalize (snd kv)))
    (written [("currentViewMode", currentViewMode st);
              ("resultsPerPage", resultsPerPage st)]).

(** What follows a value inside a text: the end, a comma or a closing
    bracket. *)
Definition delimited (rest : string) : bool :=
  match rest with
  | EmptyString => true
  | String c _ =>
      (Str.code c =? 44) || (Str.code c =? 93) || (Str.code c =? 125)
  end.

(** The first character of the text of a value: no white space, no
    closing bracket. *)
Definition opens_value (s : string) : Prop :=
  match s with
  | EmptyString => False
  | String c _ =>
      Json.is_ws c = false /\ (Str.code c =? 93) = false
      /\ (Str.code c =? 125) = false
  end.

(** The text of [v], followed by a delimiter, parses back to [normalize v]
    with any fuel above its weight. *)
Definition parses (v : value) : Prop :=
  forall fuel rest,
    weight v <= fuel -> delimited rest = true ->
    Json.parse_value fuel (Json.stringify v ++ rest) = Some (normalize v, rest).

(** *** A faster run of the suggestion loop

    The loop of [buildUnifiedAutocomplete] keeps its suggestions in a list
    and walks it at every step.  To run it on thousands of rooms the same
    loop is written over a binary trie, a suggestion being filed under the
    bits of its characters, with the size at hand and the list in reverse;
    [suggest_rooms_fast] below relates the two. *)

Module StringSetFacts := FSetFacts.WFacts PositiveSet.

Definition bit (b : bool) (p : positive) : positive :=
  if b then xI p else xO p.

(** The bits of a string, character after character. *)
Fixpoint key (s : string) : positive :=
  match s with
  | EmptyString => xH
  | String (Ascii b0 b1 b2 b3 b4 b5 b6 b7) rest =>
      bit b0 (bit b1 (bit b2 (bit b3 (bit b4 (bit b5 (bit b6 (bit b7
        (key rest))))))))
  end.

Record Suggestions : Type := {
  newestFirst : list string;
  size : N;
  members : PositiveSet.t
}.

Definition noSuggestion : Suggestions :=
  {| newestFirst := []; size := 0%N; members := PositiveSet.empty |}.

Definition fast_add (x : string) (f : Suggestions) : Suggestions :=
  if PositiveSet.mem (key x) (members f) then f
  else {| newestFirst := x :: newestFirst f;
          size := N.succ (size f);
          members := PositiveSet.add (key x) (members f) |}.

Definition fast_suggest_tag (limit : N) (f : Suggestions) (tag : string)
  : Suggestions :=
  if (size f <? limit)%N then
    let f := fast_add tag f in
    if Str.includes tag ":" then
      match split_value tag with
      | Some value => fast_add value f
      | None => f
      end
    else f
  else f.

Definition fast_suggest_room (state : State) (limit : N) (f : Suggestions)
    (room : obj) : option Suggestions :=
  if (limit <=? size f)%N then Some f
  else
    tags <- createUnifiedTags state room ;;
    let f := fold_left (fast_suggest_tag limit) tags f in
    if Js.truthy (Js.get room "rmnbr") && (size f <? limit)%N
    then Some (fast_add (Js.toStr (Js.get room "rmnbr")) f)
    else Some f.

Fixpoint fast_suggest_rooms (state : State) (limit : N) (f : Suggestions)
    (rooms : list obj) : option Suggestions :=
  match rooms with
  | [] => Some f
  | room :: rest =>
      f <- fast_suggest_room state limit f room ;;
      fast_suggest_rooms state limit f rest
  end.

(** The trie run [f] stands for the list [s]. *)
Definition stands_for (f : Suggestions) (s : list string) : Prop :=
  s = rev (newestFirst f)
  /\ size f = N.of_nat (List.length s)
  /\ forall x,
       PositiveSet.mem (key x) (members f) = List.existsb (String.eqb x) s.

Definition stands_for_result (f : option Suggestions) (s : option (list string))
  : Prop :=
  match f, s with
  | Some f, Some s => stands_for f s
  | None, None => True
  | _, _ => False
  end.

Definition tags4101 : list string :=
  ["main"; "building:main"; "floor:4"; "f4"; "level:4"; "4"; "radiology";
   "department:radiology"; "imaging"; "category:imaging"; "4101"; "room:4101"].


(** ** The structural filters: an example *)

(** A row of another building and another floor. *)
Definition rowAnnex : obj :=
  [("rmnbr", VStr "2001"); ("floor", VNum 2); ("bld_descrshort", VStr "Annex");
   ("dept_descr", VStr "Radiology"); ("rmrecnbr", VNum 555003)].

(** The store after three rows are merged, with "Main" selected in the
    building dropdown and "4" in the floor dropdown, no tag filter, and
    the query "radiology". *)
Definition narrowedState : State :=
  let st :=
    processRoomData Example.env initialState
      [Example.row4101; rowAnnex; Example.row4102] in
  {| processedData := processedData st;
     customTags := customTags st;
     staffTags := staffTags st;
     buildingColors := buildingColors st;
     activeFilters :=
       {| building := Some (VStr "Main");
          floor := Some (VStr "4");
          tags := [] |};
     searchQuery := "radiology";
     currentViewMode := currentViewMode st;
     resultsPerPage := resultsPerPage st;
     currentPage := currentPage st;
     availableBuildings := availableBuildings st;
     availableFloors := availableFloors st;
     availableTags := availableTags st;
     unmappedAbbreviations := unmappedAbbreviations st;
     customAbbreviationMappings := customAbbreviationMappings st;
     currentFilteredData := currentFilteredData st;
     autocompleteItems := autocompleteItems st;
     loadedFiles := loadedFiles st |}.

(** ** Vocabulary of the further properties *)

(** The order of [Array.prototype.sort] without a comparator, as a
    relation. *)
Definition code_unit_le (a b : string) : Prop := Str.leb a b = true.

(** What the loop of [buildUnifiedAutocomplete] may add for a room: one of
    its synthesized tags, the bare value of a qualified tag, or its
    number. *)
Definition suggestedBy (state : State) (room : obj) (x : string) : Prop :=
  exists roomTags,
    createUnifiedTags state room = Some roomTags
    /\ (In x roomTags
        \/ (exists tag, In tag roomTags /\ Str.includes tag ":" = true
                        /\ split_value tag = Some x)
        \/ (Js.truthy (Js.get room "rmnbr") = true
            /\ x = Js.toStr (Js.get room "rmnbr"))).

(** What the loop of [buildUnifiedAutocomplete] keeps true of its set of
    suggestions: no string twice, and at most one string above the cap. *)
Definition withinCap (cap : nat) (s : list string) : Prop :=
  NoDup s /\ List.length s <= S cap.

(** The rows that [processRoomData] keeps: a truthy room number and a
    floor that is neither [undefined] nor [null]. *)
Definition acceptedRow (row : obj) : bool :=
  Js.truthy (Js.get row "rmnbr") && negb (Js.nullish (Js.get row "floor")).

(** The columns that a merge writes itself. *)
Definition derivedColumn (k : string) : bool :=
  List.existsb (String.eqb k) ["id"; "typeFull"; "tags"; "mgisLink"; "building"].

(** The room stored for a row of a room file. *)
Definition mergedFrom (row room : obj) : Prop :=
  (forall k, derivedColumn k = false -> Js.get room k = Js.get row k)
  /\ Js.get room "building"
     = Some (Js.or_else (Js.get row "bld_descrshort") (VStr "Unknown Building"))
  /\ Js.truthy (Js.get room "building") = true
  /\ (exists n, Js.get room "id" = Some (VNum n))
  /\ (exists typeFull, Js.get room "typeFull" = Some typeFull)
  /\ exists rowTags, Js.get room "tags" = Some (VArr (List.map VStr rowTags)).

(** The facet lists of a store cover a room: its building, its floor and
    its category tags can be selected. *)
Definition facetsCover (st : State) (room : obj) : Prop :=
  (forall b, Js.get room "building" = Some b -> In b (availableBuildings st))
  /\ In (Js.toStr (Js.get room "floor")) (availableFloors st)
  /\ forall l tag, Js.get room "tags" = Some (VArr l) -> In tag l ->
                   In tag (availableTags st).

(** What a batch has collected covers a room. *)
Definition batchCovers (batch : Batch) (room : obj) : Prop :=
  (forall b, Js.get room "building" = Some b -> In b (buildings batch))
  /\ In (Js.toStr (Js.get room "floor")) (floors batch)
  /\ forall l tag, Js.get room "tags" = Some (VArr l) -> In tag l ->
                   exists t, tag = VStr t /\ In t (batchTags batch).

(** ** Occupant data *)

(** The staff tags after the rows of an occupant file, or up to the row
    on which the loop threw. *)
Record Staffing : Type := {
  staffStore : jsobj (list string);
  (** an exception left the loop *)
  staffThrown : bool
}.

Section Occupants.

Variable state : State.

(** The body of [data.forEach] in [processOccupantData]: the staff tags
    after the row, and whether the row threw: the [TypeError] of
    [occ.person_name.trim()] on a name that is not a string, or that of
    [state.staffTags[room.id].includes] when the id of the room names a
    property of [Object.prototype], which is no array. *)
Definition addOccupant (store : jsobj (list string)) (occ : obj)
  : jsobj (list string) * bool :=
  if negb (Js.truthy (Js.get occ "rmrecnbr"))
     || negb (Js.truthy (Js.get occ "person_name"))
  then (store, false)
  else
    match List.find
            (fun r => String.eqb (Js.toStr (Js.get r "rmrecnbr"))
                        (Js.toStr (Js.get occ "rmrecnbr")))
            (processedData state) with
    | Some room =>
        let key := Js.toStr (Js.get room "id") in
        match Js.read store key with
        | Js.Inherited => (store, true)
        | _ =>
            let store := if Js.has store key then store else Js.set key [] store in
            match Js.get occ "person_name" with
            | Some (VStr person_name) =>
                let staffTag := ("Staff: " ++ Str.trim person_name)%string in
                let present :=
                  match Js.get store key with
                  | Some l => l
                  | None => []
                  end in
                if negb (List.existsb (String.eqb staffTag) present)
                then (Js.set key (present ++ [staffTag]) store, false)
                else (store, false)
            | _ => (store, true)
            end
        end
    | None => (store, false)
    end.

Fixpoint addOccupants (store : jsobj (list string)) (data : list obj) : Staffing :=
  match data with
  | [] => {| staffStore := store; staffThrown := false |}
  | occ :: rest =>
      let '(store, thrown) := addOccupant store occ in
      if thrown then {| staffStore := store; staffThrown := true |}
      else addOccupants store rest
  end.

End Occupants.

Definition set_staffTags (store : jsobj (list string)) (page : Z) (st : State)
  : State :=
  {| processedData := processedData st;
     customTags := customTags st;
     staffTags := store;
     buildingColors := buildingColors st;
     activeFilters := activeFilters st;
     searchQuery := searchQuery st;
     currentViewMode := currentViewMode st;
     resultsPerPage := resultsPerPage st;
     currentPage := page;
     availableBuildings := availableBuildings st;
     availableFloors := availableFloors st;
     availableTags := availableTags st;
     unmappedAbbreviations := unmappedAbbreviations st;
     customAbbreviationMappings := customAbbreviationMappings st;
     currentFilteredData := currentFilteredData st;
     autocompleteItems := autocompleteItems st;
     loadedFiles := loadedFiles st |}.

(** [processOccupantData(data)]: the store after the call, and whether the
    loop over the rows threw.  An exception in the loop keeps the staff
    tags pushed before it and skips the reset of the page and the rebuild
    of the search index. *)
Definition processOccupantData (st : State) (data : list obj) : State * bool :=
  let result := addOccupants st (staffTags st) data in
  if staffThrown result
  then (set_staffTags (staffStore result) (currentPage st) st, true)
  else (createSearchIndex (set_staffTags (staffStore result) 1%Z st), false).

(** The staff tags stored for a room. *)
Definition staffOf (store : jsobj (list string)) (key : string) : list string :=
  match Js.get store key with
  | Some l => l
  | None => []
  end.

(** What [processOccupantData] does with a row: it is skipped (no record
    number, no name, or no room with the record number), or a staff tag is
    to be attached under the id of the first room with the record number
    (the row throws when that id names a property of [Object.prototype]
    and the store holds nothing of its own under it), or the name is not
    a string and the row throws. *)
Inductive OccupantRow : Type :=
| Skipped
| Attached (key staffTag : string)
| Malformed (key : string).

Definition occupantRow (state : State) (occ : obj) : OccupantRow :=
  if Js.truthy (Js.get occ "rmrecnbr") && Js.truthy (Js.get occ "person_name")
  then
    match List.find
            (fun r => String.eqb (Js.toStr (Js.get r "rmrecnbr"))
                        (Js.toStr (Js.get occ "rmrecnbr")))
            (processedData state) with
    | Some room =>
        match Js.get occ "person_name" with
        | Some (VStr person_name) =>
            Attached (Js.toStr (Js.get room "id"))
              ("Staff: " ++ Str.trim person_name)
        | _ => Malformed (Js.toStr (Js.get room "id"))
        end
    | None => Skipped
    end
  else Skipped.

(** The staff tags [store] already hold what the row brings. *)
Definition settled (state : State) (store : jsobj (list string)) (occ : obj)
  : Prop :=
  match occupantRow state occ with
  | Skipped => True
  | Attached key staffTag =>
      Js.has store key = true /\ In staffTag (staffOf store key)
  | Malformed _ => False
  end.

(** Every key and every staff tag of [s] is in [s']. *)
Definition staffExtends (s s' : jsobj (list string)) : Prop :=
  forall key,
    (Js.has s key = true -> Js.has s' key = true)
    /\ forall staffTag, In staffTag (staffOf s key) -> In staffTag (staffOf s' key).

(** An occupant file for the example: one person in room 4101, found by
    its record number. *)
Definition occupants4101 : list obj :=
  [[("rmrecnbr", VNum 555001); ("person_name", VStr " Ada Lovelace ")]].

Definition staffedState : State :=
  fst (processOccupantData Example.state occupants4101).

(** ** Custom tag import: the counters *)

(** The number of tags a store holds, over all its rooms. *)
Definition storeSize (store : jsobj (list obj)) : nat :=
  list_sum (List.map (fun kv => List.length (snd kv)) store).

(** An entry of a tag file that the import looks at: its value is an
    array with at least one tag. *)
Definition entryRead (entry : string * value) : bool :=
  match snd entry with
  | VArr (_ :: _) => true
  | _ => false
  end.

(** The reference block the import reads for a key of the file. *)
Definition entryRef (roomReference : option value) (roomIdFromFile : string)
  : option value :=
  match roomReference with
  | Some refs => if Js.truthy roomReference
                 then Js.prop refs roomIdFromFile else Some VNull
  | None => Some VNull
  end.

(** An entry the import looks at and finds no room for. *)
Definition entryUnresolved (state : State) (roomReference : option value)
    (entry : string * value) : bool :=
  entryRead entry
  && match resolveTargetRoom state (fst entry) (entryRef roomReference (fst entry)) with
     | Some None => true
     | _ => false
     end.

(** What the import keeps true from one step to the next: the tags of
    every room are only appended to, and the counter of imported tags
    counts the tags appended. *)
Definition importStep (a b : TagImport) : Prop :=
  storeSize (tagStore b) + importedCount a
  = storeSize (tagStore a) + importedCount b
  /\ importedCount a <= importedCount b
  /\ forall k, exists added,
       tagsOf (tagStore b) k = tagsOf (tagStore a) k ++ added.

(** A tag file with an entry for a room that is not loaded and an entry
    without tags. *)
Definition strayFile : value :=
  VObj [("version", VStr "1.2");
        ("customTags", VObj [("0", VArr []); ("77", VArr [VStr "Lost"])])].

(** ** Custom tag export *)

Section TagExport.

Variable state : State.

(** The reference block written for a room:
    [{ rmnbr, typeFull, rmrecnbr, building: room.bld_descrshort }]. *)
Definition roomReferenceOf (room : obj) : obj :=
  Js.put "building" (Js.get room "bld_descrshort")
    (Js.put "rmrecnbr" (Js.get room "rmrecnbr")
       (Js.put "typeFull" (Js.get room "typeFull")
          (Js.put "rmnbr" (Js.get room "rmnbr") []))).

(** The body of [Object.keys(state.customTags).forEach] in
    [exportCustomTags], on the two objects [exportData.customTags] and
    [exportData.roomReference]; [None] is the [TypeError] of
    [r.id.toString()] on a room without an id.  Under the key
    [__proto__] the two assignments set the prototypes of the two
    objects and give them no property. *)
Definition exportEntry (acc : obj * obj) (roomId : string) : option (obj * obj) :=
  room <- findM (fun r =>
                   match Js.get r "id" with
                   | None | Some VNull => None
                   | Some id => Some (String.eqb (Js.to_string id) roomId)
                   end) (processedData state) ;;
  match room with
  | Some room =>
      let tags := tagsOf (customTags state) roomId in
      if (0 <? List.length tags) && negb (Js.is_prototype roomId)
      then Some (Js.set roomId (Shape.of_rooms tags) (fst acc),
                 Js.set roomId (VObj (roomReferenceOf room)) (snd acc))
      else Some acc
  | None => Some acc
  end.

Fixpoint exportEntries (acc : obj * obj) (roomIds : list string)
  : option (obj * obj) :=
  match roomIds with
  | [] => Some acc
  | roomId :: rest => acc <- exportEntry acc roomId ;; exportEntries acc rest
  end.

(** [exportCustomTags()], given the time stamp of the call: the document
    handed to [JSON.stringify(exportData, null, 2)] for the download.  The
    outer [None] is an exception, the inner one a call that exports
    nothing (no custom tag at all, or none on a loaded room). *)
Definition exportCustomTags (now : string) : option (option value) :=
  if List.length (Js.keys (customTags state)) =? 0 then Some None
  else
    exported <- exportEntries ([], []) (Js.keys (customTags state)) ;;
    if List.length (Js.keys (fst exported)) =? 0 then Some None
    else
      Some (Some (VObj [("version", VStr "1.2"); ("timestamp", VStr now);
                        ("customTags", VObj (fst exported));
                        ("roomReference", VObj (snd exported))])).

End TagExport.

(** What a pair of export objects holds for a store: the same keys on
    both sides and, under each key, the tags of a loaded room with that
    id and the reference block of the room. *)
Definition exportedFrom (state : State) (exported : obj * obj) : Prop :=
  Js.keys (fst exported) = Js.keys (snd exported)
  /\ forall roomId,
       Js.has (fst exported) roomId = true ->
       exists room tag tags,
         byRawId state roomId = Some (Some room)
         /\ tagsOf (customTags state) roomId = tag :: tags
         /\ Js.get (fst exported) roomId = Some (Shape.of_rooms (tag :: tags))
         /\ Js.get (snd exported) roomId = Some (VObj (roomReferenceOf room)).

(** A room whose id is no name of a property of [Object.prototype]: the
    tags of the store under its id are the store's own or none. *)
Definition plainId (room : obj) : bool :=
  negb (Js.inherited (Js.toStr (Js.get room "id"))).


(** ** Session files *)

(** The characters of a base64 text: A-Z, a-z, 0-9, [+], [/] and the
    padding [=]. *)
Definition base64_char (c : ascii) : bool :=
  match Base64.dec c with
  | Some _ => true
  | None => Ascii.eqb c Base64.pad
  end.

(** ** Pagination *)

(** [Math.ceil(a / b)] for two integers, [b] not zero. *)
Definition ceil_div (a b : Z) : Z := (- ((- a) / b))%Z.

(** The value of [totalPages] in [goToPage]: a number of pages, an
    infinity, or [NaN]. *)
Inductive PageCount : Type :=
| Pages (n : Z)
| Unbounded (negative : bool)
| NotANumber.

(** [Math.ceil(x)] *)
Definition ceil (x : Num.number) : PageCount :=
  match x with
  | Num.NaN => NotANumber
  | Num.Infinite negative => Unbounded negative
  | Num.Finite negative m e =>
      let n := if negative then (- m)%Z else m in
      if (0 <=? e)%Z then Pages (n * 2 ^ e) else Pages (ceil_div n (2 ^ (- e)))
  end.

(** [(state.resultsPerPage === 0) ? 1 : Math.ceil(totalItems / state.resultsPerPage)].
    The division rounds the quotient to a double.  By an integer it
    needs no rounding here: the quotient of two integers below 2^53 is
    not rounded to an integer that it is not, so that its ceiling is that
    of the exact quotient. *)
Definition totalPagesOf (totalItems : nat) (resultsPerPage : value) : PageCount :=
  if Js.strict_eq (Some resultsPerPage) (Some (VNum 0)) then Pages 1
  else
    match Num.of_value (Some resultsPerPage) with
    | Num.NaN => NotANumber
    | Num.Infinite _ => Pages 0
    | Num.Finite negative m e =>
        if (m =? 0)%Z
        then if totalItems =? 0 then NotANumber else Unbounded negative
        else if (0 <=? e)%Z
        then
          let n := if negative then (- m)%Z else m in
          Pages (ceil_div (Z.of_nat totalItems) (n * 2 ^ e))
        else ceil (Num.round negative (Z.of_nat totalItems * 2 ^ (- e)) m)
    end.

(** [pageNumber <= totalPages] *)
Definition le_pages (pageNumber : Z) (totalPages : PageCount) : bool :=
  match totalPages with
  | Pages n => (pageNumber <=? n)%Z
  | Unbounded negative => negb negative
  | NotANumber => false
  end.

Definition set_currentPage (page : Z) (st : State) : State :=
  {| processedData := processedData st;
     customTags := customTags st;
     staffTags := staffTags st;
     buildingColors := buildingColors st;
     activeFilters := activeFilters st;
     searchQuery := searchQuery st;
     currentViewMode := currentViewMode st;
     resultsPerPage := resultsPerPage st;
     currentPage := page;
     availableBuildings := availableBuildings st;
     availableFloors := availableFloors st;
     availableTags := availableTags st;
     unmappedAbbreviations := unmappedAbbreviations st;
     customAbbreviationMappings := customAbbreviationMappings st;
     currentFilteredData := currentFilteredData st;
     autocompleteItems := autocompleteItems st;
     loadedFiles := loadedFiles st |}.

(** [goToPage(pageNumber)] for a page number that is an integer: the store
    after the call (the display is redrawn by [updateResults], which is
    not part of the store). *)
Definition goToPage (pageNumber : Z) (state : State) : State :=
  let totalItems := List.length (currentFilteredData state) in
  if Js.strict_eq (Some (resultsPerPage state)) (Some (VNum 0))
     && negb (pageNumber =? 1)%Z
  then state
  else
    let totalPages := totalPagesOf totalItems (resultsPerPage state) in
    if (1 <=? pageNumber)%Z && le_pages pageNumber totalPages
    then set_currentPage pageNumber state
    else state.

(** The example store with its two rooms on display. *)
Definition displayedState : State :=
  set_currentFilteredData (processedData Example.state) Example.state.

(** ** The autocomplete box *)

(** [updateAutocomplete(query)]: the suggestions put in the box, in the
    order shown; the empty list is the hidden box.  The container element
    of the page is taken to exist. *)
Definition updateAutocomplete (state : State) (query : string) : list string :=
  if String.eqb query EmptyString || (String.length query <? 1) then []
  else
    let lowerQuery := Str.toLowerCase query in
    let stringItems :=
      filter (fun item => 0 <? String.length item) (autocompleteItems state) in
    if Str.starts_with_digit query then
      firstn 10
        (filter (fun i => Str.startsWith (Str.toLowerCase i) lowerQuery
                          || String.eqb (Str.toLowerCase i) lowerQuery)
           stringItems)
    else
      let startsWith :=
        firstn 5
          (filter (fun i => Str.startsWith (Str.toLowerCase i) lowerQuery)
             stringItems) in
      let includes :=
        firstn 5
          (filter (fun i => negb (Str.startsWith (Str.toLowerCase i) lowerQuery)
                            && Str.includes (Str.toLowerCase i) lowerQuery)
             stringItems) in
      startsWith ++ includes.

(** ** The tag dialog *)

(** What [addRichTagFromModal] reads from the page: the value of each
    input of the form ([None] when the element is missing) and the colour
    of the selected swatch (the outer [None] when no swatch is selected,
    the inner one when the swatch has no [data-color]). *)
Record TagForm : Type := {
  tagNameInput : option string;
  tagTypeSelect : option string;
  tagDescriptionInput : option string;
  tagLinkInput : option string;
  tagContactInput : option string;
  tagImageInput : option string;
  selectedColor : option (option string)
}.

Inductive ModalOutcome : Type :=
| (** no room is open in the dialog *)
  NoRoom
| (** the name is empty: "Please enter a tag name." *)
  NoName
| (** a tag of that name already exists for the room *)
  DuplicateName
| (** the tag was pushed on the list of the room *)
  TagAdded
| (** a [TypeError]: [name.toLowerCase()] on a name that is not a string,
      or [state.customTags[id].some] when the id names a property of
      [Object.prototype], which is no array *)
  ModalThrew.

(** [elements.input?.value?.trim() || ''] *)
Definition trimmedInput (input : option string) : string :=
  match input with
  | Some v => Str.trim v
  | None => EmptyString
  end.

(** [tags.some(tag => tag.name.toLowerCase() === name.toLowerCase())],
    where [name] is [newRichTag.name]. *)
Fixpoint someSameName (name : option value) (tags : list obj) : option bool :=
  match tags with
  | [] => Some false
  | tag :: rest =>
      a <- Js.toLowerCase (Js.get tag "name") ;;
      b <- Js.toLowerCase name ;;
      if String.eqb a b then Some true else someSameName name rest
  end.

(** [addRichTagFromModal()], given the room open in the dialog and the
    content of the form: the custom tags after the call and what the call
    did. *)
Definition addRichTagFromModal (env : Env) (currentRoomIdForModal : option string)
    (form : TagForm) (store : jsobj (list obj))
  : jsobj (list obj) * ModalOutcome :=
  match currentRoomIdForModal with
  | None => (store, NoRoom)
  | Some roomId =>
      if String.eqb roomId EmptyString then (store, NoRoom)
      else
        let name := trimmedInput (tagNameInput form) in
        if String.eqb name EmptyString then (store, NoName)
        else
          let type :=
            match tagTypeSelect form with
            | Some v => if String.eqb v EmptyString then "simple" else v
            | None => "simple"
            end in
          let description := trimmedInput (tagDescriptionInput form) in
          let link := trimmedInput (tagLinkInput form) in
          let contact := trimmedInput (tagContactInput form) in
          let imageUrl := trimmedInput (tagImageInput form) in
          let color :=
            match selectedColor form with
            | Some c => option_map VStr c
            | None => Some (VStr "blue")
            end in
          let newRichTag :=
            createRichTag env (Some (VStr name)) (Some (VStr type))
              (Some (VStr description)) (Some (VStr link))
              (Some (VStr contact)) (Some (VStr imageUrl)) color in
          match Js.read store roomId with
          | Js.Inherited => (store, ModalThrew)
          | _ =>
              let store :=
                if Js.has store roomId then store else Js.set roomId [] store in
              match
                someSameName (Js.get newRichTag "name") (tagsOf store roomId)
              with
              | None => (store, ModalThrew)
              | Some true => (store, DuplicateName)
              | Some false =>
                  (Js.set roomId (tagsOf store roomId ++ [newRichTag]) store,
                   TagAdded)
              end
          end
  end.

(** The names of the tags of a room, in lower case; [None] stands for a
    name that is not a string. *)
Definition lowerNames (tags : list obj) : list (option string) :=
  List.map (fun tag => Js.toLowerCase (Js.get tag "name")) tags.

(** ** Rooms whose labels are strings *)

(** A label the unified tags can be made from: a string, or a value that
    the code skips because it is falsy. *)
Definition textual (v : option value) : bool :=
  match v with
  | Some (VStr _) => true
  | _ => negb (Js.truthy v)
  end.

Definition textualTag (tagObj : obj) : bool :=
  textual (Js.get tagObj "name") && textual (Js.get tagObj "type")
  && textual (Js.get tagObj "color").

(** A room all of whose labels are strings: its building names, its
    department, its type, its category tags and the names, types and
    colours of its custom tags; and whose id is plain, so that
    [state.customTags[room.id]] and [state.staffTags[room.id]] are lists
    of the store or [undefined].  (The store holds the custom tags of a
    room as a list of objects and its staff tags as a list of strings,
    the form in which the code writes them; a store of another form is
    not among the stores of the model.) *)
Definition textualRoom (state : State) (room : obj) : bool :=
  plainId room
  && textual (Js.get room "building")
  && textual (Js.get room "bld_descrshort")
  && textual (Js.get room "dept_descr")
  && textual (Js.get room "typeFull")
  && match Js.get room "tags" with
     | Some (VArr l) =>
         List.forallb (fun t => match t with VStr _ => true | _ => false end) l
     | v => negb (Js.truthy v)
     end
  && List.forallb textualTag
       (tagsOf (customTags state) (Js.toStr (Js.get room "id"))).

(** ** The unmapped counter of a batch *)




(** ** The keyboard in the autocomplete box *)

(** The box on the page: whether it is hidden, the suggestions it holds
    (the elements with the role "option", which the item template is
    taken to carry) and [state.autocompleteActiveIndex]. *)
Record AutocompleteBox : Type := {
  boxHidden : bool;
  boxOptions : list string;
  activeIndex : Z
}.

(** What [updateAutocomplete(query)] does to the box: an empty query
    hides it as it is; a query without match empties and hides it; a
    query with matches fills it, shows it and selects nothing. *)
Definition updateAutocompleteBox (state : State) (query : string)
    (box : AutocompleteBox) : AutocompleteBox :=
  if String.eqb query EmptyString || (String.length query <? 1)
  then {| boxHidden := true; boxOptions := boxOptions box;
          activeIndex := activeIndex box |}
  else
    match updateAutocomplete state query with
    | [] => {| boxHidden := true; boxOptions := [];
               activeIndex := activeIndex box |}
    | matches => {| boxHidden := false; boxOptions := matches;
                    activeIndex := (-1)%Z |}
    end.

(** [items[i]] for an integer index. *)
Definition optionAt (options : list string) (i : Z) : option string :=
  if (i <? 0)%Z then None else nth_error options (Z.to_nat i).

Definition set_searchQuery (query : string) (page : Z) (st : State) : State :=
  {| processedData := processedData st;
     customTags := customTags st;
     staffTags := staffTags st;
     buildingColors := buildingColors st;
     activeFilters := activeFilters st;
     searchQuery := query;
     currentViewMode := currentViewMode st;
     resultsPerPage := resultsPerPage st;
     currentPage := page;
     availableBuildings := availableBuildings st;
     availableFloors := availableFloors st;
     availableTags := availableTags st;
     unmappedAbbreviations := unmappedAbbreviations st;
     customAbbreviationMappings := customAbbreviationMappings st;
     currentFilteredData := currentFilteredData st;
     autocompleteItems := autocompleteItems st;
     loadedFiles := loadedFiles st |}.

(** [handleAutocompleteKeydown(e)] for the key [e.key]: the box and the
    store after the event.  The remainder [%] has the sign of its first
    operand. *)
Definition handleAutocompleteKeydown (key : string)
    (box : AutocompleteBox) (state : State) : AutocompleteBox * State :=
  if boxHidden box then (box, state)
  else
    let count := Z.of_nat (List.length (boxOptions box)) in
    if (count =? 0)%Z then (box, state)
    else if String.eqb key "ArrowDown" then
      ({| boxHidden := false; boxOptions := boxOptions box;
          activeIndex := Z.rem (activeIndex box + 1) count |}, state)
    else if String.eqb key "ArrowUp" then
      ({| boxHidden := false; boxOptions := boxOptions box;
          activeIndex := Z.rem (activeIndex box - 1 + count) count |}, state)
    else if String.eqb key "Enter" then
      if (-1 <? activeIndex box)%Z then
        match optionAt (boxOptions box) (activeIndex box) with
        | Some selectedValue =>
            ({| boxHidden := true; boxOptions := boxOptions box;
                activeIndex := activeIndex box |},
             set_searchQuery selectedValue 1%Z state)
        | None => (box, state)
        end
      else (box, state)
    else if String.eqb key "Escape" then
      ({| boxHidden := true; boxOptions := boxOptions box;
          activeIndex := activeIndex box |}, state)
    else (box, state).

(** The same key pressed [n] times. *)
Fixpoint pressed (key : string) (n : nat) (box : AutocompleteBox) (state : State)
  : AutocompleteBox * State :=
  match n with
  | O => (box, state)
  | S n =>
      let '(box, state) := handleAutocompleteKeydown key box state in
      pressed key n box state
  end.

(** The box of a page on which nothing was typed yet. *)
Definition emptyBox : AutocompleteBox :=
  {| boxHidden := true; boxOptions := []; activeIndex := (-1)%Z |}.
(** * Properties *)

(** ** Splitting a query into terms *)

Section Splitting.

Variable sep : ascii -> bool.

Lemma split_on_not_nil (s : string) : Str.split_on sep s <> [].
Proof.
  induction s as [|c s IH]; simpl; [discriminate|].
  destruct (sep c).
  - destruct (Str.starts_with_sep sep s); [assumption | discriminate].
  - destruct (Str.split_on sep s); discriminate.
Qed.

Lemma split_on_head_sep (s : string) :
  Str.starts_with_sep sep s = true ->
  exists ws, Str.split_on sep s = EmptyString :: ws.
Proof.
  induction s as [|c s IH]; simpl; [discriminate|].
  intros Hc. rewrite Hc.
  destruct (Str.starts_with_sep sep s) eqn:Hs.
  - apply IH. reflexivity.
  - eexists. reflexivity.
Qed.

Lemma filter_nonempty_cons_sep (c : ascii) (s : string) :
  sep c = true ->
  filter nonempty (Str.split_on sep (String c s))
  = filter nonempty (Str.split_on sep s).
Proof.
  intros Hc. simpl. rewrite Hc.
  destruct (Str.starts_with_sep sep s); reflexivity.
Qed.

Lemma split_on_cons_sep_head (c : ascii) (s : string) :
  sep c = true ->
  exists ws, Str.split_on sep (String c s) = EmptyString :: ws
             /\ filter nonempty ws = filter nonempty (Str.split_on sep s).
Proof.
  intros Hc. simpl. rewrite Hc.
  destruct (Str.starts_with_sep sep s) eqn:Hs.
  - destruct (split_on_head_sep s Hs) as [ws Hws]. exists ws.
    rewrite Hws. split; reflexivity.
  - eexists. split; reflexivity.
Qed.

Lemma split_on_cons (c : ascii) (s : string) :
  Str.split_on sep (String c s)
  = if sep c then
      if Str.starts_with_sep sep s then Str.split_on sep s
      else EmptyString :: Str.split_on sep s
    else
      match Str.split_on sep s with
      | [] => [String c EmptyString]
      | w :: ws => String c w :: ws
      end.
Proof. reflexivity. Qed.

(** Splitting around a separator: the first piece is the first piece
    of the left part, and the non-empty pieces are those of the two
    parts. *)
Lemma split_on_app_sep (a b : string) (c : ascii) :
  sep c = true ->
  exists w ws rest,
    Str.split_on sep a = w :: ws
    /\ Str.split_on sep (a ++ String c b) = w :: rest
    /\ filter nonempty rest
       = filter nonempty ws ++ filter nonempty (Str.split_on sep b).
Proof.
  intros Hc. induction a as [|x a IH].
  - destruct (split_on_cons_sep_head c b Hc) as [ws [H1 H2]].
    exists EmptyString, [], ws. simpl append. rewrite H1.
    repeat split. exact H2.
  - destruct IH as [w [ws [rest [Ha [Hab Hne]]]]].
    change (String x a ++ String c b)%string
      with (String x (a ++ String c b)).
    rewrite (split_on_cons x a), (split_on_cons x (a ++ String c b)).
    destruct (sep x) eqn:Hx.
    + destruct a as [|y a].
      * injection Ha as <- <-.
        destruct (split_on_cons_sep_head c b Hc) as [ws' [H1 H2]].
        exists EmptyString, [EmptyString], ws'.
        change (Str.starts_with_sep sep EmptyString) with false.
        change (Str.starts_with_sep sep (EmptyString ++ String c b))
          with (sep c).
        rewrite Hc. change (EmptyString ++ String c b)%string with (String c b).
        rewrite H1. repeat split. exact H2.
      * change (Str.starts_with_sep sep (String y a ++ String c b))
          with (sep y).
        change (Str.starts_with_sep sep (String y a)) with (sep y).
        destruct (sep y) eqn:Hy.
        -- exists w, ws, rest. repeat split; assumption.
        -- exists EmptyString, (w :: ws), (w :: rest).
           rewrite Ha, Hab. repeat split.
           simpl. destruct (nonempty w); simpl; rewrite Hne; reflexivity.
    + rewrite Ha, Hab.
      exists (String x w), ws, rest. repeat split. exact Hne.
Qed.

Lemma filter_nonempty_split_app (a b : string) (c : ascii) :
  sep c = true ->
  filter nonempty (Str.split_on sep (a ++ String c b))
  = filter nonempty (Str.split_on sep a)
    ++ filter nonempty (Str.split_on sep b).
Proof.
  intros Hc.
  destruct (split_on_app_sep a b c Hc) as [w [ws [rest [Ha [Hab Hne]]]]].
  rewrite Ha, Hab. simpl. destruct (nonempty w); simpl; rewrite Hne; reflexivity.
Qed.

Lemma split_on_no_sep (s : string) :
  Forall (fun w => no_sep sep w = true) (Str.split_on sep s).
Proof.
  induction s as [|c s IH]; simpl.
  - constructor; [reflexivity | constructor].
  - destruct (sep c) eqn:Hc.
    + destruct (Str.starts_with_sep sep s); [assumption|].
      constructor; [reflexivity | assumption].
    + destruct (Str.split_on sep s) as [|w ws].
      * constructor; [|constructor]. unfold no_sep. simpl. rewrite Hc. reflexivity.
      * inversion IH; subst. constructor; [|assumption].
        unfold no_sep in *. simpl. rewrite Hc. simpl. assumption.
Qed.

Lemma split_on_whole (s : string) :
  no_sep sep s = true -> Str.split_on sep s = [s].
Proof.
  induction s as [|c s IH]; simpl; [reflexivity|].
  unfold no_sep. simpl. intros H. apply andb_prop in H as [Hc Hs].
  apply negb_true_iff in Hc. rewrite Hc. rewrite (IH Hs). reflexivity.
Qed.

End Splitting.

Lemma lower_char_query_sep (c : ascii) :
  Str.is_query_sep (Str.lower_char c) = Str.is_query_sep c.
Proof. destruct c as [[] [] [] [] [] [] [] []]; reflexivity. Qed.

Lemma toLowerCase_app (a b : string) :
  Str.toLowerCase (a ++ b) = (Str.toLowerCase a ++ Str.toLowerCase b)%string.
Proof.
  unfold Str.toLowerCase. induction a as [|c a IH]; simpl; [reflexivity|].
  rewrite IH. reflexivity.
Qed.

Lemma toLowerCase_length (s : string) :
  String.length (Str.toLowerCase s) = String.length s.
Proof.
  unfold Str.toLowerCase. induction s as [|c s IH]; simpl; [reflexivity|].
  rewrite IH. reflexivity.
Qed.

Lemma toLowerCase_no_sep (s : string) :
  no_sep Str.is_query_sep (Str.toLowerCase s) = no_sep Str.is_query_sep s.
Proof.
  unfold no_sep, Str.toLowerCase. induction s as [|c s IH]; simpl; [reflexivity|].
  rewrite IH, lower_char_query_sep. reflexivity.
Qed.

Lemma query_sep_space (c : ascii) :
  Str.is_query_sep c = false -> Str.is_space c = false.
Proof.
  unfold Str.is_query_sep. intros H. apply orb_false_iff in H. tauto.
Qed.

Lemma trim_end_no_space (w : string) :
  Str.forallb (fun c => negb (Str.is_space c)) w = true -> Str.trim_end w = w.
Proof.
  induction w as [|c w IH]; simpl; [reflexivity|].
  intros H. apply andb_prop in H as [Hc Hw]. rewrite (IH Hw).
  apply negb_true_iff in Hc. rewrite Hc. destruct w; reflexivity.
Qed.

Lemma trim_no_space (w : string) :
  Str.forallb (fun c => negb (Str.is_space c)) w = true -> Str.trim w = w.
Proof.
  intros H. unfold Str.trim.
  assert (Hs : Str.trim_start w = w).
  { destruct w as [|c w]; simpl in *; [reflexivity|].
    apply andb_prop in H as [Hc _]. apply negb_true_iff in Hc.
    rewrite Hc. reflexivity. }
  rewrite Hs. apply trim_end_no_space. exact H.
Qed.

Lemma no_query_sep_no_space (w : string) :
  no_sep Str.is_query_sep w = true ->
  Str.forallb (fun c => negb (Str.is_space c)) w = true.
Proof.
  unfold no_sep. induction w as [|c w IH]; simpl; [reflexivity|].
  intros H. apply andb_prop in H as [Hc Hw]. rewrite (IH Hw).
  apply negb_true_iff in Hc. rewrite (query_sep_space _ Hc). reflexivity.
Qed.

Lemma map_trim_pieces (s : string) :
  List.map Str.trim (Str.split_on Str.is_query_sep s)
  = Str.split_on Str.is_query_sep s.
Proof.
  pose proof (split_on_no_sep Str.is_query_sep s) as H.
  induction H as [|w ws Hw _ IH]; simpl; [reflexivity|].
  rewrite IH, (trim_no_space _ (no_query_sep_no_space _ Hw)). reflexivity.
Qed.

(** The terms of a query are the non-empty pieces of its lower-case form. *)
Lemma searchTermsOf_pieces (q : string) :
  searchTermsOf q
  = filter nonempty (Str.split_on Str.is_query_sep (Str.toLowerCase q)).
Proof. unfold searchTermsOf. rewrite map_trim_pieces. reflexivity. Qed.

(** The terms of two queries joined by a separator are the terms of the
    first followed by the terms of the second. *)
Lemma searchTermsOf_app (a b : string) (c : ascii) :
  Str.is_query_sep c = true ->
  searchTermsOf (a ++ String c b) = searchTermsOf a ++ searchTermsOf b.
Proof.
  intros Hc. rewrite !searchTermsOf_pieces, toLowerCase_app.
  change (Str.toLowerCase (String c b))
    with (String (Str.lower_char c) (Str.toLowerCase b)).
  apply filter_nonempty_split_app. rewrite lower_char_query_sep. exact Hc.
Qed.

Lemma searchTermsOf_term (t : string) :
  is_term t = true -> searchTermsOf t = [Str.toLowerCase t].
Proof.
  unfold is_term. intros H. apply andb_prop in H as [Hn Hs].
  rewrite searchTermsOf_pieces, split_on_whole.
  - simpl. unfold nonempty in *. rewrite toLowerCase_length, Hn. reflexivity.
  - rewrite toLowerCase_no_sep. exact Hs.
Qed.

Lemma term_not_empty (t : string) : is_term t = true -> t <> EmptyString.
Proof. intros H ->. discriminate H. Qed.

(** ** Filtering with a callback that may throw *)

Lemma filterM_In {A} (p : A -> option bool) (l r : list A) :
  filterM p l = Some r ->
  forall x, In x r <-> In x l /\ p x = Some true.
Proof.
  revert r. induction l as [|y l IH]; simpl; intros r H x.
  - injection H as <-. simpl. tauto.
  - destruct (p y) as [b|] eqn:Hy; [|discriminate].
    destruct (filterM p l) as [ys|]; [|discriminate].
    injection H as <-. specialize (IH ys eq_refl x).
    destruct b; simpl; rewrite IH; split.
    + intros [->|[H1 H2]]; auto.
    + intros [[->|H1] H2]; auto.
    + intros [H1 H2]; auto.
    + intros [[->|H1] H2]; [congruence | auto].
Qed.

Lemma filterM_None {A} (p : A -> option bool) (l : list A) :
  filterM p l = None <-> exists x, In x l /\ p x = None.
Proof.
  induction l as [|y l IH]; simpl.
  - split; [discriminate | intros [x [[] _]]].
  - destruct (p y) as [b|] eqn:Hy.
    + destruct (filterM p l) as [ys|].
      * split; [discriminate|]. intros [x [[->|Hx] Hp]]; [congruence|].
        assert (H : @None (list A) = None) by reflexivity.
        destruct IH as [_ IH]. discriminate IH. exists x. auto.
      * split; [|reflexivity]. intros _.
        destruct IH as [IH _]. destruct (IH eq_refl) as [x [Hx Hp]].
        exists x. auto.
    + split; [|reflexivity]. intros _. exists y. auto.
Qed.

Lemma roomMatches_None (st : State) (terms : list string) (room : obj) :
  roomMatches st terms room = None <-> createUnifiedTags st room = None.
Proof.
  unfold roomMatches. destruct (createUnifiedTags st room); split;
    intros H; try discriminate; reflexivity.
Qed.

Lemma roomMatches_pair (st : State) (a b : string) (room : obj) :
  roomMatches st [a; b] room = Some true
  <-> roomMatches st [a] room = Some true /\ roomMatches st [b] room = Some true.
Proof.
  unfold roomMatches. destruct (createUnifiedTags st room) as [roomTags|].
  - simpl. rewrite !andb_true_r.
    destruct (termMatches roomTags a), (termMatches roomTags b); simpl;
      split; intros H; try discriminate; auto; destruct H; discriminate.
  - split; [discriminate | intros [H _]; discriminate].
Qed.

(** A query with at least one term filters the rooms of a store that is
    not empty. *)
Lemma searchRoomsByTags_filter (st : State) (q : string) :
  q <> EmptyString -> processedData st <> [] -> searchTermsOf q <> [] ->
  searchRoomsByTags st q
  = filterM (roomMatches st (searchTermsOf q)) (processedData st).
Proof.
  intros Hq Hd Ht. unfold searchRoomsByTags.
  destruct (String.eqb_spec q EmptyString); [contradiction|].
  destruct (processedData st) eqn:E; [contradiction|]. simpl.
  destruct (searchTermsOf q); [contradiction|]. reflexivity.
Qed.

Lemma searchRoomsByTags_no_room (st : State) (q : string) :
  processedData st = [] -> searchRoomsByTags st q = Some [].
Proof.
  intros E. unfold searchRoomsByTags. rewrite E. simpl.
  rewrite orb_true_r. reflexivity.
Qed.

(** C1. For two terms [t1] and [t2] (non-empty, without white space or
    comma), the rooms returned for the query ["t1 t2"] are exactly the
    rooms returned both for [t1] and for [t2]; the query throws exactly
    when one of the two single-term queries throws; and the empty query
    returns all the rooms of the dataset. *)
Theorem searchRoomsByTags_two_terms (st : State) (t1 t2 : string) :
  is_term t1 = true -> is_term t2 = true ->
  (forall r1 r2,
      searchRoomsByTags st t1 = Some r1 ->
      searchRoomsByTags st t2 = Some r2 ->
      exists r12,
        searchRoomsByTags st (t1 ++ " " ++ t2) = Some r12
        /\ forall room, In room r12 <-> In room r1 /\ In room r2)
  /\ (searchRoomsByTags st (t1 ++ " " ++ t2) = None
      <-> searchRoomsByTags st t1 = None \/ searchRoomsByTags st t2 = None)
  /\ searchRoomsByTags st EmptyString = Some (processedData st).
Proof.
  intros H1 H2.
  assert (T1 := searchTermsOf_term _ H1).
  assert (T2 := searchTermsOf_term _ H2).
  assert (T12 : searchTermsOf (t1 ++ " " ++ t2)
                = [Str.toLowerCase t1; Str.toLowerCase t2]).
  { change (t1 ++ " " ++ t2)%string with (t1 ++ String " " t2)%string.
    rewrite searchTermsOf_app by reflexivity. rewrite T1, T2. reflexivity. }
  assert (N1 := term_not_empty _ H1).
  assert (N2 := term_not_empty _ H2).
  assert (N12 : (t1 ++ " " ++ t2)%string <> EmptyString).
  { destruct t1; [contradiction | discriminate]. }
  split; [|split]; [| |reflexivity].
  - intros r1 r2 E1 E2.
    destruct (processedData st) as [|room0 rooms] eqn:E.
    + rewrite searchRoomsByTags_no_room in * by assumption.
      injection E1 as <-. injection E2 as <-.
      exists []. split; [reflexivity|]. simpl. tauto.
    + assert (D : processedData st <> []) by (rewrite E; discriminate).
      rewrite searchRoomsByTags_filter in * by (try assumption; congruence).
      rewrite T1 in E1. rewrite T2 in E2. rewrite T12.
      destruct (filterM (roomMatches st [Str.toLowerCase t1; Str.toLowerCase t2])
                  (processedData st)) as [r12|] eqn:E12.
      * exists r12. split; [reflexivity|]. intros room.
        rewrite (filterM_In _ _ _ E12), (filterM_In _ _ _ E1), (filterM_In _ _ _ E2).
        rewrite roomMatches_pair. tauto.
      * exfalso. apply filterM_None in E12 as [x [Hx Hp]].
        apply roomMatches_None in Hp.
        assert (F : filterM (roomMatches st [Str.toLowerCase t1]) (processedData st)
                    = None).
        { apply filterM_None. exists x. split; [assumption|].
          apply roomMatches_None. assumption. }
        congruence.
  - destruct (processedData st) as [|room0 rooms] eqn:E.
    + rewrite !searchRoomsByTags_no_room by assumption.
      split; [discriminate | intros [H|H]; discriminate].
    + assert (D : processedData st <> []) by (rewrite E; discriminate).
      rewrite !searchRoomsByTags_filter by (try assumption; congruence).
      rewrite T1, T2, T12, !filterM_None. split.
      * intros [x [Hx Hp]]. left. exists x. split; [assumption|].
        apply roomMatches_None. apply roomMatches_None in Hp. assumption.
      * intros [[x [Hx Hp]]|[x [Hx Hp]]]; exists x; (split; [assumption|]);
          apply roomMatches_None; apply roomMatches_None in Hp; assumption.
Qed.

Lemma searchRoomsByTags_two_terms_witness :
  is_term "4" = true /\ is_term "radiology" = true
  /\ exists r12,
       searchRoomsByTags Example.state ("4" ++ " " ++ "radiology") = Some r12
       /\ forall room,
            In room r12
            <-> In room (processedData Example.state)
                /\ In room (firstn 1 (processedData Example.state)).
Proof.
  split; [reflexivity|]. split; [reflexivity|].
  apply (proj1 (searchRoomsByTags_two_terms Example.state "4" "radiology"
                  eq_refl eq_refl)); reflexivity.
Defined.

(** ** Compound terms *)

Lemma tagMatches_compound (roomTags : list string) (searchTerm tag : string) :
  Str.includes searchTerm "-" || Str.includes searchTerm " " = true ->
  compoundMatches roomTags searchTerm = true ->
  tagMatches roomTags searchTerm tag = true.
Proof.
  intros Hc Hm. unfold tagMatches.
  destruct (String.eqb tag searchTerm); [reflexivity|].
  destruct (Str.startsWith tag searchTerm
            && ((2 <=? String.length searchTerm) || Str.starts_with_digit searchTerm));
    [reflexivity|].
  destruct ((3 <=? String.length searchTerm) && Str.includes tag searchTerm);
    [reflexivity|].
  rewrite Hc. exact Hm.
Qed.

(** C2 (as the code has it). A term that contains a hyphen or a space
    matches the tag set of a room whenever every sub-word of the term is
    longer than one character and is contained in some tag of the set. *)
Theorem compound_term_matches (roomTags : list string) (searchTerm : string) :
  Str.includes searchTerm "-" || Str.includes searchTerm " " = true ->
  (forall word, In word (Str.split_on Str.is_word_sep searchTerm) ->
                1 < String.length word
                /\ exists t, In t roomTags /\ Str.includes t word = true) ->
  termMatches roomTags searchTerm = true.
Proof.
  intros Hc Hw.
  assert (Hm : compoundMatches roomTags searchTerm = true).
  { unfold compoundMatches. apply forallb_forall. intros word Hin.
    destruct (Hw word Hin) as [Hlen [t [Ht Hinc]]].
    apply andb_true_intro. split.
    - apply Nat.ltb_lt. exact Hlen.
    - apply existsb_exists. exists t. auto. }
  destruct (Str.split_on Str.is_word_sep searchTerm) as [|w ws] eqn:E.
  - exfalso. exact (split_on_not_nil _ _ E).
  - destruct (Hw w (or_introl eq_refl)) as [_ [t [Ht _]]].
    unfold termMatches. apply existsb_exists. exists t. split; [exact Ht|].
    apply tagMatches_compound; assumption.
Qed.

Lemma tags4101_synthesized :
  List.map (createUnifiedTags Example.state) (firstn 1 (processedData Example.state))
  = [Some tags4101].
Proof. reflexivity. Qed.

Lemma compound_term_matches_witness :
  termMatches tags4101 "radio-logy" = true.
Proof.
  apply compound_term_matches; [reflexivity|].
  intros word [<-|[<-|[]]]; (split; [simpl; lia|]);
    exists "radiology"; (split; [simpl; tauto | reflexivity]).
Defined.

(** The term "x-radiology" has one sub-word longer than a character,
    "radiology", and a tag of room 4101 contains it; the sub-word "x"
    makes the compound rule fail, and no other rule applies. *)
Lemma compound_term_short_word_counterexample :
  Str.includes "x-radiology" "-" || Str.includes "x-radiology" " " = true
  /\ (forall word, In word (Str.split_on Str.is_word_sep "x-radiology") ->
                   1 < String.length word ->
                   exists t, In t tags4101 /\ Str.includes t word = true)
  /\ termMatches tags4101 "x-radiology" = false.
Proof.
  split; [reflexivity|]. split; [|reflexivity].
  intros word [<-|[<-|[]]] Hlen.
  - simpl in Hlen. lia.
  - exists "radiology". split; [simpl; tauto | reflexivity].
Qed.

(** ** The facade [data_getFilteredData] *)

Lemma searchRoomsByTags_None_inv (st : State) (q : string) :
  searchRoomsByTags st q = None ->
  q <> EmptyString /\ processedData st <> [] /\ searchTermsOf q <> []
  /\ exists room, In room (processedData st) /\ createUnifiedTags st room = None.
Proof.
  unfold searchRoomsByTags.
  destruct (String.eqb_spec q EmptyString) as [->|Hq]; [discriminate|].
  destruct (processedData st) as [|room0 rooms] eqn:E; [discriminate|].
  change (Datatypes.length (room0 :: rooms) =? 0) with false. simpl orb.
  destruct (searchTermsOf q) as [|t ts] eqn:Et; [discriminate|].
  change (Datatypes.length (t :: ts) =? 0) with false. cbv iota.
  intros H. apply filterM_None in H as [room [Hin Hp]].
  apply roomMatches_None in Hp.
  repeat split; try discriminate; try assumption.
  exists room. auto.
Qed.

Lemma searchRoomsByTags_None_intro (st : State) (q : string) (room : obj) :
  q <> EmptyString -> searchTermsOf q <> [] ->
  In room (processedData st) -> createUnifiedTags st room = None ->
  searchRoomsByTags st q = None.
Proof.
  intros Hq Ht Hin Hc.
  rewrite searchRoomsByTags_filter; try assumption.
  - apply filterM_None. exists room. split; [assumption|].
    apply roomMatches_None. assumption.
  - intros E. rewrite E in Hin. destruct Hin.
Qed.

(** A query that throws still throws when more text follows it. *)
Lemma searchRoomsByTags_None_extends (st : State) (q more : string) :
  searchRoomsByTags st q = None ->
  searchRoomsByTags st (q ++ String " " more) = None.
Proof.
  intros H. apply searchRoomsByTags_None_inv in H
    as [Hq [Hd [Ht [room [Hin Hc]]]]].
  apply searchRoomsByTags_None_intro with room; try assumption.
  - destruct q; [contradiction | discriminate].
  - rewrite searchTermsOf_app by reflexivity.
    destruct (searchTermsOf q); [contradiction | discriminate].
Qed.

Lemma combinedQuery_extends (st : State) :
  searchQuery st <> EmptyString ->
  combinedQuery st = searchQuery st
  \/ exists more, combinedQuery st = (searchQuery st ++ String " " more)%string.
Proof.
  intros Hq. unfold combinedQuery. simpl filter.
  destruct (String.eqb_spec (searchQuery st) EmptyString); [contradiction|].
  simpl negb. cbv iota.
  destruct (filter (fun s => negb (String.eqb s EmptyString))
              (tags (activeFilters st))) as [|t ts].
  - left. reflexivity.
  - right. exists (Str.join " " (t :: ts)). reflexivity.
Qed.

(** C3. With at least one active tag filter, [data_getFilteredData]
    returns the search on the free-text query joined with the tag filters,
    and stores that list as the current filtered view; the narrowing by
    the building and floor filters is dropped, so that a room of another
    building than the one selected can be in the result. *)
Theorem data_getFilteredData_tag_filters :
  (forall st : State,
      tags (activeFilters st) <> [] ->
      data_getFilteredData st
      = match searchRoomsByTags st (combinedQuery st) with
        | Some result => Some (result, set_currentFilteredData result st)
        | None => None
        end)
  /\ (exists (st : State) (room : obj) (result : list obj) (st' : State),
         tags (activeFilters st) <> []
         /\ Js.truthy (building (activeFilters st)) = true
         /\ Js.strict_eq (Js.get room "building") (building (activeFilters st))
            = false
         /\ data_getFilteredData st = Some (result, st')
         /\ In room result).
Proof.
  split.
  - intros st Ht. unfold data_getFilteredData, filteredData.
    destruct (tags (activeFilters st)) as [|t ts] eqn:Et; [contradiction|].
    change (0 <? Datatypes.length (t :: ts)) with true. cbv iota.
    destruct (searchRoomsByTags st (searchQuery st)) as [r|] eqn:E.
    + reflexivity.
    + assert (Hq : searchQuery st <> EmptyString).
      { apply searchRoomsByTags_None_inv in E. tauto. }
      destruct (combinedQuery_extends st Hq) as [Hc|[more Hc]]; rewrite Hc.
      * rewrite E. reflexivity.
      * rewrite (searchRoomsByTags_None_extends st _ more E). reflexivity.
  - exists Example.filteredState.
    exists (hd [] (processedData Example.filteredState)).
    exists (firstn 1 (processedData Example.filteredState)).
    exists (set_currentFilteredData
              (firstn 1 (processedData Example.filteredState))
              Example.filteredState).
    split; [discriminate|]. split; [reflexivity|].
    split; [vm_compute; reflexivity|].
    split; [vm_compute; reflexivity|].
    vm_compute. left. reflexivity.
Qed.

Lemma data_getFilteredData_tag_filters_witness :
  tags (activeFilters Example.filteredState) <> []
  /\ option_map fst (data_getFilteredData Example.filteredState)
     = searchRoomsByTags Example.filteredState "41 Imaging".
Proof.
  split; [discriminate|].
  rewrite (proj1 data_getFilteredData_tag_filters Example.filteredState);
    [vm_compute; reflexivity | discriminate].
Defined.

(** ** Reading and writing properties *)

Lemma get_replace_same {A} (k : string) (v : A) (o : jsobj A) :
  Js.has o k = true -> Js.get (Js.replace k v o) k = Some v.
Proof.
  unfold Js.has. induction o as [|[k' v'] o IH]; simpl; [discriminate|].
  destruct (String.eqb k' k) eqn:E; simpl; rewrite E; [reflexivity|]. exact IH.
Qed.

Lemma get_replace_other {A} (k k' : string) (v : A) (o : jsobj A) :
  k <> k' -> Js.get (Js.replace k v o) k' = Js.get o k'.
Proof.
  intros Hne. induction o as [|[k0 v0] o IH]; simpl; [reflexivity|].
  destruct (String.eqb_spec k0 k) as [->|Hk]; simpl.
  - destruct (String.eqb_spec k k'); [contradiction | reflexivity].
  - rewrite IH. reflexivity.
Qed.

Lemma get_insert_index {A} (i : N) (k k' : string) (v : A) (o : jsobj A) :
  Js.get o k = None ->
  Js.get (Js.insert_index i k v o) k'
  = if String.eqb k k' then Some v else Js.get o k'.
Proof.
  induction o as [|[k0 v0] o IH]; simpl; [reflexivity|].
  destruct (String.eqb_spec k0 k) as [->|H0]; [discriminate|]. intros G.
  destruct (Js.array_index k0) as [j|]; [destruct (j <? i)%N|]; simpl;
    try reflexivity.
  rewrite (IH G). destruct (String.eqb_spec k0 k') as [->|H1]; [|reflexivity].
  destruct (String.eqb_spec k k') as [->|H2]; [contradiction | reflexivity].
Qed.

Lemma get_app_last {A} (k k' : string) (v : A) (o : jsobj A) :
  Js.get (o ++ [(k, v)]) k'
  = match Js.get o k' with
    | Some x => Some x
    | None => if String.eqb k k' then Some v else None
    end.
Proof.
  induction o as [|[k0 v0] o IH]; simpl; [reflexivity|].
  destruct (String.eqb k0 k'); [reflexivity | exact IH].
Qed.

Lemma get_set_same {A} (k : string) (v : A) (o : jsobj A) :
  Js.get (Js.set k v o) k = Some v.
Proof.
  unfold Js.set. destruct (Js.has o k) eqn:H.
  - apply get_replace_same. exact H.
  - unfold Js.has in H. destruct (Js.get o k) eqn:G; [discriminate|].
    destruct (Js.array_index k).
    + rewrite get_insert_index by exact G. rewrite String.eqb_refl.
      reflexivity.
    + rewrite get_app_last, G, String.eqb_refl. reflexivity.
Qed.

Lemma get_set_other {A} (k k' : string) (v : A) (o : jsobj A) :
  k <> k' -> Js.get (Js.set k v o) k' = Js.get o k'.
Proof.
  intros Hne. unfold Js.set. destruct (Js.has o k) eqn:H.
  - apply get_replace_other. exact Hne.
  - unfold Js.has in H. destruct (Js.get o k) eqn:G; [discriminate|].
    destruct (Js.array_index k).
    + rewrite get_insert_index by exact G.
      destruct (String.eqb_spec k k'); [contradiction | reflexivity].
    + rewrite get_app_last.
      destruct (String.eqb_spec k k'); [contradiction|].
      destruct (Js.get o k'); reflexivity.
Qed.

Lemma get_remove_other {A} (k k' : string) (o : jsobj A) :
  k <> k' -> Js.get (Js.remove k o) k' = Js.get o k'.
Proof.
  intros Hne. induction o as [|[k0 v0] o IH]; simpl; [reflexivity|].
  destruct (String.eqb_spec k0 k) as [->|Hk]; simpl.
  - destruct (String.eqb_spec k k'); [contradiction | reflexivity].
  - rewrite IH. reflexivity.
Qed.

Lemma get_put_other (k k' : string) (v : option value) (o : obj) :
  k <> k' -> Js.get (Js.put k v o) k' = Js.get o k'.
Proof.
  intros Hne. destruct v; simpl.
  - apply get_set_other. exact Hne.
  - apply get_remove_other. exact Hne.
Qed.

(** ** Room ids *)

Lemma processRow_ids (env : Env) (st : State) (acc : Batch) (row : obj) :
  (processed (processRow env st acc row) = processed acc
   /\ uniqueIdCounter (processRow env st acc row) = uniqueIdCounter acc)
  \/ (exists room,
         processed (processRow env st acc row) = processed acc ++ [room]
         /\ roomId room = Some (VNum (uniqueIdCounter acc))
         /\ uniqueIdCounter (processRow env st acc row)
            = (uniqueIdCounter acc + 1)%Z).
Proof.
  unfold processRow.
  destruct (negb (Js.truthy (Js.get row "rmnbr")) || Js.nullish (Js.get row "floor")).
  - left. split; reflexivity.
  - right.
    destruct (normalizeAbbreviation env st (Js.get row "rmtyp_descrshort") (unmapped acc))
      as [type unmapped1].
    destruct (normalizeAbbreviation env st (Js.get row "rmsubtyp_descrshort") unmapped1)
      as [sub unmapped2].
    eexists. split; [reflexivity|]. split; [|reflexivity].
    unfold roomId.
    rewrite !get_put_other by discriminate.
    apply get_set_same.
Qed.

Lemma map_seq_from {A} (f : nat -> A) (a b : nat) :
  forall s, List.map f (seq (a + s) b) = List.map (fun i => f (a + i)) (seq s b).
Proof.
  induction b as [|b IH]; intros s; simpl; [reflexivity|].
  f_equal. rewrite <- IH. rewrite Nat.add_succ_r. reflexivity.
Qed.

Lemma idsFrom_app (start : Z) (a b : nat) :
  idsFrom start (a + b) = idsFrom start a ++ idsFrom (start + Z.of_nat a) b.
Proof.
  unfold idsFrom. rewrite seq_app, map_app. f_equal.
  change (0 + a) with a. replace a with (a + 0) at 1 by lia.
  rewrite map_seq_from. apply map_ext. intros i. do 2 f_equal. lia.
Qed.

Lemma fold_processRow_ids (env : Env) (st : State) (start : Z) (data : list obj) :
  forall acc,
    List.map roomId (processed acc) = idsFrom start (List.length (processed acc)) ->
    uniqueIdCounter acc = (start + Z.of_nat (List.length (processed acc)))%Z ->
    let batch := fold_left (processRow env st) data acc in
    List.map roomId (processed batch) = idsFrom start (List.length (processed batch)).
Proof.
  induction data as [|row data IH]; intros acc Hids Hc; simpl; [exact Hids|].
  apply IH.
  - destruct (processRow_ids env st acc row) as [[Hp _]|[room [Hp [Hid _]]]];
      rewrite Hp; [exact Hids|].
    rewrite length_app, map_app, idsFrom_app, Hids. simpl. f_equal.
    rewrite Hid, Hc. unfold idsFrom. simpl. do 3 f_equal. lia.
  - destruct (processRow_ids env st acc row) as [[Hp Hu]|[room [Hp [_ Hu]]]];
      rewrite Hp, Hu; [exact Hc|].
    rewrite length_app. simpl. lia.
Qed.

Lemma createSearchIndex_processedData (st : State) :
  processedData (createSearchIndex st) = processedData st.
Proof.
  unfold createSearchIndex.
  destruct (processedData st) eqn:E;
    [| destruct (mapM (createUnifiedTags st) (o :: l))];
    destruct (buildUnifiedAutocomplete st); simpl; rewrite ?E; reflexivity.
Qed.

(** A merge keeps the rooms of the store and appends rooms whose ids
    count on from the size of the dataset. *)
Lemma processRoomData_appends (env : Env) (st : State) (data : list obj) :
  exists added,
    processedData (processRoomData env st data) = processedData st ++ added
    /\ List.map roomId added
       = idsFrom (Z.of_nat (List.length (processedData st))) (List.length added).
Proof.
  unfold processRoomData. rewrite createSearchIndex_processedData.
  unfold mergeRoomData. simpl.
  eexists. split; [reflexivity|].
  apply fold_processRow_ids; [reflexivity | simpl; lia].
Qed.

Lemma mergeBatches_ids (env : Env) (batches : list (list obj)) :
  forall st,
    List.map roomId (processedData st)
    = idsFrom 0 (List.length (processedData st)) ->
    List.map roomId (processedData (mergeBatches env st batches))
    = idsFrom 0 (List.length (processedData (mergeBatches env st batches))).
Proof.
  unfold mergeBatches.
  induction batches as [|data batches IH]; intros st H; simpl; [exact H|].
  apply IH.
  destruct (processRoomData_appends env st data) as [added [Hd Hi]].
  rewrite Hd, map_app, length_app, idsFrom_app, H, Hi. reflexivity.
Qed.

Lemma idsFrom_NoDup (start : Z) (n : nat) : NoDup (idsFrom start n).
Proof.
  unfold idsFrom. apply Injective_map_NoDup; [|apply seq_NoDup].
  intros i j H. injection H as H. lia.
Qed.

Lemma idsFrom_In (start : Z) (n : nat) (v : option value) :
  In v (idsFrom start n) ->
  exists i, v = Some (VNum i) /\ (start <= i < start + Z.of_nat n)%Z.
Proof.
  unfold idsFrom. intros H. apply in_map_iff in H as [i [<- Hi]].
  apply in_seq in Hi. eexists. split; [reflexivity|]. lia.
Qed.

(** On the stores reached from the empty one by merges alone the ids
    are as the counter means them: no two rooms have the same id, and one
    more merge keeps the rooms that are there and gives every room it
    adds an id strictly larger than every id already present. *)
Lemma merge_ids_from_empty
    (env : Env) (batches : list (list obj)) (data : list obj) :
  let st := mergeBatches env initialState batches in
  let st' := processRoomData env st data in
  NoDup (List.map roomId (processedData st))
  /\ NoDup (List.map roomId (processedData st'))
  /\ exists added,
       processedData st' = processedData st ++ added
       /\ forall old new,
            In old (processedData st) -> In new added ->
            exists i j,
              roomId old = Some (VNum i) /\ roomId new = Some (VNum j)
              /\ (i < j)%Z.
Proof.
  intros st st'.
  assert (Hst : List.map roomId (processedData st)
                = idsFrom 0 (List.length (processedData st))).
  { apply mergeBatches_ids. reflexivity. }
  destruct (processRoomData_appends env st data) as [added [Hd Hi]].
  fold st' in Hd.
  split; [rewrite Hst; apply idsFrom_NoDup|]. split.
  - rewrite Hd, map_app, Hst, Hi, <- idsFrom_app. apply idsFrom_NoDup.
  - exists added. split; [exact Hd|]. intros old new Hold Hnew.
    apply (in_map roomId) in Hold, Hnew. rewrite Hst in Hold. rewrite Hi in Hnew.
    apply idsFrom_In in Hold as [i [Ei Hi']].
    apply idsFrom_In in Hnew as [j [Ej Hj]].
    exists i, j. repeat split; try assumption. lia.
Qed.

(** C5 (what the code does). The dataset also comes from a session
    file.  The file [Example.foreignFile] holds two rooms with the ids 1
    and 2; after [importSession] of that file, [processRoomData] on one
    row counts on from the size of the dataset and gives the new room the
    id 2: two rooms of the dataset have the same id, and the new id is
    not larger than the ids already present. *)
Theorem import_then_merge_reuses_id :
  exists st,
    importSession Example.env "other.umsess" Example.foreignFile initialState
    = Restored st
    /\ List.map roomId (processedData st) = [Some (VNum 1); Some (VNum 2)]
    /\ List.map roomId
         (processedData (processRoomData Example.env st [Example.row4101]))
       = [Some (VNum 1); Some (VNum 2); Some (VNum 2)]
    /\ ~ NoDup
           (List.map roomId
              (processedData (processRoomData Example.env st [Example.row4101]))).
Proof.
  eexists. split; [vm_compute; reflexivity|].
  split; [vm_compute; reflexivity|].
  match goal with
  | |- ?ids = ?expected /\ _ =>
      assert (R : ids = expected) by (vm_compute; reflexivity)
  end.
  split; [exact R|]. rewrite R. intros H.
  inversion H as [|x l _ Hd]. inversion Hd as [|y l' Hn _].
  apply Hn. left. reflexivity.
Qed.

(** ** The abbreviation normalizer *)

Lemma is_blank_not_truthy_or_string (code : string) :
  code = EmptyString \/ Js.truthy (Some (VStr code)) = true.
Proof. destruct code; [left | right]; reflexivity. Qed.

(** C10 (as the code has it). For a code that is empty or made of white
    space only, the unmapped counter is left unchanged; the empty code
    gives the empty string, and a code of white space that neither table
    maps is returned as it is. *)
Theorem normalizeAbbreviation_blank
    (env : Env) (st : State) (code : string) (unmapped : jsobj Z) :
  Str.is_blank code = true ->
  snd (normalizeAbbreviation env st (Some (VStr code)) unmapped) = unmapped
  /\ (code = EmptyString ->
      fst (normalizeAbbreviation env st (Some (VStr code)) unmapped)
      = VStr EmptyString)
  /\ (code <> EmptyString ->
      match customAbbreviationMappings st with
      | Some mappings => lookup_truthy mappings code
      | None => None
      end = None ->
      lookup_truthy (abbreviationMap env) code = None ->
      fst (normalizeAbbreviation env st (Some (VStr code)) unmapped) = VStr code).
Proof.
  intros Hb. unfold normalizeAbbreviation.
  destruct (is_blank_not_truthy_or_string code) as [->|Ht].
  - simpl. split; [reflexivity|]. split; [reflexivity|].
    intros H. contradiction.
  - rewrite Ht. simpl negb. cbv iota.
    change (Js.toStr (Some (VStr code))) with code. rewrite Hb.
    rewrite andb_false_r.
    split; [|split].
    + destruct (match customAbbreviationMappings st with
                | Some mappings => lookup_truthy mappings code
                | None => None
                end); [reflexivity|].
      destruct (lookup_truthy (abbreviationMap env) code); reflexivity.
    + intros ->. discriminate Ht.
    + intros _ H1 H2. rewrite H1, H2. reflexivity.
Qed.

Lemma normalizeAbbreviation_blank_witness :
  Str.is_blank " " = true
  /\ normalizeAbbreviation Example.env initialState (Some (VStr " ")) []
     = (VStr " ", []).
Proof.
  split; [reflexivity|].
  destruct (normalizeAbbreviation_blank Example.env initialState " " [] eq_refl)
    as [H1 [_ H3]].
  rewrite (surjective_pairing (normalizeAbbreviation _ _ _ _)), H1.
  rewrite H3; [reflexivity | discriminate | reflexivity | reflexivity].
Defined.

(** A code of one space is made of white space only; the normalizer
    returns it unchanged, not the empty string. *)
Lemma normalizeAbbreviation_blank_counterexample :
  Str.is_blank " " = true
  /\ fst (normalizeAbbreviation Example.env initialState (Some (VStr " ")) [])
     = VStr " "
  /\ VStr " " <> VStr EmptyString.
Proof. split; [reflexivity|]. split; [reflexivity | discriminate]. Qed.

(** ** The unmapped-abbreviation counter *)

Lemma get_spread {A} (a b : jsobj A) (k : string) :
  Js.get (Js.spread a b) k
  = match Js.get (Js.spread [] b) k with
    | Some v => Some v
    | None => Js.get a k
    end.
Proof.
  unfold Js.spread. rewrite <- !fold_left_rev_right.
  induction (rev b) as [|[k0 v0] r IH]; simpl; [reflexivity|].
  destruct (String.eqb_spec k0 k) as [->|Hne].
  - rewrite !get_set_same. reflexivity.
  - rewrite !get_set_other by exact Hne. exact IH.
Qed.

(** Within one batch the counter of an unknown code counts its
    occurrences. *)
Lemma unmapped_counts_within_batch :
  Js.get (unmappedAbbreviations
            (processRoomData Example.env initialState
               [Example.row4102; Example.row4102])) "XYZ"
  = Some 2%Z.
Proof. vm_compute. reflexivity. Qed.

(** C9 (what the code does). The code XYZ is unknown and occurs once in
    each of two successive batches: its counter is 1 after the first
    batch and still 1 after the second, since the counters of a batch
    replace those of the store for the codes of the batch. *)
Theorem unmapped_count_not_accumulated :
  let st1 := processRoomData Example.env initialState [Example.row4102] in
  let st2 := processRoomData Example.env st1 [Example.row4102] in
  Js.get (unmappedAbbreviations initialState) "XYZ" = None
  /\ Js.get (unmappedAbbreviations st1) "XYZ" = Some 1%Z
  /\ Js.get (unmappedAbbreviations st2) "XYZ" = Some 1%Z.
Proof. vm_compute. repeat split; reflexivity. Qed.

(** ** Custom tag import: the room of an entry *)

Ltac case_lookup :=
  match goal with
  | |- context [List.find ?p ?l] => destruct (List.find p l)
  | |- context [findM ?p ?l] => destruct (findM p l) as [[?|]|]
  | |- context [if ?b then _ else _] => destruct b
  end.

Lemma resolveTargetRoom_order (st : State) (roomIdFromFile : string)
    (roomRef : option value) :
  resolveTargetRoom st roomIdFromFile roomRef
  = resolutionOrder st roomIdFromFile roomRef.
Proof.
  unfold resolveTargetRoom, resolutionOrder, firstFound, byRecordNumber,
    byRawId, byNumberAndBuilding, byNumber, unless_found.
  cbv zeta. cbv delta [obj jsobj]. repeat case_lookup; reflexivity.
Qed.

Lemma tagsOf_set (store : jsobj (list obj)) (key k : string) (l : list obj) :
  tagsOf (Js.set key l store) k
  = if String.eqb key k then l else tagsOf store k.
Proof.
  unfold tagsOf. destruct (String.eqb_spec key k) as [->|Hne].
  - rewrite get_set_same. reflexivity.
  - rewrite get_set_other by exact Hne. reflexivity.
Qed.



Lemma tagsOf_declare (store : jsobj (list obj)) (key k : string) :
  tagsOf (if Js.has store key then store else Js.set key [] store) k
  = tagsOf store k.
Proof.
  unfold Js.has. destruct (Js.get store key) eqn:G; [reflexivity|].
  rewrite tagsOf_set. destruct (String.eqb_spec key k) as [<-|]; [|reflexivity].
  unfold tagsOf. rewrite G. reflexivity.
Qed.




Lemma importCustomTagsData_inv (env : Env) (st : State) (importData : value)
    (result : TagImport) :
  importCustomTagsData env st importData = Some result ->
  exists tagsByRoom,
    Js.prop importData "customTags" = Some tagsByRoom
    /\ result
       = importEntries env st (Js.prop importData "roomReference")
           {| tagStore := customTags st; importedCount := 0;
              skippedCount := 0; thrown := false |}
           (Js.entries tagsByRoom).
Proof.
  intros H. unfold importCustomTagsData in H.
  assert (Hm : Js.member (Some importData) "customTags"
               = match importData with
                 | VNull => None
                 | _ => Some (Js.prop importData "customTags")
                 end) by (destruct importData; reflexivity).
  rewrite Hm in H. clear Hm.
  destruct (Js.prop importData "customTags") as [t|] eqn:Ep.
  - exists t. split; [reflexivity|].
    destruct importData; try discriminate;
      (destruct (Js.truthy (Some t)); [|discriminate]);
      injection H as <-; reflexivity.
  - destruct importData; discriminate.
Qed.



(** ** Custom tag import: duplicates *)

(** C8 (what the code does). Room 4101 carries the tag ICU; the file
    brings "icu" and "ICU" for it.  The names are compared as they are
    written: "ICU" is recognised as a duplicate, "icu" is added beside
    ICU and counted as imported. *)
Theorem importCustomTags_duplicate_by_case :
  let text := Json.stringify Example.icuFile in
  let outcome := importCustomTags Example.env text Example.taggedState in
  tagNames (tagsOf (customTags Example.taggedState) "0") = [Some (VStr "ICU")]
  /\ option_map importedCount (snd outcome) = Some 1
  /\ option_map thrown (snd outcome) = Some false
  /\ tagNames (tagsOf (customTags (fst outcome)) "0")
     = [Some (VStr "ICU"); Some (VStr "icu")].
Proof. vm_compute. repeat split; reflexivity. Qed.

(** ** The transport encoding of a session *)

Lemma append_assoc (a b c : string) :
  ((a ++ b) ++ c)%string = (a ++ b ++ c)%string.
Proof. induction a as [|x a IH]; simpl; [reflexivity | rewrite IH; reflexivity]. Qed.

Lemma append_nil_r (a : string) : (a ++ EmptyString)%string = a.
Proof. induction a as [|x a IH]; simpl; [reflexivity | rewrite IH; reflexivity]. Qed.

Lemma unescape_encode_char (c : ascii) (r : string) :
  Uri.unescape (Uri.encode_char c ++ r)
  = fold_right Uri.cons_opt (Uri.unescape r) (list_ascii_of_string (utf8_char c)).
Proof. destruct c as [[] [] [] [] [] [] [] []]; reflexivity. Qed.

Lemma fold_cons_opt (bytes : string) (r : string) :
  fold_right Uri.cons_opt (Some r) (list_ascii_of_string bytes)
  = Some (bytes ++ r)%string.
Proof.
  induction bytes as [|b bytes IH]; simpl; [reflexivity|].
  rewrite IH. reflexivity.
Qed.

Lemma unescape_encodeURIComponent (s : string) :
  Uri.unescape (Uri.encodeURIComponent s) = Some (utf8 s).
Proof.
  induction s as [|c s IH]; simpl; [reflexivity|].
  rewrite unescape_encode_char, IH. apply fold_cons_opt.
Qed.

Lemma escape_app (a b : string) :
  Uri.escape (a ++ b) = (Uri.escape a ++ Uri.escape b)%string.
Proof.
  induction a as [|x a IH]; simpl; [reflexivity|].
  rewrite IH, append_assoc. reflexivity.
Qed.

Lemma decode_escape_char (c : ascii) (r : string) :
  Uri.decodeURIComponent (Uri.escape (utf8_char c) ++ r)
  = Uri.cons_opt c (Uri.decodeURIComponent r).
Proof. destruct c as [[] [] [] [] [] [] [] []]; reflexivity. Qed.

Lemma decodeURIComponent_escape (s : string) :
  Uri.decodeURIComponent (Uri.escape (utf8 s)) = Some s.
Proof.
  induction s as [|c s IH]; simpl; [reflexivity|].
  rewrite escape_app, decode_escape_char, IH. reflexivity.
Qed.

Lemma dec_enc (n : nat) : n < 64 -> Base64.dec (Base64.enc n) = Some n.
Proof.
  intros H.
  assert (A : List.forallb
                (fun k => match Base64.dec (Base64.enc k) with
                          | Some m => m =? k
                          | None => false
                          end) (seq 0 64) = true) by (vm_compute; reflexivity).
  rewrite forallb_forall in A. specialize (A n).
  destruct (Base64.dec (Base64.enc n)) as [m|];
    [apply Nat.eqb_eq in A; [congruence | apply in_seq; lia]
    | discriminate A; apply in_seq; lia].
Qed.

Lemma enc_plain (n : nat) :
  n < 64 ->
  Ascii.eqb (Base64.enc n) Base64.pad = false
  /\ Base64.is_ascii_ws (Base64.enc n) = false.
Proof.
  intros H.
  assert (A : List.forallb
                (fun k => negb (Ascii.eqb (Base64.enc k) Base64.pad)
                          && negb (Base64.is_ascii_ws (Base64.enc k)))
                (seq 0 64) = true) by (vm_compute; reflexivity).
  rewrite forallb_forall in A. specialize (A n).
  assert (I : In n (seq 0 64)) by (apply in_seq; lia).
  apply A in I. apply andb_prop in I as [I1 I2].
  apply negb_true_iff in I1, I2. auto.
Qed.

Lemma code_bound (c : ascii) : Str.code c < 256.
Proof. apply nat_ascii_bounded. Qed.

Lemma ascii_of_code (c : ascii) : ascii_of_nat (Str.code c) = c.
Proof. apply ascii_nat_embedding. Qed.

Lemma byte1_sextets (a b : nat) :
  b < 256 -> Base64.byte1 (a / 4) (a mod 4 * 16 + b / 16) = ascii_of_nat a.
Proof.
  intros Hb. unfold Base64.byte1. f_equal.
  pose proof (Nat.div_mod_eq a 4). pose proof (Nat.mod_upper_bound a 4).
  assert (b / 16 < 16) by (apply Nat.Div0.div_lt_upper_bound; lia).
  rewrite (Nat.div_add_l (a mod 4) 16 (b / 16)) by lia.
  rewrite (Nat.div_small (b / 16) 16) by lia. lia.
Qed.

Lemma byte2_sextets (a b c : nat) :
  b < 256 -> c < 256 ->
  Base64.byte2 (a mod 4 * 16 + b / 16) (b mod 16 * 4 + c / 64) = ascii_of_nat b.
Proof.
  intros Hb Hc. unfold Base64.byte2. f_equal.
  pose proof (Nat.div_mod_eq b 16). pose proof (Nat.mod_upper_bound b 16).
  assert (b / 16 < 16) by (apply Nat.Div0.div_lt_upper_bound; lia).
  assert (c / 64 < 4) by (apply Nat.Div0.div_lt_upper_bound; lia).
  assert (E1 : (a mod 4 * 16 + b / 16) mod 16 = b / 16).
  { rewrite Nat.add_comm, Nat.Div0.mod_add. apply Nat.mod_small. lia. }
  assert (E2 : (b mod 16 * 4 + c / 64) / 4 = b mod 16).
  { rewrite Nat.div_add_l by lia. rewrite (Nat.div_small (c / 64) 4) by lia. lia. }
  rewrite E1, E2. lia.
Qed.

Lemma byte3_sextets (b c : nat) :
  c < 256 ->
  Base64.byte3 (b mod 16 * 4 + c / 64) (c mod 64) = ascii_of_nat c.
Proof.
  intros Hc. unfold Base64.byte3. f_equal.
  pose proof (Nat.div_mod_eq c 64). pose proof (Nat.mod_upper_bound c 64).
  assert (c / 64 < 4) by (apply Nat.Div0.div_lt_upper_bound; lia).
  assert (E1 : (b mod 16 * 4 + c / 64) mod 4 = c / 64).
  { rewrite Nat.add_comm, Nat.Div0.mod_add. apply Nat.mod_small. lia. }
  rewrite E1. lia.
Qed.

(** The groups written by [btoa] are read back by [atob]. *)
Lemma decode_groups_btoa_bounded (n : nat) :
  forall s, String.length s <= n ->
    Base64.decode_groups (Base64.btoa s) = Some s
    /\ Base64.strip_ws (Base64.btoa s) = Base64.btoa s.
Proof.
  induction n as [n IH] using lt_wf_ind. intros s Hn.
  destruct s as [|a [|b [|c r]]].
  - split; reflexivity.
  - pose proof (code_bound a) as Ha.
    assert (S1 : Str.code a / 4 < 64) by (apply Nat.Div0.div_lt_upper_bound; lia).
    assert (S2 : Str.code a mod 4 * 16 < 64)
      by (pose proof (Nat.mod_upper_bound (Str.code a) 4); lia).
    cbn [Base64.btoa Base64.decode_groups Base64.strip_ws].
    rewrite (dec_enc _ S1), (dec_enc _ S2).
    destruct (enc_plain _ S1) as [_ W1]. destruct (enc_plain _ S2) as [_ W2].
    rewrite W1, W2.
    change (Base64.is_ascii_ws Base64.pad) with false. cbv iota.
    change (Ascii.eqb Base64.pad Base64.pad) with true.
    cbn [andb String.eqb]. cbv iota.
    split; [|reflexivity]. f_equal. f_equal.
    replace (Str.code a mod 4 * 16) with (Str.code a mod 4 * 16 + 0 / 16)
      by (simpl; lia).
    rewrite byte1_sextets by lia. apply ascii_of_code.
  - pose proof (code_bound a) as Ha. pose proof (code_bound b) as Hb.
    assert (S1 : Str.code a / 4 < 64) by (apply Nat.Div0.div_lt_upper_bound; lia).
    assert (S2 : Str.code a mod 4 * 16 + Str.code b / 16 < 64).
    { pose proof (Nat.mod_upper_bound (Str.code a) 4).
      assert (Str.code b / 16 < 16) by (apply Nat.Div0.div_lt_upper_bound; lia).
      lia. }
    assert (S3 : Str.code b mod 16 * 4 < 64)
      by (pose proof (Nat.mod_upper_bound (Str.code b) 16); lia).
    cbn [Base64.btoa Base64.decode_groups Base64.strip_ws].
    rewrite (dec_enc _ S1), (dec_enc _ S2), (dec_enc _ S3).
    destruct (enc_plain _ S1) as [_ W1]. destruct (enc_plain _ S2) as [_ W2].
    destruct (enc_plain _ S3) as [P3 W3].
    rewrite W1, W2, W3, P3.
    change (Base64.is_ascii_ws Base64.pad) with false. cbv iota.
    change (Ascii.eqb Base64.pad Base64.pad) with true.
    cbn [andb String.eqb]. cbv iota.
    split; [|reflexivity]. f_equal.
    rewrite byte1_sextets by lia.
    replace (Str.code b mod 16 * 4) with (Str.code b mod 16 * 4 + 0 / 64)
      by (simpl; lia).
    rewrite byte2_sextets by lia. rewrite !ascii_of_code. reflexivity.
  - pose proof (code_bound a) as Ha. pose proof (code_bound b) as Hb.
    pose proof (code_bound c) as Hc.
    assert (S1 : Str.code a / 4 < 64) by (apply Nat.Div0.div_lt_upper_bound; lia).
    assert (S2 : Str.code a mod 4 * 16 + Str.code b / 16 < 64).
    { pose proof (Nat.mod_upper_bound (Str.code a) 4).
      assert (Str.code b / 16 < 16) by (apply Nat.Div0.div_lt_upper_bound; lia).
      lia. }
    assert (S3 : Str.code b mod 16 * 4 + Str.code c / 64 < 64).
    { pose proof (Nat.mod_upper_bound (Str.code b) 16).
      assert (Str.code c / 64 < 4) by (apply Nat.Div0.div_lt_upper_bound; lia).
      lia. }
    assert (S4 : Str.code c mod 64 < 64) by (apply Nat.mod_upper_bound; lia).
    simpl in Hn. destruct (IH (String.length r)) with (s := r) as [D W];
      [lia | lia |].
    cbn [Base64.btoa Base64.decode_groups Base64.strip_ws].
    rewrite (dec_enc _ S1), (dec_enc _ S2), (dec_enc _ S3), (dec_enc _ S4).
    destruct (enc_plain _ S1) as [_ W1]. destruct (enc_plain _ S2) as [_ W2].
    destruct (enc_plain _ S3) as [_ W3]. destruct (enc_plain _ S4) as [P4 W4].
    rewrite W1, W2, W3, W4, P4, W, D. cbn [andb]. cbv iota.
    split; [|reflexivity]. f_equal.
    rewrite byte1_sextets, byte2_sextets, byte3_sextets by lia.
    rewrite !ascii_of_code. reflexivity.
Qed.

Lemma atob_btoa (s : string) : Base64.atob (Base64.btoa s) = Some s.
Proof.
  unfold Base64.atob.
  destruct (decode_groups_btoa_bounded (String.length s) s (le_n _)) as [D W].
  rewrite W. exact D.
Qed.

(** The text of a session survives the transport encoding, byte for
    byte. *)
Lemma decodeSession_encodeSession (jsonString : string) :
  exists compressedData,
    encodeSession jsonString = Some compressedData
    /\ decodeSession compressedData = Some jsonString.
Proof.
  unfold encodeSession, decodeSession.
  rewrite unescape_encodeURIComponent. eexists. split; [reflexivity|].
  rewrite atob_btoa. apply decodeURIComponent_escape.
Qed.

(** ** The text of a JSON value *)

Lemma parse_escape_char (c : ascii) (r : string) :
  Json.parse_string_body (Json.escape_char c ++ r)
  = match Json.parse_string_body r with
    | Some (t, rest) => Some (String c t, rest)
    | None => None
    end.
Proof. destruct c as [[] [] [] [] [] [] [] []]; reflexivity. Qed.

Lemma parse_quote_body (s rest : string) :
  Json.parse_string_body (Json.quote_body s ++ String Json.dquote rest)
  = Some (s, rest).
Proof.
  induction s as [|c s IH]; simpl; [reflexivity|].
  rewrite append_assoc, parse_escape_char, IH. reflexivity.
Qed.

(** *** Numbers *)

Lemma uint_digits (d : Decimal.uint) :
  Str.forallb Str.is_digit (NilEmpty.string_of_uint d) = true.
Proof. induction d; simpl; try reflexivity; exact IHd. Qed.

Lemma of_Z_shape (n : Z) :
  exists ds,
    ds <> EmptyString /\ Str.forallb Str.is_digit ds = true
    /\ Str.of_Z n = if (n <? 0)%Z then String "-" ds else ds.
Proof.
  unfold Str.of_Z. destruct n as [|p|p]; simpl.
  - exists "0". repeat split. discriminate.
  - exists (NilEmpty.string_of_uint (Pos.to_uint p)).
    pose proof (DecimalPos.Unsigned.to_uint_nonnil p) as Hn.
    split; [|split].
    + destruct (Pos.to_uint p); try contradiction; discriminate.
    + apply uint_digits.
    + unfold NilZero.string_of_uint. destruct (Pos.to_uint p);
        [contradiction | reflexivity ..].
  - exists (NilEmpty.string_of_uint (Pos.to_uint p)).
    pose proof (DecimalPos.Unsigned.to_uint_nonnil p) as Hn.
    split; [|split].
    + destruct (Pos.to_uint p); try contradiction; discriminate.
    + apply uint_digits.
    + unfold NilZero.string_of_uint. destruct (Pos.to_uint p);
        [contradiction | reflexivity ..].
Qed.

Lemma number_of_of_Z (n : Z) :
  Num.safe n = true -> Json.number_of (Str.of_Z n) = Some n.
Proof.
  intros Hs. unfold Json.number_of, Str.of_Z.
  rewrite NilZero.isi.
  - rewrite DecimalZ.of_to, String.eqb_refl, Hs. reflexivity.
  - destruct n; simpl; try discriminate.
    intros H. injection H as H. exact (DecimalPos.Unsigned.to_uint_nonnil _ H).
  - destruct n; simpl; try discriminate.
    intros H. injection H as H. exact (DecimalPos.Unsigned.to_uint_nonnil _ H).
Qed.

Lemma delimited_not_digit (rest : string) :
  delimited rest = true ->
  match rest with
  | EmptyString => True
  | String c _ =>
      Str.is_digit c = false
      /\ (Str.code c =? 46) || (Str.code c =? 101) || (Str.code c =? 69) = false
      /\ Json.is_ws c = false
  end.
Proof.
  destruct rest as [|c r]; [trivial|]. unfold delimited, Str.is_digit, Json.is_ws.
  intros H. repeat rewrite orb_true_iff in H. rewrite !Nat.eqb_eq in H.
  destruct H as [[H|H]|H]; rewrite H; repeat split; reflexivity.
Qed.

Lemma span_digits_app (ds rest : string) :
  Str.forallb Str.is_digit ds = true -> delimited rest = true ->
  Json.span_digits (ds ++ rest) = (ds, rest).
Proof.
  intros Hd Hr. induction ds as [|c ds IH]; simpl.
  - destruct rest as [|c r]; [reflexivity|].
    apply delimited_not_digit in Hr as [Hr _]. simpl. rewrite Hr. reflexivity.
  - simpl in Hd. apply andb_prop in Hd as [Hc Hd].
    rewrite Hc, (IH Hd). reflexivity.
Qed.

Lemma parse_number_of_Z (n : Z) (rest : string) :
  Num.safe n = true -> delimited rest = true ->
  Json.parse_number (Str.of_Z n ++ rest) = Some (VNum n, rest).
Proof.
  intros Hn Hr. unfold Json.parse_number.
  assert (Hs : Json.span_number (Str.of_Z n ++ rest) = (Str.of_Z n, rest)).
  { destruct (of_Z_shape n) as [ds [Hne [Hd E]]]. rewrite E.
    destruct (n <? 0)%Z.
    - simpl. rewrite (span_digits_app _ _ Hd Hr). reflexivity.
    - destruct ds as [|c ds]; [contradiction|].
      unfold Json.span_number. simpl append.
      simpl in Hd. apply andb_prop in Hd as [Hc Hd'].
      assert (Hm : (Str.code c =? 45) = false).
      { unfold Str.is_digit in Hc. apply andb_prop in Hc as [H1 H2].
        apply Nat.leb_le in H1. apply Nat.eqb_neq. lia. }
      rewrite Hm.
      change (String c (ds ++ rest)) with (String c ds ++ rest)%string.
      apply span_digits_app; [simpl; rewrite Hc, Hd'; reflexivity | exact Hr]. }
  rewrite Hs, (number_of_of_Z _ Hn).
  destruct rest as [|c r]; [reflexivity|].
  apply delimited_not_digit in Hr as [_ [Hr _]]. rewrite Hr. reflexivity.
Qed.

(** *** Values *)

Lemma parse_value_number (f : nat) (c : ascii) (r : string) :
  (Str.code c =? 45) || Str.is_digit c = true ->
  Json.parse_value (S f) (String c r) = Json.parse_number (String c r).
Proof.
  destruct c as [[] [] [] [] [] [] [] []]; intros H;
    try discriminate H; reflexivity.
Qed.

Lemma parse_value_array (f : nat) (r : string) :
  Json.parse_value (S f) (String "[" r)
  = match Json.skip_ws r with
    | String c' r' =>
        if Str.code c' =? 93 then Some (VArr [], r')
        else match Json.parse_elements f r with
             | Some (l, rest) => Some (VArr l, rest)
             | None => None
             end
    | EmptyString => None
    end.
Proof. reflexivity. Qed.

Lemma parse_value_object (f : nat) (r : string) :
  Json.parse_value (S f) (String "{" r)
  = match Json.skip_ws r with
    | String c' r' =>
        if Str.code c' =? 125 then Some (VObj [], r')
        else match Json.parse_members f r with
             | Some (l, rest) => Some (Json.object_of l, rest)
             | None => None
             end
    | EmptyString => None
    end.
Proof. reflexivity. Qed.

Lemma parse_elements_eq (f : nat) (s : string) :
  Json.parse_elements (S f) s
  = match Json.parse_value f s with
    | Some (v, r) =>
        match Json.skip_ws r with
        | String c r' =>
            if Str.code c =? 44 then
              match Json.parse_elements f r' with
              | Some (vs, rest) => Some (v :: vs, rest)
              | None => None
              end
            else if Str.code c =? 93 then Some ([v], r')
            else None
        | EmptyString => None
        end
    | None => None
    end.
Proof. reflexivity. Qed.

Lemma parse_members_quote (f : nat) (k s : string) :
  Json.parse_members (S f) (Json.quote k ++ String ":" s)
  = match Json.parse_value f s with
    | Some (v, r3) =>
        match Json.skip_ws r3 with
        | String c r' =>
            if Str.code c =? 44 then
              match Json.parse_members f r' with
              | Some (ms, rest) => Some ((k, v) :: ms, rest)
              | None => None
              end
            else if Str.code c =? 125 then Some ([(k, v)], r')
            else None
        | EmptyString => None
        end
    | None => None
    end.
Proof.
  unfold Json.quote. cbn [append].
  rewrite append_assoc. cbn [append].
  cbn [Json.parse_members Json.skip_ws Json.is_ws].
  change (Json.is_ws Json.dquote) with false. cbv iota.
  change (Str.code Json.dquote =? 34) with true. cbv iota.
  rewrite parse_quote_body.
  change (Json.skip_ws (String ":" s)) with (String ":" s).
  change (Str.code ":" =? 58) with true. cbv iota. reflexivity.
Qed.

Lemma stringify_opens (v : value) (rest : string) :
  opens_value (Json.stringify v ++ rest).
Proof.
  destruct v as [|[]|n|s|l|o|name]; try (simpl; repeat split; reflexivity).
  - simpl. destruct (of_Z_shape n) as [ds [Hne [Hd E]]]. rewrite E.
    destruct (n <? 0)%Z; [simpl; repeat split; reflexivity|].
    destruct ds as [|c ds]; [contradiction|]. simpl in *.
    apply andb_prop in Hd as [Hc _]. unfold Str.is_digit in Hc.
    apply andb_prop in Hc as [H1 H2]. apply Nat.leb_le in H1, H2.
    unfold Json.is_ws. repeat split;
      repeat (apply orb_false_iff; split); apply Nat.eqb_neq; lia.
  - simpl. destruct (Js.is_prototype name); simpl; repeat split; reflexivity.
Qed.

Lemma skip_ws_opens (s : string) : opens_value s -> Json.skip_ws s = s.
Proof.
  destruct s as [|c r]; [intros []|]. intros [H _]. simpl. rewrite H. reflexivity.
Qed.

Lemma skip_ws_delimited (rest : string) :
  delimited rest = true -> Json.skip_ws rest = rest.
Proof.
  intros H. destruct rest as [|c r]; [reflexivity|].
  apply delimited_not_digit in H as [_ [_ H]]. simpl. rewrite H. reflexivity.
Qed.

Lemma parse_elements_stringify (l : list value) :
  l <> [] -> Forall parses l ->
  forall fuel rest,
    list_sum (List.map (fun x => S (weight x)) l) <= fuel ->
    Json.parse_elements fuel
      (Str.join "," (List.map Json.stringify l) ++ String "]" rest)
    = Some (List.map normalize l, rest).
Proof.
  induction l as [|x l IH]; [contradiction|]. intros _ HF fuel rest Hf.
  inversion HF as [|? ? Hx Hl]; subst.
  simpl in Hf. destruct fuel as [|f]; [lia|].
  rewrite parse_elements_eq.
  destruct l as [|y l].
  - simpl. rewrite Hx by (try reflexivity; lia). reflexivity.
  - change (Str.join "," (List.map Json.stringify (x :: y :: l)))
      with (Json.stringify x ++ "," ++
            Str.join "," (List.map Json.stringify (y :: l)))%string.
    rewrite !append_assoc. cbn [append].
    rewrite Hx by (try reflexivity; simpl in *; lia).
    cbn [Json.skip_ws]. change (Json.is_ws ",") with false. cbv iota.
    change (Str.code "," =? 44) with true. cbv iota.
    rewrite IH; [reflexivity | discriminate | exact Hl | simpl in *; lia].
Qed.

Lemma parse_members_stringify (o : list (string * value)) :
  o <> [] -> Forall (fun kv => parses (snd kv)) o ->
  forall fuel rest,
    list_sum (List.map (fun kv : string * value => S (weight (snd kv))) o) <= fuel ->
    Json.parse_members fuel
      (Str.join ","
         (List.map (fun kv : string * value =>
                      (Json.quote (fst kv) ++ ":" ++ Json.stringify (snd kv))%string) o)
       ++ String "}" rest)
    = Some (List.map (fun kv : string * value => (fst kv, normalize (snd kv))) o, rest).
Proof.
  induction o as [|[k x] o IH]; [contradiction|]. intros _ HF fuel rest Hf.
  inversion HF as [|? ? Hx Hl]; subst. simpl in Hx.
  simpl in Hf. destruct fuel as [|f]; [lia|].
  destruct o as [|[k' y] o].
  - cbn [List.map Str.join fst snd].
    rewrite !append_assoc. cbn [append].
    rewrite parse_members_quote.
    rewrite Hx by (try reflexivity; lia). reflexivity.
  - change (Str.join "," (List.map ?f ((k, x) :: (k', y) :: o)))
      with (f (k, x) ++ "," ++ Str.join "," (List.map f ((k', y) :: o)))%string.
    cbn [fst snd].
    rewrite !append_assoc. cbn [append].
    rewrite parse_members_quote.
    rewrite Hx by (try reflexivity; simpl in *; lia).
    cbn [Json.skip_ws]. change (Json.is_ws ",") with false. cbv iota.
    change (Str.code "," =? 44) with true. cbv iota.
    rewrite IH; [reflexivity | discriminate | exact Hl | simpl in *; lia].
Qed.

(** The properties that [JSON.stringify] writes are those that hold no
    function. *)
Lemma somes_written {B} (g : string * value -> B) (o : list (string * value)) :
  Js.somes
    (List.map (fun kv : string * value =>
                 if Js.is_function (snd kv) then None else Some (g kv)) o)
  = List.map g (written o).
Proof.
  unfold written. induction o as [|[k x] o IH]; [reflexivity|].
  cbn [List.map filter snd]. destruct (Js.is_function x); cbn [negb Js.somes List.map];
    rewrite IH; reflexivity.
Qed.

Lemma stringify_members (o : list (string * value)) :
  Json.stringify (VObj o)
  = ("{" ++ Str.join ","
       (List.map (fun kv : string * value =>
                    (Json.quote (fst kv) ++ ":" ++ Json.stringify (snd kv))%string)
          (written o))
     ++ "}")%string.
Proof.
  rewrite <- somes_written. simpl. do 4 f_equal. apply map_ext.
  intros [k x]. reflexivity.
Qed.

Lemma normalize_members (o : list (string * value)) :
  normalize (VObj o)
  = Json.object_of
      (List.map (fun kv : string * value => (fst kv, normalize (snd kv)))
         (written o)).
Proof.
  rewrite <- somes_written. simpl. do 2 f_equal. apply map_ext.
  intros [k x]. reflexivity.
Qed.

Lemma sum_written (w : value -> nat) (o : list (string * value)) :
  list_sum
    (List.map (fun kv : string * value =>
                 let (_, x) := kv in if Js.is_function x then 0 else S (w x)) o)
  = list_sum (List.map (fun kv : string * value => S (w (snd kv))) (written o)).
Proof.
  unfold written. induction o as [|[k x] o IH]; [reflexivity|].
  cbn [List.map filter snd]. destruct (Js.is_function x);
    cbn [negb List.map snd];
    repeat match goal with
           | |- context [list_sum (?a :: ?l)] =>
               change (list_sum (a :: l)) with (a + list_sum l)
           end;
    rewrite IH; reflexivity.
Qed.

Lemma weight_members (o : list (string * value)) :
  weight (VObj o)
  = S (list_sum (List.map (fun kv : string * value => S (weight (snd kv)))
                   (written o))).
Proof.
  rewrite <- sum_written. reflexivity.
Qed.

Lemma written_Forall (P : string * value -> Prop) (o : list (string * value)) :
  Forall P o -> Forall P (written o).
Proof.
  intros H. apply Forall_forall. intros kv Hin.
  apply filter_In in Hin as [Hin _]. rewrite Forall_forall in H. auto.
Qed.

(** Parsing the text of a value gives the value back, its objects built
    again. *)
Lemma parse_value_stringify (v : value) : numeric v = true -> parses v.
Proof.
  induction v as [|b|n|s|l IH|o IH|name] using value_ind';
    intros Hnum fuel rest Hf Hr;
    (destruct fuel as [|f]; [simpl in Hf; lia|]).
  - reflexivity.
  - destruct b; reflexivity.
  - pose proof (stringify_opens (VNum n) rest) as Ho.
    simpl Json.stringify in *.
    destruct (of_Z_shape n) as [ds [Hne [Hd E]]].
    destruct (Str.of_Z n ++ rest)%string as [|c r] eqn:Es; [destruct Ho|].
    rewrite parse_value_number.
    + rewrite <- Es. apply parse_number_of_Z; [exact Hnum | exact Hr].
    + rewrite E in Es. destruct (n <? 0)%Z.
      * injection Es as <- _. reflexivity.
      * destruct ds as [|d ds]; [contradiction|]. injection Es as <- _.
        simpl in Hd. apply andb_prop in Hd as [Hd _]. rewrite Hd.
        apply orb_true_r.
  - simpl Json.stringify. unfold Json.quote. cbn [append].
    rewrite append_assoc. cbn [append].
    cbn [Json.parse_value Json.skip_ws].
    change (Json.is_ws Json.dquote) with false. cbv iota.
    change (Str.code Json.dquote) with 34. cbn [Nat.eqb]. cbv iota.
    rewrite parse_quote_body. reflexivity.
  - assert (HF : Forall parses l).
    { simpl in Hnum. rewrite forallb_forall in Hnum.
      rewrite Forall_forall in *. intros x Hx. apply IH; auto. }
    simpl Json.stringify. cbn [append]. rewrite append_assoc. cbn [append].
    rewrite parse_value_array.
    destruct l as [|x l]; [reflexivity|].
    assert (Ho : opens_value
                   (Str.join "," (List.map Json.stringify (x :: l))
                    ++ String "]" rest)).
    { destruct l; simpl; [|rewrite append_assoc]; apply stringify_opens. }
    rewrite (skip_ws_opens _ Ho).
    destruct (Str.join "," (List.map Json.stringify (x :: l)) ++ String "]" rest)%string
      as [|c r] eqn:Es; [destruct Ho|].
    destruct Ho as [_ [Hc _]]. rewrite Hc. rewrite <- Es.
    rewrite parse_elements_stringify;
      [reflexivity | discriminate | exact HF | simpl in Hf; simpl; lia].
  - assert (HF : Forall (fun kv => parses (snd kv)) (written o)).
    { apply written_Forall. simpl in Hnum. rewrite forallb_forall in Hnum.
      rewrite Forall_forall in *. intros [k x] Hx. apply (IH _ Hx).
      exact (Hnum _ Hx). }
    rewrite stringify_members, normalize_members. rewrite weight_members in Hf.
    cbn [append]. rewrite append_assoc. cbn [append].
    rewrite parse_value_object.
    destruct (written o) as [|[k x] w]; [reflexivity|].
    match goal with |- context [Json.skip_ws ?t] =>
      assert (Ho : opens_value t) end.
    { destruct w; cbn [List.map Str.join fst snd]; unfold Json.quote;
        repeat split; reflexivity. }
    rewrite (skip_ws_opens _ Ho).
    match goal with |- context [Json.parse_members f ?t] =>
      destruct t as [|c r] eqn:Es; [destruct Ho|] end.
    destruct Ho as [_ [_ Hc]]. rewrite Hc. rewrite <- Es.
    rewrite parse_members_stringify;
      [reflexivity | discriminate | exact HF | lia].
  - simpl. destruct (Js.is_prototype name); reflexivity.
Qed.

(** *** Fuel *)

Lemma length_append (a b : string) :
  String.length (a ++ b) = String.length a + String.length b.
Proof. induction a as [|c a IH]; simpl; [reflexivity | rewrite IH; reflexivity]. Qed.

Lemma join_weight (texts : list string) (weights : list nat) :
  Forall2 (fun w t => w <= String.length t) weights texts ->
  list_sum (List.map S weights) <= S (String.length (Str.join "," texts)).
Proof.
  intros H. induction H as [|w t ws ts Hw Hs IH]; [simpl; lia|].
  destruct ts as [|t' ts].
  - inversion Hs; subst. simpl. lia.
  - change (Str.join "," (t :: t' :: ts))
      with (t ++ "," ++ Str.join "," (t' :: ts))%string.
    rewrite !length_append. unfold list_sum in *.
    cbn [List.map fold_right]. change (String.length ",") with 1. lia.
Qed.

Lemma weight_le_length (v : value) :
  weight v <= String.length (Json.stringify v).
Proof.
  induction v as [|b|n|s|l IH|o IH|name] using value_ind'.
  - simpl. lia.
  - destruct b; simpl; lia.
  - simpl. destruct (of_Z_shape n) as [ds [Hne [_ E]]]. rewrite E.
    destruct (n <? 0)%Z; destruct ds; try contradiction; simpl; lia.
  - simpl. lia.
  - change (Json.stringify (VArr l))
      with ("[" ++ Str.join "," (List.map Json.stringify l) ++ "]")%string.
    change (weight (VArr l))
      with (S (list_sum (List.map (fun x => S (weight x)) l))).
    rewrite !length_append.
    assert (H : list_sum (List.map S (List.map weight l))
                <= S (String.length (Str.join "," (List.map Json.stringify l)))).
    { apply join_weight. induction IH; simpl; constructor; assumption. }
    rewrite map_map in H.
    change (String.length "[") with 1. change (String.length "]") with 1. lia.
  - rewrite stringify_members, weight_members.
    rewrite !length_append.
    apply (written_Forall (fun kv => weight (snd kv) <= String.length (Json.stringify (snd kv)))) in IH.
    assert (H : list_sum (List.map S
                            (List.map (fun kv : string * value => weight (snd kv))
                               (written o)))
                <= S (String.length
                        (Str.join ","
                           (List.map (fun kv : string * value =>
                              (Json.quote (fst kv) ++ ":" ++ Json.stringify (snd kv))%string)
                              (written o))))).
    { apply join_weight. induction IH as [|[k x] w Hx _ IHo]; cbn [List.map];
        constructor; [|assumption].
      cbn [fst snd] in *. rewrite !length_append. lia. }
    rewrite map_map in H.
    change (String.length "{") with 1. change (String.length "}") with 1. lia.
  - simpl. destruct (Js.is_prototype name); simpl; lia.
Qed.

Lemma parse_stringify (v : value) :
  numeric v = true -> Json.parse (Json.stringify v) = Some (normalize v).
Proof.
  intros Hn. unfold Json.parse.
  rewrite <- (append_nil_r (Json.stringify v)) at 2.
  rewrite (parse_value_stringify v Hn);
    [reflexivity | pose proof (weight_le_length v); lia | reflexivity].
Qed.

(** *** Objects in enumeration order *)

Lemma precedes_neq (k0 k : string) : precedes k0 k = true -> k0 <> k.
Proof.
  unfold precedes. intros H ->.
  destruct (Js.array_index k) as [i|].
  - apply N.ltb_lt in H. lia.
  - rewrite String.eqb_refl in H. discriminate.
Qed.

Lemma get_none_precedes {A} (pre : jsobj A) (k : string) :
  List.forallb (fun k0 => precedes k0 k) (List.map fst pre) = true ->
  Js.get pre k = None.
Proof.
  induction pre as [|[k0 v0] pre IH]; simpl; [reflexivity|].
  intros H. apply andb_prop in H as [H0 H].
  apply precedes_neq in H0. destruct (String.eqb_spec k0 k); [contradiction|].
  apply IH. exact H.
Qed.

Lemma insert_index_last {A} (i : N) (k : string) (v : A) (pre : jsobj A) :
  Js.array_index k = Some i ->
  List.forallb (fun k0 => precedes k0 k) (List.map fst pre) = true ->
  Js.insert_index i k v pre = pre ++ [(k, v)].
Proof.
  intros Hk. induction pre as [|[k0 v0] pre IH]; simpl; [reflexivity|].
  intros H. apply andb_prop in H as [H0 H].
  unfold precedes in H0. rewrite Hk in H0.
  destruct (Js.array_index k0) as [j|]; [|discriminate].
  rewrite H0, (IH H). reflexivity.
Qed.

Lemma set_last {A} (k : string) (v : A) (pre : jsobj A) :
  List.forallb (fun k0 => precedes k0 k) (List.map fst pre) = true ->
  Js.set k v pre = pre ++ [(k, v)].
Proof.
  intros H. unfold Js.set, Js.has. rewrite (get_none_precedes _ _ H).
  destruct (Js.array_index k) as [i|] eqn:E; [|reflexivity].
  apply insert_index_last; assumption.
Qed.

Lemma canonical_keys_app (pre post : list string) :
  canonical_keys (pre ++ post) = true ->
  canonical_keys post = true
  /\ forall k, In k post -> List.forallb (fun k0 => precedes k0 k) pre = true.
Proof.
  induction pre as [|k0 pre IH]; simpl; [auto|].
  intros H. apply andb_prop in H as [H0 H]. destruct (IH H) as [Hp Hall].
  split; [exact Hp|]. intros k Hk.
  rewrite forallb_forall in H0. rewrite (H0 k) by (apply in_or_app; auto).
  apply Hall. exact Hk.
Qed.

Lemma fold_set_canonical {A} (post pre : jsobj A) :
  canonical_keys (List.map fst (pre ++ post)) = true ->
  fold_left (fun acc kv => Js.set (fst kv) (snd kv) acc) post pre = pre ++ post.
Proof.
  revert pre. induction post as [|[k v] post IH]; intros pre H; simpl.
  - rewrite app_nil_r. reflexivity.
  - rewrite set_last.
    + rewrite IH; rewrite <- app_assoc; [reflexivity | exact H].
    + rewrite map_app in H. apply canonical_keys_app in H as [_ H].
      apply H. left. reflexivity.
Qed.

(** An object literal whose keys are in enumeration order is the list of
    its properties. *)
Lemma literal_canonical {A} (o : jsobj A) :
  canonical_keys (List.map fst o) = true -> Js.literal o = o.
Proof.
  intros H. unfold Js.literal, Js.spread. apply (fold_set_canonical o []). exact H.
Qed.

Lemma json_not_function (v : value) :
  json_value v = true -> Js.is_function v = false.
Proof. destruct v; simpl; intros H; try reflexivity; discriminate H. Qed.

Lemma written_json (o : list (string * value)) :
  json_value (VObj o) = true -> written o = o.
Proof.
  unfold written. simpl. induction o as [|[k x] o IH]; [reflexivity|].
  cbn [List.forallb filter snd]. intros H. apply andb_prop in H as [Hx Ho].
  rewrite (json_not_function x Hx). cbn [negb]. rewrite (IH Ho). reflexivity.
Qed.

Lemma wf_numeric (v : value) : wf_value v = true -> numeric v = true.
Proof.
  induction v as [|b|n|s|l IH|o IH|name] using value_ind'; try reflexivity.
  - intros H. exact H.
  - simpl. intros H. rewrite forallb_forall in *. rewrite Forall_forall in IH.
    intros x Hx. apply IH; auto.
  - simpl. intros H. apply andb_prop in H as [_ H].
    rewrite forallb_forall in *. rewrite Forall_forall in IH.
    intros [k x] Hx. apply (IH _ Hx). exact (H _ Hx).
Qed.

Lemma normalize_wf (v : value) :
  wf_value v = true -> json_value v = true -> normalize v = v.
Proof.
  induction v as [|b|n|s|l IH|o IH|name] using value_ind'; try reflexivity.
  - intros H J. simpl in *. f_equal.
    induction IH as [|x l Hx _ IHl]; [reflexivity|].
    simpl in *. apply andb_prop in H as [H1 H2]. apply andb_prop in J as [J1 J2].
    rewrite (Hx H1 J1), (IHl H2 J2). reflexivity.
  - intros H J. rewrite normalize_members, (written_json o J).
    unfold Json.object_of.
    simpl in H. apply andb_prop in H as [Hk Hm]. simpl in J.
    assert (E : List.map (fun kv : string * value => (fst kv, normalize (snd kv))) o = o).
    { clear Hk. induction IH as [|[k x] o Hx _ IHo]; [reflexivity|].
      simpl in *. apply andb_prop in Hm as [H1 H2].
      apply andb_prop in J as [J1 J2].
      rewrite (Hx H1 J1), (IHo H2 J2). reflexivity. }
    rewrite E, literal_canonical by exact Hk. reflexivity.
  - intros _ J. discriminate J.
Qed.

(** [JSON.parse(JSON.stringify(v))] is [v] for JSON data whose objects
    are in enumeration order. *)
Lemma parse_stringify_wf (v : value) :
  wf_value v = true -> json_value v = true ->
  Json.parse (Json.stringify v) = Some v.
Proof.
  intros H J. rewrite (parse_stringify v (wf_numeric v H)), (normalize_wf _ H J).
  reflexivity.
Qed.

(** ** Sets kept as lists *)

Section Uniq.

Context {A : Type} (eqb : A -> A -> bool).
Hypothesis eqb_eq : forall a b, eqb a b = true <-> a = b.

Lemma existsb_eqb_In (x : A) (l : list A) :
  List.existsb (eqb x) l = true <-> In x l.
Proof.
  rewrite existsb_exists. split.
  - intros [y [Hy E]]. apply eqb_eq in E. subst y. exact Hy.
  - intros H. exists x. split; [exact H | apply eqb_eq; reflexivity].
Qed.

Lemma uniq_acc_In (l : list A) :
  forall seen x, In x (Js.uniq_acc eqb seen l) <-> In x l /\ ~ In x seen.
Proof.
  induction l as [|y l IH]; intros seen x; simpl; [tauto|].
  destruct (List.existsb (eqb y) seen) eqn:E.
  - apply existsb_eqb_In in E. rewrite IH. split.
    + intros [H1 H2]. auto.
    + intros [[->|H1] H2]; [contradiction | auto].
  - assert (Hy : ~ In y seen).
    { intros H. apply existsb_eqb_In in H. congruence. }
    simpl. rewrite IH. simpl. split.
    + intros [->|[H1 H2]]; [auto|]. split; [auto | tauto].
    + intros [[->|H1] H2]; [auto|].
      destruct (eqb x y) eqn:Exy.
      * apply eqb_eq in Exy. auto.
      * right. split; [exact H1|]. intros [->|H]; [|contradiction].
        assert (eqb x x = true) by (apply eqb_eq; reflexivity). congruence.
Qed.

Lemma uniq_In (l : list A) (x : A) : In x (Js.uniq eqb l) <-> In x l.
Proof. unfold Js.uniq. rewrite uniq_acc_In. simpl. tauto. Qed.

Lemma uniq_acc_NoDup (l : list A) :
  forall seen, NoDup (Js.uniq_acc eqb seen l).
Proof.
  induction l as [|y l IH]; intros seen; simpl; [constructor|].
  destruct (List.existsb (eqb y) seen); [apply IH|].
  constructor; [|apply IH].
  rewrite uniq_acc_In. simpl. tauto.
Qed.

Lemma uniq_NoDup (l : list A) : NoDup (Js.uniq eqb l).
Proof. apply uniq_acc_NoDup. Qed.

End Uniq.

(** ** Sorting *)

Lemma sort_perm {A} (le : A -> A -> bool) (l : list A) :
  Permutation (Js.sort le l) l.
Proof. apply Js.sort_permutes. Qed.

Section SortTotal.

Context {A : Type} (le : A -> A -> bool).
Hypothesis le_total : forall a b, le a b = true \/ le b a = true.

Lemma insert_sorted_HdRel (x a : A) (l : list A) :
  le a x = true ->
  HdRel (fun u v => le u v = true) a l ->
  HdRel (fun u v => le u v = true) a (Js.insert_sorted le x l).
Proof.
  intros Hax H. destruct l as [|y l]; simpl.
  - constructor. exact Hax.
  - destruct (le x y); constructor; [exact Hax|].
    inversion H; assumption.
Qed.

Lemma insert_sorted_Sorted (x : A) (l : list A) :
  Sorted (fun u v => le u v = true) l ->
  Sorted (fun u v => le u v = true) (Js.insert_sorted le x l).
Proof.
  induction 1 as [|y l Hs IH Hd]; simpl.
  - constructor; constructor.
  - destruct (le x y) eqn:E.
    + constructor; [constructor; assumption|]. constructor. exact E.
    + constructor; [exact IH|].
      apply insert_sorted_HdRel; [|exact Hd].
      destruct (le_total x y) as [H|H]; [congruence | exact H].
Qed.

Lemma sort_Sorted (l : list A) : Sorted (fun u v => le u v = true) (Js.sort le l).
Proof.
  unfold Js.sort. induction l as [|x l IH]; simpl; [constructor|].
  apply insert_sorted_Sorted. exact IH.
Qed.

End SortTotal.

(** ** The facet lists *)

Lemma uniq_acc_In_sound {A} (eqb : A -> A -> bool) (l : list A) :
  (forall a b, eqb a b = true -> a = b) ->
  forall seen x, In x l -> In x (Js.uniq_acc eqb seen l) \/ In x seen.
Proof.
  intros Hs. induction l as [|y l IH]; intros seen x Hx; simpl in *; [destruct Hx|].
  destruct (List.existsb (eqb y) seen) eqn:E.
  - destruct Hx as [->|Hx]; [|apply IH; exact Hx].
    right. apply existsb_exists in E as [z [Hz Ez]].
    apply Hs in Ez. subst z. exact Hz.
  - destruct Hx as [->|Hx]; [left; left; reflexivity|].
    destruct (IH (y :: seen) x Hx) as [H|[->|H]]; simpl; auto.
Qed.

Lemma uniq_acc_In_subset {A} (eqb : A -> A -> bool) (l : list A) :
  forall seen x, In x (Js.uniq_acc eqb seen l) -> In x l.
Proof.
  induction l as [|y l IH]; intros seen x; simpl; [auto|].
  destruct (List.existsb (eqb y) seen); simpl.
  - intros H. right. apply (IH _ _ H).
  - intros [->|H]; [auto|]. right. apply (IH _ _ H).
Qed.

Lemma uniq_In_sound {A} (eqb : A -> A -> bool) (l : list A) (x : A) :
  (forall a b, eqb a b = true -> a = b) ->
  In x (Js.uniq eqb l) <-> In x l.
Proof.
  intros Hs. unfold Js.uniq. split.
  - apply uniq_acc_In_subset.
  - intros H. destruct (uniq_acc_In_sound eqb l Hs [] x H) as [H'|[]]. exact H'.
Qed.

Lemma same_value_sound (a b : value) : Js.same_value a b = true -> a = b.
Proof.
  unfold Js.same_value, Js.strict_eq.
  destruct a, b; intros H; try discriminate H; try reflexivity.
  - apply Bool.eqb_prop in H. congruence.
  - apply Z.eqb_eq in H. congruence.
  - apply String.eqb_eq in H. congruence.
  - apply String.eqb_eq in H. congruence.
Qed.

Lemma In_sort {A} (le : A -> A -> bool) (l : list A) (x : A) :
  In x (Js.sort le l) <-> In x l.
Proof.
  split; apply Permutation_in; [|symmetry]; apply sort_perm.
Qed.

Lemma In_facet_values (le : value -> value -> bool) (l : list value) (x : value) :
  In x (Js.sort le (Js.uniq Js.same_value l)) <-> In x l.
Proof. rewrite In_sort. apply uniq_In_sound. exact same_value_sound. Qed.

Lemma In_sortBy (env : Env) (compareFn : string -> string -> comparison)
    (l : list string) (x : string) :
  In x (sortBy env compareFn l) <-> In x l.
Proof.
  split; apply Permutation_in; [|symmetry]; apply sortBy_permutes.
Qed.

Lemma In_facet_strings (env : Env) (compareFn : string -> string -> comparison)
    (l : list string) (x : string) :
  In x (sortBy env compareFn (Js.uniq String.eqb l)) <-> In x l.
Proof. rewrite In_sortBy. apply (uniq_In String.eqb String.eqb_eq). Qed.

(** ** Session round trip *)

Lemma mapM_as_obj (l : list obj) : mapM Shape.as_obj (List.map VObj l) = Some l.
Proof. induction l as [|x l IH]; simpl; [reflexivity | rewrite IH; reflexivity]. Qed.

Lemma mapM_as_string (l : list string) :
  mapM Shape.as_string (List.map VStr l) = Some l.
Proof. induction l as [|x l IH]; simpl; [reflexivity | rewrite IH; reflexivity]. Qed.

Lemma as_dict_of_dict {A} (f : value -> option A) (g : A -> value) (o : jsobj A) :
  (forall x, f (g x) = Some x) ->
  Shape.as_dict f (Shape.of_dict g o) = Some o.
Proof.
  intros H. unfold Shape.as_dict, Shape.of_dict.
  induction o as [|[k x] o IH]; simpl; [reflexivity|].
  rewrite H, IH. reflexivity.
Qed.

Lemma wf_of_rooms (l : list obj) :
  wf_value (Shape.of_rooms l) = List.forallb wf_obj l.
Proof.
  unfold Shape.of_rooms. simpl. induction l as [|x l IH]; [reflexivity|].
  simpl in *. rewrite IH. reflexivity.
Qed.

Lemma json_of_rooms (l : list obj) :
  json_value (Shape.of_rooms l) = List.forallb (fun room => json_value (VObj room)) l.
Proof.
  unfold Shape.of_rooms. simpl. induction l as [|x l IH]; [reflexivity|].
  simpl in *. rewrite IH. reflexivity.
Qed.

Lemma wf_of_strings (l : list string) : wf_value (Shape.of_strings l) = true.
Proof.
  unfold Shape.of_strings. simpl. induction l as [|x l IH]; [reflexivity|].
  simpl in *. exact IH.
Qed.

Lemma json_of_strings (l : list string) : json_value (Shape.of_strings l) = true.
Proof.
  unfold Shape.of_strings. simpl. induction l as [|x l IH]; [reflexivity|].
  simpl in *. exact IH.
Qed.

Lemma wf_of_dict {A} (g : A -> value) (o : jsobj A) :
  wf_value (Shape.of_dict g o)
  = canonical_keys (List.map fst o)
    && List.forallb (fun kv => wf_value (g (snd kv))) o.
Proof.
  unfold Shape.of_dict. simpl. rewrite map_map. simpl. f_equal.
  induction o as [|[k x] o IH]; [reflexivity|]. simpl in *. rewrite IH. reflexivity.
Qed.

Lemma json_of_dict {A} (g : A -> value) (o : jsobj A) :
  json_value (Shape.of_dict g o)
  = List.forallb (fun kv => json_value (g (snd kv))) o.
Proof.
  unfold Shape.of_dict. simpl.
  induction o as [|[k x] o IH]; [reflexivity|]. simpl in *. rewrite IH. reflexivity.
Qed.

Lemma createSearchIndex_shape (st : State) :
  createSearchIndex st = st
  \/ exists items, createSearchIndex st = set_autocompleteItems items st.
Proof.
  unfold createSearchIndex.
  destruct (processedData st);
    [| destruct (mapM (createUnifiedTags st) (o :: l)); [|auto]];
    (destruct (buildUnifiedAutocomplete st) as [items|]; [right; eauto | auto]).
Qed.

Lemma get_app_none {A} (pre post : jsobj A) (k : string) :
  Js.get pre k = None -> Js.get (pre ++ post) k = Js.get post k.
Proof.
  induction pre as [|[k' v] pre IH]; simpl; [reflexivity|].
  destruct (String.eqb k' k); [discriminate | exact IH].
Qed.

(** What [importSession] does with a file whose text parses to a
    session document with data of the expected shape. *)
Lemma importSession_document (env : Env)
    (fileName compressedData jsonString : string) (document data : obj)
    (st0 : State)
    (rooms : list obj) (custom : jsobj (list obj)) (staff : jsobj (list string))
    (colors : obj) (filters : Filters) (query : string) :
  decodeSession compressedData = Some jsonString ->
  Json.parse jsonString = Some (VObj document) ->
  Js.lookup document "type" = Some (VStr "um_session") ->
  Js.lookup document "data" = Some (VObj data) ->
  Shape.as_array Shape.as_obj
    (Js.or_else (Js.lookup data "processedData") (VArr [])) = Some rooms ->
  Shape.as_dict (Shape.as_array Shape.as_obj)
    (Js.or_else (Js.lookup data "customTags") (VObj [])) = Some custom ->
  Shape.as_dict (Shape.as_array Shape.as_string)
    (Js.or_else (Js.lookup data "staffTags") (VObj [])) = Some staff ->
  Shape.as_obj (Js.or_else (Js.lookup data "buildingColors") (VObj []))
  = Some colors ->
  Shape.as_filters (Js.or_else (Js.lookup data "activeFilters") defaultFilters)
  = Some filters ->
  Shape.as_string (Js.or_else (Js.lookup data "searchQuery") (VStr EmptyString))
  = Some query ->
  exists st',
    importSession env fileName compressedData st0 = Restored st'
    /\ (processedData st' = rooms /\ customTags st' = custom
        /\ staffTags st' = staff
        /\ availableBuildings st' = facetBuildings rooms
        /\ availableFloors st' = facetFloors env rooms
        /\ availableTags st' = facetTags rooms)
    /\ activeFilters st' = filters
    /\ searchQuery st' = query
    /\ currentViewMode st'
       = Js.or_else (Js.lookup data "currentViewMode") (VStr "desktop")
    /\ resultsPerPage st'
       = Js.or_else (Js.lookup data "resultsPerPage") (VNum 10)
    /\ currentPage st' = 1%Z
    /\ unmappedAbbreviations st' = unmappedAbbreviations st0
    /\ customAbbreviationMappings st' = customAbbreviationMappings st0
    /\ loadedFiles st'
       = loadedFiles st0
         ++ [[("name", VStr fileName); ("type", VStr "session");
              ("status", VStr "processed")]].
Proof.
  intros Hd Hp Ht Hdata H1 H2 H3 H4 H5 H6.
  unfold importSession. rewrite Hd, Hp.
  cbn [Js.member Js.prop]. rewrite Ht, Hdata.
  cbn [Js.member Js.prop].
  cbn [Js.truthy Js.strict_eq String.eqb Ascii.eqb Bool.eqb negb orb].
  rewrite H1, H2, H3, H4, H5, H6.
  eexists. split; [reflexivity|].
  match goal with |- context [createSearchIndex ?s] =>
    destruct (createSearchIndex_shape s) as [->|[items ->]]
  end; repeat split; reflexivity.
Qed.

(** What [JSON.parse] makes of the text of a session. *)
Lemma normalize_sessionDocument (now : string) (st : State) :
  normalize (sessionDocument now st)
  = VObj [("version", VStr "1.1"); ("timestamp", VStr now);
          ("type", VStr "um_session");
          ("data",
           VObj
             ([("processedData", normalize (Shape.of_rooms (processedData st)));
               ("customTags",
                normalize (Shape.of_dict Shape.of_rooms (customTags st)));
               ("staffTags",
                normalize (Shape.of_dict Shape.of_strings (staffTags st)));
               ("buildingColors", normalize (VObj (buildingColors st)));
               ("activeFilters", normalize (Shape.of_filters (activeFilters st)));
               ("searchQuery", VStr (searchQuery st))]
              ++ writtenSettings st))].
Proof.
  unfold sessionDocument.
  rewrite normalize_members. unfold written at 1.
  cbn [filter snd Js.is_function negb List.map fst].
  unfold Json.object_of at 1. rewrite literal_canonical by reflexivity.
  do 5 f_equal.
  rewrite normalize_members. unfold writtenSettings, written.
  cbn [filter snd].
  change (Js.is_function (Shape.of_rooms (processedData st))) with false.
  change (Js.is_function (Shape.of_dict Shape.of_rooms (customTags st))) with false.
  change (Js.is_function (Shape.of_dict Shape.of_strings (staffTags st))) with false.
  change (Js.is_function (VObj (buildingColors st))) with false.
  change (Js.is_function (Shape.of_filters (activeFilters st))) with false.
  change (Js.is_function (VStr (searchQuery st))) with false.
  cbn [negb].
  unfold Json.object_of.
  destruct (Js.is_function (currentViewMode st)),
    (Js.is_function (resultsPerPage st));
    cbn [negb List.map fst snd app];
    rewrite literal_canonical by reflexivity; reflexivity.
Qed.

Lemma normalize_function (v : value) :
  Js.is_function v = true -> normalize v = VNull.
Proof.
  destruct v; try discriminate. simpl. intros H.
  apply negb_true_iff in H. rewrite H. reflexivity.
Qed.

(** The settings as [importSession] reads them in the parsed text. *)
Lemma settings_of_document (st : State) (pre : obj) :
  Js.get pre "currentViewMode" = None -> Js.get pre "resultsPerPage" = None ->
  Js.or_else (Js.lookup (pre ++ writtenSettings st) "currentViewMode")
    (VStr "desktop")
  = Js.or_else (Some (normalize (currentViewMode st))) (VStr "desktop")
  /\ Js.or_else (Js.lookup (pre ++ writtenSettings st) "resultsPerPage")
       (VNum 10)
     = Js.or_else (Some (normalize (resultsPerPage st))) (VNum 10).
Proof.
  intros Hv Hp. unfold Js.lookup.
  rewrite !get_app_none by assumption.
  unfold writtenSettings, written. cbn [filter snd].
  destruct (Js.is_function (currentViewMode st)) eqn:Ev,
    (Js.is_function (resultsPerPage st)) eqn:Ep;
    cbn [negb List.map fst snd Js.get String.eqb Ascii.eqb Bool.eqb
           Js.inherited Js.prototype_names List.existsb orb];
    rewrite ?(normalize_function _ Ev), ?(normalize_function _ Ep);
    split; reflexivity.
Qed.

Lemma as_obj_normalize (o : obj) :
  exists o', normalize (VObj o) = VObj o'.
Proof. rewrite normalize_members. eexists. reflexivity. Qed.

Lemma as_rooms_normalize (l : list obj) :
  exists rooms,
    Shape.as_array Shape.as_obj (normalize (Shape.of_rooms l)) = Some rooms.
Proof.
  unfold Shape.of_rooms. cbn [normalize Shape.as_array].
  induction l as [|o l [rooms IH]]; [exists []; reflexivity|].
  destruct (as_obj_normalize o) as [o' E].
  exists (o' :: rooms). cbn [List.map mapM]. rewrite E. cbn [Shape.as_obj].
  simpl in *. rewrite IH. reflexivity.
Qed.

Lemma written_of_dict {A} (g : A -> value) (o : jsobj A) :
  (forall x, Js.is_function (g x) = false) ->
  written (List.map (fun kv => (fst kv, g (snd kv))) o)
  = List.map (fun kv => (fst kv, g (snd kv))) o.
Proof.
  intros H. unfold written. induction o as [|[k x] o IH]; [reflexivity|].
  cbn [List.map filter fst snd]. rewrite H. cbn [negb]. rewrite IH. reflexivity.
Qed.

(** With keys in enumeration order, a dictionary of arrays goes through
    the text entry by entry. *)
Lemma normalize_of_dict {A} (g : A -> value) (o : jsobj A) :
  (forall x, Js.is_function (g x) = false) ->
  canonical_keys (List.map fst o) = true ->
  normalize (Shape.of_dict g o)
  = Shape.of_dict (fun x => normalize (g x)) o.
Proof.
  intros H Hk. unfold Shape.of_dict. rewrite normalize_members.
  rewrite (written_of_dict g o H), map_map. cbn [fst snd].
  unfold Json.object_of. rewrite literal_canonical; [reflexivity|].
  rewrite map_map. cbn [fst]. exact Hk.
Qed.

Lemma as_dict_some {A B} (f : value -> option B) (g : A -> value) (o : jsobj A) :
  (forall x, exists y, f (g x) = Some y) ->
  exists d, Shape.as_dict f (Shape.of_dict g o) = Some d.
Proof.
  intros H. unfold Shape.as_dict, Shape.of_dict.
  induction o as [|[k x] o [d IH]]; [exists []; reflexivity|].
  destruct (H x) as [y Hy]. exists ((k, y) :: d).
  cbn [List.map mapM fst snd]. rewrite Hy. simpl in *. rewrite IH. reflexivity.
Qed.

Lemma written_filters (b fl : option value) (t : value) :
  written_filter b = true -> written_filter fl = true ->
  Js.is_function t = false ->
  written (Js.put "tags" (Some t) (Js.put "floor" fl (Js.put "building" b [])))
  = Js.put "tags" (Some t) (Js.put "floor" fl (Js.put "building" b [])).
Proof.
  intros Hb Hf Et.
  assert (Fb : forall x, b = Some x -> Js.is_function x = false).
  { intros x ->. simpl in Hb. apply andb_prop in Hb as [_ Hb].
    apply negb_true_iff in Hb. exact Hb. }
  assert (Ff : forall x, fl = Some x -> Js.is_function x = false).
  { intros x ->. simpl in Hf. apply andb_prop in Hf as [_ Hf].
    apply negb_true_iff in Hf. exact Hf. }
  destruct b as [b|], fl as [fl|]; unfold Js.put; cbn [Js.remove];
    rewrite ?set_last by reflexivity;
    cbn [Js.remove String.eqb Ascii.eqb Bool.eqb app];
    rewrite ?set_last by reflexivity; cbn [app];
    unfold written; cbn [filter snd];
    rewrite ?(Fb _ eq_refl), ?(Ff _ eq_refl), ?Et; reflexivity.
Qed.

Lemma as_filters_of_filters_explicit (f : Filters) :
  written_filter (building f) = true -> written_filter (floor f) = true ->
  Shape.as_filters
    (Js.or_else (Some (normalize (Shape.of_filters f))) defaultFilters)
  = Some {| building := option_map normalize (building f);
            floor := option_map normalize (floor f);
            tags := tags f |}.
Proof.
  intros Hb Hf. unfold Shape.of_filters.
  assert (Hs : normalize (Shape.of_strings (tags f)) = Shape.of_strings (tags f))
    by (apply normalize_wf; [apply wf_of_strings | apply json_of_strings]).
  rewrite normalize_members.
  rewrite (written_filters (building f) (floor f) (Shape.of_strings (tags f))
             Hb Hf eq_refl).
  destruct (building f) as [b|], (floor f) as [fl|];
    unfold Js.put; cbn [Js.remove];
    rewrite ?set_last by reflexivity;
    cbn [Js.remove String.eqb Ascii.eqb Bool.eqb app];
    rewrite ?set_last by reflexivity; cbn [app];
    cbn [List.map fst snd]; rewrite Hs;
    unfold Json.object_of; rewrite literal_canonical by reflexivity;
    unfold Shape.of_strings;
    cbn [Js.or_else Js.truthy Shape.as_filters Js.get String.eqb Ascii.eqb
           Bool.eqb Shape.as_array option_map];
    rewrite mapM_as_string; reflexivity.
Qed.

Lemma wf_session_parts (st : State) :
  wf_session st = true ->
  List.forallb wf_obj (processedData st) = true
  /\ canonical_keys (List.map fst (customTags st)) = true
  /\ List.forallb (fun kv => List.forallb wf_obj (snd kv)) (customTags st) = true
  /\ canonical_keys (List.map fst (staffTags st)) = true
  /\ numeric (VObj (buildingColors st)) = true
  /\ written_filter (building (activeFilters st)) = true
  /\ written_filter (floor (activeFilters st)) = true
  /\ numeric (currentViewMode st) = true
  /\ numeric (resultsPerPage st) = true.
Proof.
  unfold wf_session. intros H.
  repeat (apply andb_prop in H as [H ?]). repeat split; assumption.
Qed.

Lemma written_filter_numeric (v : option value) :
  written_filter v = true ->
  match v with Some x => numeric x = true | None => True end.
Proof.
  destruct v as [x|]; [|trivial]. simpl. intros H.
  apply andb_prop in H as [H _]. exact H.
Qed.

Lemma numeric_of_filters (f : Filters) :
  written_filter (building f) = true -> written_filter (floor f) = true ->
  numeric (Shape.of_filters f) = true.
Proof.
  intros Hb Hf. apply written_filter_numeric in Hb, Hf.
  assert (Hs : numeric (Shape.of_strings (tags f)) = true).
  { apply wf_numeric, wf_of_strings. }
  unfold Shape.of_filters.
  destruct (building f) as [b|], (floor f) as [fl|];
    unfold Js.put; cbn [Js.remove];
    rewrite ?set_last by reflexivity;
    cbn [Js.remove String.eqb Ascii.eqb Bool.eqb app];
    rewrite ?set_last by reflexivity; cbn [app];
    cbn [numeric List.forallb]; rewrite ?Hb, ?Hf, Hs; reflexivity.
Qed.

Lemma numeric_sessionDocument (now : string) (st : State) :
  wf_session st = true -> numeric (sessionDocument now st) = true.
Proof.
  intros H. apply wf_session_parts in H
    as [Hr [Hc [Ht [Hs [Hbc [Hb [Hf [Hv Hp]]]]]]]].
  assert (N1 : numeric (Shape.of_rooms (processedData st)) = true).
  { apply wf_numeric. rewrite wf_of_rooms. exact Hr. }
  assert (N2 : numeric (Shape.of_dict Shape.of_rooms (customTags st)) = true).
  { apply wf_numeric. rewrite wf_of_dict, Hc. cbn [andb].
    rewrite forallb_forall in *. intros kv Hin.
    rewrite wf_of_rooms. apply Ht. exact Hin. }
  assert (N3 : numeric (Shape.of_dict Shape.of_strings (staffTags st)) = true).
  { apply wf_numeric. rewrite wf_of_dict, Hs. cbn [andb].
    apply forallb_forall. intros [k l] _. apply wf_of_strings. }
  pose proof (numeric_of_filters (activeFilters st) Hb Hf) as N4.
  unfold sessionDocument.
  change (numeric (Shape.of_rooms (processedData st))
          && (numeric (Shape.of_dict Shape.of_rooms (customTags st))
              && (numeric (Shape.of_dict Shape.of_strings (staffTags st))
                  && (numeric (VObj (buildingColors st))
                      && (numeric (Shape.of_filters (activeFilters st))
                          && (true && (numeric (currentViewMode st)
                                       && (numeric (resultsPerPage st) && true)))))))
          && true = true).
  rewrite N1, N2, N3, Hbc, N4, Hv, Hp. reflexivity.
Qed.

(** ** The facet lists of an imported session *)

Lemma consistent_elements {A} (compareFn : A -> A -> comparison) (l : list A) :
  Js.consistent compareFn l = true ->
  forall a b, In a l -> In b l ->
    Js.le_of compareFn a b = true \/ Js.le_of compareFn b a = true.
Proof.
  unfold Js.consistent. intros H a b Ha Hb.
  apply andb_prop in H as [H _]. apply andb_prop in H as [_ H].
  rewrite forallb_forall in H. specialize (H a Ha).
  rewrite forallb_forall in H. specialize (H b Hb).
  unfold Js.le_of. destruct (compareFn a b), (compareFn b a);
    simpl in H; try discriminate H; auto.
Qed.

Lemma consistent_permutation {A} (compareFn : A -> A -> comparison)
    (l l' : list A) :
  Permutation l l' ->
  Js.consistent compareFn l = true -> Js.consistent compareFn l' = true.
Proof.
  intros P. unfold Js.consistent. intros H.
  apply andb_prop in H as [H H3]. apply andb_prop in H as [H1 H2].
  assert (I : forall x, In x l' -> In x l).
  { intros x. apply Permutation_in. symmetry. exact P. }
  rewrite !andb_true_iff. repeat split.
  - rewrite forallb_forall in *. intros a Ha. apply H1, I, Ha.
  - rewrite forallb_forall in *. intros a Ha.
    specialize (H2 a (I a Ha)). rewrite forallb_forall in *.
    intros b Hb. apply H2, I, Hb.
  - rewrite forallb_forall in *. intros a Ha.
    specialize (H3 a (I a Ha)). rewrite forallb_forall in *.
    intros b Hb. specialize (H3 b (I b Hb)). rewrite forallb_forall in *.
    intros c Hc. apply H3, I, Hc.
Qed.

Lemma insert_sorted_Sorted_among {A} (le : A -> A -> bool) (x : A) (l : list A) :
  (forall y, In y l -> le x y = true \/ le y x = true) ->
  Sorted (fun u v => le u v = true) l ->
  Sorted (fun u v => le u v = true) (Js.insert_sorted le x l).
Proof.
  intros Ht. induction 1 as [|y l Hs IH Hd]; simpl.
  - constructor; constructor.
  - destruct (le x y) eqn:E.
    + constructor; [constructor; assumption|]. constructor. exact E.
    + constructor; [apply IH; intros z Hz; apply Ht; right; exact Hz|].
      assert (Hyx : le y x = true).
      { destruct (Ht y (or_introl eq_refl)) as [H|H]; [congruence | exact H]. }
      clear IH. destruct l as [|z l]; simpl.
      * constructor. exact Hyx.
      * destruct (le x z); constructor; [exact Hyx|].
        inversion Hd; assumption.
Qed.

Lemma sort_Sorted_among {A} (le : A -> A -> bool) (l : list A) :
  (forall a b, In a l -> In b l -> le a b = true \/ le b a = true) ->
  Sorted (fun u v => le u v = true) (Js.sort le l).
Proof.
  unfold Js.sort. induction l as [|x l IH]; intros Ht; simpl; [constructor|].
  apply insert_sorted_Sorted_among.
  - intros y Hy. apply Ht; [left; reflexivity | right].
    apply (Permutation_in y (Js.sort_permutes le l)). exact Hy.
  - apply IH. intros a b Ha Hb. apply Ht; right; assumption.
Qed.

Lemma le_string_of_total (a b : value) :
  le_string_of a b = true \/ le_string_of b a = true.
Proof. unfold le_string_of, Str.leb. apply String.leb_total. Qed.

(** The facet lists that [importSession] computes are those of the
    rooms. *)
Lemma facets_of_rooms (env : Env) (st : State) :
  availableBuildings st = facetBuildings (processedData st) ->
  availableFloors st = facetFloors env (processedData st) ->
  availableTags st = facetTags (processedData st) ->
  facetsOfRooms st.
Proof.
  intros Hb Hf Ht. unfold facetsOfRooms. rewrite Hb, Hf, Ht.
  unfold facetBuildings, facetFloors, facetTags.
  split; [|split; [|split; [|split; [|split; [|split]]]]].
  - intros b. rewrite In_facet_values, in_map_iff. split.
    + intros [room [E H]]. exists room. auto.
    + intros [room [H E]]. exists room. auto.
  - intros f. rewrite In_facet_strings, in_map_iff. split.
    + intros [room [E H]]. exists room. auto.
    + intros [room [H E]]. exists room. auto.
  - intros t. rewrite In_facet_values, in_flat_map. reflexivity.
  - apply (Permutation_NoDup (l := Js.uniq String.eqb
                                     (List.map roomFloor (processedData st)))).
    + symmetry. apply sortBy_permutes.
    + apply (uniq_NoDup String.eqb String.eqb_eq).
  - intros Hc.
    assert (Hu : Js.consistent compare_floor
                   (Js.uniq String.eqb (List.map roomFloor (processedData st)))
                 = true).
    { exact (consistent_permutation compare_floor _ _
               (sortBy_permutes env compare_floor _) Hc). }
    rewrite (sortBy_consistent env _ _ Hu).
    apply sort_Sorted_among. apply consistent_elements. exact Hu.
  - apply (sort_Sorted le_string_of le_string_of_total).
  - apply (sort_Sorted le_string_of le_string_of_total).
Qed.

(** C6 (on JSON data). For a store with a room or a custom tag, whose
    rooms and custom tags hold JSON data (no label is a function that the
    room got from [Object.prototype]) written as the model writes values,
    [exportSession] produces a file; decoding the file gives back the
    JSON text byte for byte; and [importSession] on the file restores a
    store with the same rooms, the same custom tags and the same staff
    tags, whose facet lists are those of the restored rooms: their
    buildings, floors and tags and nothing else, no floor twice, the
    buildings and the tags in the order of their texts and the floors in
    the order of the comparator where it orders them. *)
Theorem session_round_trip (env : Env) (now fileName : string) (st st0 : State) :
  wf_session st = true ->
  json_session st = true ->
  processedData st <> [] \/ customTags st <> [] ->
  exists compressedData st',
    exportSession now st = Some compressedData
    /\ decodeSession compressedData
       = Some (Json.stringify (sessionDocument now st))
    /\ importSession env fileName compressedData st0 = Restored st'
    /\ processedData st' = processedData st
    /\ customTags st' = customTags st
    /\ staffTags st' = staffTags st
    /\ facetsOfRooms st'.
Proof.
  intros Hwf Hjs Hne.
  destruct (decodeSession_encodeSession (Json.stringify (sessionDocument now st)))
    as [compressedData [He Hd]].
  pose proof (numeric_sessionDocument now st Hwf) as Hnum.
  apply wf_session_parts in Hwf
    as [Hr [Hc [Ht [Hs [Hbc [Hb [Hf [Hv Hp]]]]]]]].
  unfold json_session in Hjs. apply andb_prop in Hjs as [Jr Jc].
  assert (N1 : normalize (Shape.of_rooms (processedData st))
               = Shape.of_rooms (processedData st)).
  { apply normalize_wf; [rewrite wf_of_rooms | rewrite json_of_rooms]; assumption. }
  assert (N2 : normalize (Shape.of_dict Shape.of_rooms (customTags st))
               = Shape.of_dict Shape.of_rooms (customTags st)).
  { apply normalize_wf.
    - rewrite wf_of_dict, Hc. cbn [andb].
      rewrite forallb_forall in *. intros kv Hin.
      rewrite wf_of_rooms. apply Ht. exact Hin.
    - rewrite json_of_dict. rewrite forallb_forall in *. intros kv Hin.
      rewrite json_of_rooms. apply Jc. exact Hin. }
  assert (N3 : normalize (Shape.of_dict Shape.of_strings (staffTags st))
               = Shape.of_dict Shape.of_strings (staffTags st)).
  { apply normalize_wf.
    - rewrite wf_of_dict, Hs. cbn [andb].
      apply forallb_forall. intros [k l] _. apply wf_of_strings.
    - rewrite json_of_dict. apply forallb_forall. intros [k l] _.
      apply json_of_strings. }
  assert (Hq : Shape.as_string
                 (Js.or_else (Some (VStr (searchQuery st))) (VStr EmptyString))
               = Some (searchQuery st)).
  { destruct (searchQuery st); reflexivity. }
  destruct (importSession_document env fileName compressedData
              (Json.stringify (sessionDocument now st)) _ _ st0
              (processedData st) (customTags st) (staffTags st)
              (Js.literal
                 (List.map (fun kv : string * value => (fst kv, normalize (snd kv)))
                    (written (buildingColors st))))
              {| building := option_map normalize (building (activeFilters st));
                 floor := option_map normalize (floor (activeFilters st));
                 tags := tags (activeFilters st) |}
              (searchQuery st)
              Hd
              (eq_trans (parse_stringify _ Hnum)
                 (f_equal Some (normalize_sessionDocument now st)))
              eq_refl eq_refl)
    as [st' [Hi [[Hr' [Hc' [Hs' [Hb' [Hf' Ht']]]]] _]]].
  - change (Shape.as_array Shape.as_obj
              (Js.or_else
                 (Some (normalize (Shape.of_rooms (processedData st)))) (VArr []))
            = Some (processedData st)).
    rewrite N1. unfold Shape.of_rooms. simpl. apply mapM_as_obj.
  - change (Shape.as_dict (Shape.as_array Shape.as_obj)
              (Js.or_else
                 (Some (normalize (Shape.of_dict Shape.of_rooms (customTags st))))
                 (VObj []))
            = Some (customTags st)).
    rewrite N2. unfold Shape.of_dict at 1. cbn [Js.or_else Js.truthy].
    apply (as_dict_of_dict (Shape.as_array Shape.as_obj) Shape.of_rooms).
    intros l. apply mapM_as_obj.
  - change (Shape.as_dict (Shape.as_array Shape.as_string)
              (Js.or_else
                 (Some (normalize (Shape.of_dict Shape.of_strings (staffTags st))))
                 (VObj []))
            = Some (staffTags st)).
    rewrite N3. unfold Shape.of_dict at 1. cbn [Js.or_else Js.truthy].
    apply (as_dict_of_dict (Shape.as_array Shape.as_string) Shape.of_strings).
    intros l. apply mapM_as_string.
  - change (Shape.as_obj
              (Js.or_else (Some (normalize (VObj (buildingColors st)))) (VObj []))
            = Some (Js.literal
                      (List.map
                         (fun kv : string * value => (fst kv, normalize (snd kv)))
                         (written (buildingColors st))))).
    rewrite normalize_members. reflexivity.
  - change (Shape.as_filters
              (Js.or_else (Some (normalize (Shape.of_filters (activeFilters st))))
                 defaultFilters)
            = Some {| building := option_map normalize (building (activeFilters st));
                      floor := option_map normalize (floor (activeFilters st));
                      tags := tags (activeFilters st) |}).
    apply as_filters_of_filters_explicit; assumption.
  - exact Hq.
  - exists compressedData, st'.
    split.
    { unfold exportSession.
      destruct (processedData st) as [|r rs] eqn:Er;
        [destruct (customTags st) as [|t ts] eqn:Et|];
        [destruct Hne as [H|H]; contradiction | exact He | exact He]. }
    split; [exact Hd|]. split; [exact Hi|].
    repeat (split; [assumption|]).
    apply (facets_of_rooms env); rewrite Hr'; assumption.
Qed.

Lemma session_round_trip_witness :
  wf_session Example.taggedState = true
  /\ json_session Example.taggedState = true
  /\ exists compressedData st',
       exportSession "2025-01-01T00:00:00.000Z" Example.taggedState
       = Some compressedData
       /\ importSession Example.env "session.umsess" compressedData initialState
          = Restored st'
       /\ processedData st' = processedData Example.taggedState
       /\ customTags st' = customTags Example.taggedState
       /\ staffTags st' = staffTags Example.taggedState
       /\ facetsOfRooms st'.
Proof.
  split; [vm_compute; reflexivity|]. split; [vm_compute; reflexivity|].
  destruct (session_round_trip Example.env "2025-01-01T00:00:00.000Z"
              "session.umsess" Example.taggedState initialState)
    as [c [st' [H1 [_ [H3 [H4 [H5 [H6 H7]]]]]]]].
  - vm_compute. reflexivity.
  - vm_compute. reflexivity.
  - right. intros H. vm_compute in H. discriminate H.
  - exists c, st'.
    exact (conj H1 (conj H3 (conj H4 (conj H5 (conj H6 H7))))).
Defined.

(** C6, the claim as it stands: a room whose type code is the name of a
    property of [Object.prototype] has a function for its label
    [typeFull]; [JSON.stringify] leaves the property out, and the room
    that [importSession] restores has no [typeFull]. *)
Lemma session_round_trip_counterexample :
  Example.inheritedState
  = processRoomData Example.env initialState [Example.rowConstructor]
  /\ wf_session Example.inheritedState = true
  /\ List.map (fun room => Js.get room "typeFull")
       (processedData Example.inheritedState)
     = [Some (VNative "constructor")]
  /\ exists compressedData st',
       exportSession "2025-01-01T00:00:00.000Z" Example.inheritedState
       = Some compressedData
       /\ importSession Example.env "session.umsess" compressedData initialState
          = Restored st'
       /\ List.map (fun room => Js.get room "typeFull") (processedData st')
          = [None]
       /\ processedData st' <> processedData Example.inheritedState.
Proof.
  split; [reflexivity|]. split; [vm_compute; reflexivity|].
  split; [vm_compute; reflexivity|].
  destruct (exportSession "2025-01-01T00:00:00.000Z" Example.inheritedState)
    as [c|] eqn:Ec; [|vm_compute in Ec; discriminate Ec].
  destruct (importSession Example.env "session.umsess" c initialState)
    as [st'| |] eqn:Ei;
    [| vm_compute in Ec; injection Ec as <-; vm_compute in Ei; discriminate Ei ..].
  exists c, st'. split; [reflexivity|]. split; [exact Ei|].
  vm_compute in Ec. injection Ec as <-.
  vm_compute in Ei. injection Ei as <-.
  split; [vm_compute; reflexivity|].
  intros H. vm_compute in H. discriminate H.
Qed.

(** ** The autocomplete vocabulary *)

Lemma sort_length {A} (le : A -> A -> bool) (l : list A) :
  List.length (Js.sort le l) = List.length l.
Proof.
  assert (H : forall x acc,
             List.length (Js.insert_sorted le x acc) = S (List.length acc)).
  { intros x acc. induction acc as [|y r IH]; simpl; [reflexivity|].
    destruct (le x y); simpl; [reflexivity | rewrite IH; reflexivity]. }
  unfold Js.sort. induction l as [|x l IH]; simpl; [reflexivity|].
  rewrite H, IH. reflexivity.
Qed.

Lemma bit_inj (b b' : bool) (p p' : positive) :
  bit b p = bit b' p' -> b = b' /\ p = p'.
Proof.
  destruct b, b'; simpl; intros H; try discriminate;
    injection H as ->; split; reflexivity.
Qed.

Lemma key_inj (x : string) : forall y, key x = key y -> x = y.
Proof.
  induction x as [|[a0 a1 a2 a3 a4 a5 a6 a7] x IH];
    intros [|[b0 b1 b2 b3 b4 b5 b6 b7] y] H.
  - reflexivity.
  - simpl in H. destruct b0; discriminate H.
  - simpl in H. destruct a0; discriminate H.
  - cbn [key] in H.
    repeat match type of H with
           | bit _ _ = bit _ _ => apply bit_inj in H as [-> H]
           end.
    rewrite (IH y H). reflexivity.
Qed.

Lemma set_eqb_key (x y : string) :
  StringSetFacts.eqb (key x) (key y) = String.eqb x y.
Proof.
  unfold StringSetFacts.eqb.
  destruct (PositiveSet.E.eq_dec (key x) (key y)) as [E|E];
    destruct (String.eqb_spec x y) as [F|F]; try reflexivity.
  - apply key_inj in E. contradiction.
  - subst y. exfalso. apply E. reflexivity.
Qed.

Lemma existsb_snoc (x y : string) (s : list string) :
  List.existsb (String.eqb y) (s ++ [x])
  = List.existsb (String.eqb y) s || String.eqb y x.
Proof. rewrite existsb_app. simpl. rewrite orb_false_r. reflexivity. Qed.

Lemma fast_add_stands (x : string) (f : Suggestions) (s : list string) :
  stands_for f s -> stands_for (fast_add x f) (set_add x s).
Proof.
  intros [Hs [Hn Hm]]. unfold fast_add, set_add. rewrite Hm.
  destruct (List.existsb (String.eqb x) s); [repeat split; assumption|].
  repeat split; simpl.
  - rewrite Hs. reflexivity.
  - rewrite Hn, length_app. simpl. lia.
  - intros y. rewrite StringSetFacts.add_b, set_eqb_key, Hm, existsb_snoc.
    rewrite orb_comm, (String.eqb_sym x y). reflexivity.
Qed.

Lemma size_test (f : Suggestions) (s : list string) (limit : nat) :
  stands_for f s ->
  (size f <? N.of_nat limit)%N = (List.length s <? limit)
  /\ (N.of_nat limit <=? size f)%N = (limit <=? List.length s).
Proof.
  intros [_ [Hn _]]. rewrite Hn. split.
  - destruct (Nat.ltb_spec (List.length s) limit);
      [apply N.ltb_lt | apply N.ltb_ge]; lia.
  - destruct (Nat.leb_spec limit (List.length s));
      [apply N.leb_le | apply N.leb_gt]; lia.
Qed.

Lemma fast_suggest_tag_stands (limit : nat) (tag : string)
    (f : Suggestions) (s : list string) :
  stands_for f s ->
  stands_for (fast_suggest_tag (N.of_nat limit) f tag) (suggest_tag limit s tag).
Proof.
  intros H. unfold fast_suggest_tag, suggest_tag.
  destruct (size_test f s limit H) as [-> _].
  destruct (List.length s <? limit); [|exact H].
  destruct (Str.includes tag ":"); [|apply fast_add_stands; exact H].
  destruct (split_value tag); repeat apply fast_add_stands; exact H.
Qed.

Lemma fold_suggest_tag_stands (limit : nat) (tags : list string) :
  forall f s,
    stands_for f s ->
    stands_for (fold_left (fast_suggest_tag (N.of_nat limit)) tags f)
      (fold_left (suggest_tag limit) tags s).
Proof.
  induction tags as [|tag tags IH]; intros f s H; simpl; [exact H|].
  apply IH. apply fast_suggest_tag_stands. exact H.
Qed.

Lemma fast_suggest_room_stands (st : State) (limit : nat) (room : obj)
    (f : Suggestions) (s : list string) :
  stands_for f s ->
  stands_for_result (fast_suggest_room st (N.of_nat limit) f room)
    (suggest_room st limit s room).
Proof.
  intros H. unfold fast_suggest_room, suggest_room.
  destruct (size_test f s limit H) as [_ ->].
  destruct (limit <=? List.length s); [exact H|].
  destruct (createUnifiedTags st room) as [tags|]; [|exact I].
  pose proof (fold_suggest_tag_stands limit tags f s H) as H'.
  destruct (size_test _ _ limit H') as [-> _].
  destruct (Js.truthy (Js.get room "rmnbr") && _); simpl;
    [apply fast_add_stands|]; exact H'.
Qed.

(** The run over a trie and the loop of the code go the same way. *)
Lemma suggest_rooms_fast (st : State) (limit : nat) (rooms : list obj) :
  forall f s,
    stands_for f s ->
    stands_for_result (fast_suggest_rooms st (N.of_nat limit) f rooms)
      (suggest_rooms st limit s rooms).
Proof.
  induction rooms as [|room rooms IH]; intros f s H; simpl; [exact H|].
  pose proof (fast_suggest_room_stands st limit room f s H) as Hr.
  destruct (fast_suggest_room st (N.of_nat limit) f room) as [f'|],
    (suggest_room st limit s room) as [s'|]; try contradiction; [|exact I].
  apply IH. exact Hr.
Qed.

Lemma buildUnifiedAutocomplete_size (st : State) :
  option_map (@List.length string) (buildUnifiedAutocomplete st)
  = option_map (fun f => N.to_nat (size f))
      (fast_suggest_rooms st (N.of_nat limit) noSuggestion (processedData st)).
Proof.
  unfold buildUnifiedAutocomplete, buildUnifiedAutocompleteUpTo.
  assert (H0 : stands_for noSuggestion []).
  { split; [reflexivity|]. split; [reflexivity|].
    intros x. apply StringSetFacts.empty_b. }
  pose proof (suggest_rooms_fast st limit (processedData st) _ _ H0) as H.
  destruct (fast_suggest_rooms st (N.of_nat limit) noSuggestion (processedData st))
    as [f|],
    (suggest_rooms st limit [] (processedData st)) as [s|];
    try contradiction; [|reflexivity].
  simpl. rewrite sort_length. destruct H as [_ [Hn _]]. rewrite Hn. f_equal. lia.
Qed.

(** C4 (what the code does). The 2496 rooms of floor 1 give 4999
    suggestions: nine for the first room, two for each room after it.
    With the room of floor 2 merged after them, the tag "floor:2" is met
    with 4999 suggestions present; the tag and its bare value "2" are both
    added under one test of the cap, and the list returned has 5001
    entries. *)
Theorem buildUnifiedAutocomplete_exceeds_cap :
  List.length Example.towerRows = 2497
  /\ option_map (@List.length string)
       (buildUnifiedAutocomplete
          (mergeRoomData Example.env initialState (firstn 2496 Example.towerRows)))
     = Some 4999
  /\ option_map (@List.length string) (buildUnifiedAutocomplete Example.towerState)
     = Some 5001.
Proof.
  split; [vm_compute; reflexivity|].
  rewrite !buildUnifiedAutocomplete_size. split; vm_compute; reflexivity.
Qed.

(** * Further properties of the data layer *)

(** ** Search: what a query returns *)

Lemma filter_all {A} (l : list A) : filter (fun _ => true) l = l.
Proof. induction l as [|x l IH]; simpl; [reflexivity | rewrite IH; reflexivity]. Qed.

Lemma filterM_filter {A} (p : A -> option bool) (l r : list A) :
  filterM p l = Some r ->
  r = filter (fun x => match p x with Some b => b | None => false end) l.
Proof.
  revert r. induction l as [|y l IH]; simpl; intros r H.
  - injection H as <-. reflexivity.
  - destruct (p y) as [b|]; [|discriminate].
    destruct (filterM p l) as [ys|]; [|discriminate].
    injection H as <-. rewrite (IH ys eq_refl). destruct b; reflexivity.
Qed.

Lemma filterM_ext {A} (p q : A -> option bool) (l : list A) :
  (forall x, p x = q x) -> filterM p l = filterM q l.
Proof.
  intros H. induction l as [|y l IH]; simpl; [reflexivity|].
  rewrite H, IH. reflexivity.
Qed.

(** X1. The list returned for a query is the dataset filtered: the rooms
    kept stand in the order of the dataset, no room is added, none is
    repeated more often than the dataset has it. *)
Theorem searchRoomsByTags_filters_dataset
    (st : State) (q : string) (result : list obj) :
  searchRoomsByTags st q = Some result ->
  exists keep : obj -> bool, result = filter keep (processedData st).
Proof.
  unfold searchRoomsByTags. intros H.
  destruct (String.eqb q EmptyString || (List.length (processedData st) =? 0)).
  - injection H as <-. exists (fun _ => true). symmetry. apply filter_all.
  - destruct (List.length (searchTermsOf q) =? 0).
    + injection H as <-. exists (fun _ => true). symmetry. apply filter_all.
    + eexists. apply filterM_filter. exact H.
Qed.

Lemma searchRoomsByTags_filters_dataset_witness :
  exists keep : obj -> bool,
    firstn 1 (processedData Example.state)
    = filter keep (processedData Example.state).
Proof.
  apply (searchRoomsByTags_filters_dataset Example.state "radiology").
  vm_compute. reflexivity.
Defined.

Lemma toLowerCase_empty (q1 q2 : string) :
  Str.toLowerCase q1 = Str.toLowerCase q2 ->
  String.eqb q1 EmptyString = String.eqb q2 EmptyString.
Proof. destruct q1, q2; simpl; intros H; try discriminate H; reflexivity. Qed.

(** X2. The search does not look at the case of the query: two queries
    with the same lower-case form give the same answer, the same
    exception included. *)
Theorem searchRoomsByTags_case_insensitive (st : State) (q1 q2 : string) :
  Str.toLowerCase q1 = Str.toLowerCase q2 ->
  searchRoomsByTags st q1 = searchRoomsByTags st q2.
Proof.
  intros H. unfold searchRoomsByTags, searchTermsOf.
  rewrite (toLowerCase_empty q1 q2 H), H. reflexivity.
Qed.

Lemma searchRoomsByTags_case_insensitive_witness :
  searchRoomsByTags Example.state "RadioLOGY"
  = searchRoomsByTags Example.state "radiology".
Proof. apply searchRoomsByTags_case_insensitive. reflexivity. Defined.

Lemma tagMatches_same (roomTags : list string) (t : string) :
  tagMatches roomTags t t = true.
Proof. unfold tagMatches. rewrite String.eqb_refl. reflexivity. Qed.

Lemma termMatches_member (roomTags : list string) (t : string) :
  In t roomTags -> termMatches roomTags t = true.
Proof.
  intros H. unfold termMatches. apply existsb_exists.
  exists t. split; [exact H | apply tagMatches_same].
Qed.

Lemma searchRoomsByTags_term_In (st : State) (t : string) (result : list obj) :
  is_term t = true ->
  searchRoomsByTags st t = Some result ->
  forall room roomTags,
    In room (processedData st) ->
    createUnifiedTags st room = Some roomTags ->
    In (Str.toLowerCase t) roomTags ->
    In room result.
Proof.
  intros Ht H room roomTags Hin Htags Hmem.
  rewrite searchRoomsByTags_filter in H.
  - apply (filterM_In _ _ _ H). split; [exact Hin|].
    rewrite (searchTermsOf_term t Ht). unfold roomMatches. rewrite Htags.
    simpl. rewrite (termMatches_member _ _ Hmem). reflexivity.
  - apply term_not_empty. exact Ht.
  - intros E. rewrite E in Hin. destruct Hin.
  - rewrite (searchTermsOf_term t Ht). discriminate.
Qed.

(** X3. A synthesized tag of a room, typed as a query, finds the room:
    when the tag is one term (no white space, no comma) and is written in
    lower case, every room that carries it is in the result. *)
Theorem searchRoomsByTags_finds_tagged_room
    (st : State) (room : obj) (roomTags : list string) (t : string)
    (result : list obj) :
  In room (processedData st) ->
  createUnifiedTags st room = Some roomTags ->
  In t roomTags ->
  is_term t = true ->
  Str.toLowerCase t = t ->
  searchRoomsByTags st t = Some result ->
  In room result.
Proof.
  intros Hin Htags Hmem Ht Hl H.
  apply (searchRoomsByTags_term_In st t result Ht H room roomTags Hin Htags).
  rewrite Hl. exact Hmem.
Qed.

Lemma searchRoomsByTags_finds_tagged_room_witness :
  In (hd [] (processedData Example.state))
    (firstn 1 (processedData Example.state)).
Proof.
  apply (searchRoomsByTags_finds_tagged_room Example.state
           (hd [] (processedData Example.state)) tags4101 "department:radiology"
           (firstn 1 (processedData Example.state))).
  - vm_compute. left. reflexivity.
  - vm_compute. reflexivity.
  - vm_compute. tauto.
  - reflexivity.
  - reflexivity.
  - vm_compute. reflexivity.
Defined.

(** ** Search: a room and its number *)

Lemma createUnifiedTags_room_number (st : State) (room : obj)
    (roomTags : list string) :
  createUnifiedTags st room = Some roomTags ->
  Js.truthy (Js.get room "rmnbr") = true ->
  In (Str.toLowerCase (Js.toStr (Js.get room "rmnbr"))) roomTags
  /\ In ("room:" ++ Str.toLowerCase (Js.toStr (Js.get room "rmnbr")))%string
       roomTags.
Proof.
  intros H Hn. unfold createUnifiedTags in H. cbv zeta in H.
  rewrite Hn in H.
  repeat match type of H with
         | (match ?e with Some _ => _ | None => None end) = Some _ =>
             destruct e; [|discriminate H]
         end.
  injection H as <-.
  split; apply (uniq_In String.eqb String.eqb_eq);
    rewrite !in_app_iff; do 8 right; simpl; tauto.
Qed.

(** X4. Typing the number of a room finds the room: when the number is
    one term (no white space, no comma), every room of the dataset that
    has this number is in the result. *)
Theorem searchRoomsByTags_finds_room_number
    (st : State) (room : obj) (result : list obj) :
  In room (processedData st) ->
  Js.truthy (Js.get room "rmnbr") = true ->
  is_term (Js.toStr (Js.get room "rmnbr")) = true ->
  searchRoomsByTags st (Js.toStr (Js.get room "rmnbr")) = Some result ->
  In room result.
Proof.
  intros Hin Hn Ht H.
  destruct (createUnifiedTags st room) as [roomTags|] eqn:Htags.
  - apply (searchRoomsByTags_term_In st _ result Ht H room roomTags Hin Htags).
    apply (createUnifiedTags_room_number st room roomTags Htags Hn).
  - rewrite (searchRoomsByTags_None_intro st _ room) in H.
    + discriminate H.
    + apply term_not_empty. exact Ht.
    + rewrite (searchTermsOf_term _ Ht). discriminate.
    + exact Hin.
    + exact Htags.
Qed.

Lemma searchRoomsByTags_finds_room_number_witness :
  In (hd [] (processedData Example.state))
    (firstn 1 (processedData Example.state)).
Proof.
  apply (searchRoomsByTags_finds_room_number Example.state).
  - vm_compute. left. reflexivity.
  - reflexivity.
  - reflexivity.
  - vm_compute. reflexivity.
Defined.

(** X5. The order of two terms in a query does not matter: the two
    queries give the same list, and throw together. *)
Theorem searchRoomsByTags_term_order (st : State) (t1 t2 : string) :
  is_term t1 = true -> is_term t2 = true ->
  searchRoomsByTags st (t1 ++ " " ++ t2) = searchRoomsByTags st (t2 ++ " " ++ t1).
Proof.
  intros H1 H2.
  assert (T : forall a b, is_term a = true -> is_term b = true ->
                searchTermsOf (a ++ " " ++ b)
                = [Str.toLowerCase a; Str.toLowerCase b]).
  { intros a b Ha Hb.
    change (a ++ " " ++ b)%string with (a ++ String " " b)%string.
    rewrite searchTermsOf_app by reflexivity.
    rewrite (searchTermsOf_term a Ha), (searchTermsOf_term b Hb). reflexivity. }
  unfold searchRoomsByTags.
  rewrite (T t1 t2 H1 H2), (T t2 t1 H2 H1).
  assert (E : forall a b,
            String.eqb (a ++ " " ++ b) EmptyString = false).
  { intros a b. destruct a; reflexivity. }
  rewrite !E. simpl orb.
  destruct (List.length (processedData st) =? 0); [reflexivity|].
  cbn [List.length Nat.eqb]. apply filterM_ext. intros room.
  unfold roomMatches. destruct (createUnifiedTags st room); [|reflexivity].
  simpl. rewrite !andb_true_r, andb_comm. reflexivity.
Qed.

Lemma searchRoomsByTags_term_order_witness :
  searchRoomsByTags Example.state ("4" ++ " " ++ "radiology")
  = searchRoomsByTags Example.state ("radiology" ++ " " ++ "4").
Proof. apply searchRoomsByTags_term_order; reflexivity. Defined.

(** ** The structural filters *)

(** X6. Without active tag filters the result of [data_getFilteredData]
    is the result of the search on the free-text query, narrowed by the
    building filter and by the floor filter when they are set: a room is
    returned exactly when the search returns it, its building is the one
    selected and its floor, as a string, is the one selected.  The list is
    stored as the current filtered view. *)
Theorem data_getFilteredData_structural_filters
    (st st' : State) (result : list obj) :
  tags (activeFilters st) = [] ->
  data_getFilteredData st = Some (result, st') ->
  exists found,
    searchRoomsByTags st (searchQuery st) = Some found
    /\ currentFilteredData st' = result
    /\ processedData st' = processedData st
    /\ forall room,
         In room result
         <-> In room found
             /\ (Js.truthy (building (activeFilters st)) = true ->
                 Js.strict_eq (Js.get room "building")
                   (building (activeFilters st)) = true)
             /\ (Js.truthy (floor (activeFilters st)) = true ->
                 Js.toStr (Js.get room "floor")
                 = Js.toStr (floor (activeFilters st))).
Proof.
  intros Ht H. unfold data_getFilteredData, filteredData in H.
  rewrite Ht in H. cbn [List.length Nat.ltb Nat.leb] in H.
  destruct (searchRoomsByTags st (searchQuery st)) as [found|]; [|discriminate].
  exists found. injection H as <- <-.
  split; [reflexivity|]. split; [reflexivity|]. split; [reflexivity|].
  intros room.
  destruct (Js.truthy (building (activeFilters st)));
    destruct (Js.truthy (floor (activeFilters st)));
    rewrite ?filter_In, ?String.eqb_eq; intuition congruence.
Qed.

Lemma data_getFilteredData_structural_filters_witness :
  exists result st' found,
    data_getFilteredData narrowedState = Some (result, st')
    /\ searchRoomsByTags narrowedState "radiology" = Some found
    /\ List.map (fun room => Js.get room "rmnbr") found
       = [Some (VStr "4101"); Some (VStr "2001")]
    /\ List.map (fun room => Js.get room "rmnbr") result = [Some (VStr "4101")]
    /\ currentFilteredData st' = result
    /\ forall room,
         In room result
         <-> In room found
             /\ (Js.truthy (Some (VStr "Main")) = true ->
                 Js.strict_eq (Js.get room "building") (Some (VStr "Main")) = true)
             /\ (Js.truthy (Some (VStr "4")) = true ->
                 Js.toStr (Js.get room "floor") = "4").
Proof.
  destruct (data_getFilteredData narrowedState) as [[result st']|] eqn:E;
    [|vm_compute in E; discriminate E].
  destruct (data_getFilteredData_structural_filters narrowedState st' result
              eq_refl E) as [found [H1 [H2 [_ H3]]]].
  exists result, st', found.
  split; [reflexivity|]. split; [exact H1|].
  split; [vm_compute in H1; injection H1 as <-; reflexivity|].
  split; [vm_compute in E; injection E as <- _; reflexivity|].
  split; [exact H2 | exact H3].
Defined.

(** ** The autocomplete vocabulary: order, size and content *)

Lemma set_add_In (x y : string) (s : list string) :
  In y (set_add x s) <-> y = x \/ In y s.
Proof.
  unfold set_add. destruct (List.existsb (String.eqb x) s) eqn:E.
  - apply (existsb_eqb_In String.eqb String.eqb_eq) in E.
    split; [auto|]. intros [->|H]; assumption.
  - rewrite in_app_iff. simpl. split.
    + intros [H|[<-|[]]]; auto.
    + intros [->|H]; auto.
Qed.

Lemma set_add_NoDup (x : string) (s : list string) :
  NoDup s -> NoDup (set_add x s).
Proof.
  intros H. unfold set_add. destruct (List.existsb (String.eqb x) s) eqn:E.
  - exact H.
  - apply NoDup_app; [exact H | constructor; [intros [] | constructor] |].
    intros y Hy [<-|[]].
    apply (existsb_eqb_In String.eqb String.eqb_eq) in Hy. congruence.
Qed.

Lemma set_add_length (x : string) (s : list string) :
  List.length s <= List.length (set_add x s) <= S (List.length s).
Proof.
  unfold set_add. destruct (List.existsb (String.eqb x) s).
  - lia.
  - rewrite length_app. simpl. lia.
Qed.

Section Vocabulary.

Variable st : State.
Variable cap : nat.

Lemma suggest_tag_kept (s : list string) (tag : string) :
  withinCap cap s -> withinCap cap (suggest_tag cap s tag).
Proof.
  intros [Hn Hl]. unfold suggest_tag.
  destruct (Nat.ltb_spec (List.length s) cap) as [Hlt|Hge]; [|split; assumption].
  pose proof (set_add_length tag s) as L1.
  destruct (Str.includes tag ":").
  - destruct (split_value tag) as [value|].
    + pose proof (set_add_length value (set_add tag s)) as L2.
      split; [repeat apply set_add_NoDup; exact Hn | lia].
    + split; [apply set_add_NoDup; exact Hn | lia].
  - split; [apply set_add_NoDup; exact Hn | lia].
Qed.

Lemma fold_suggest_tag_kept (tags : list string) :
  forall s, withinCap cap s -> withinCap cap (fold_left (suggest_tag cap) tags s).
Proof.
  induction tags as [|tag tags IH]; intros s H; simpl; [exact H|].
  apply IH. apply suggest_tag_kept. exact H.
Qed.

Lemma suggest_room_kept (s s' : list string) (room : obj) :
  withinCap cap s -> suggest_room st cap s room = Some s' -> withinCap cap s'.
Proof.
  intros H E. unfold suggest_room in E.
  destruct (cap <=? List.length s); [injection E as <-; exact H|].
  destruct (createUnifiedTags st room) as [tags|]; [|discriminate].
  pose proof (fold_suggest_tag_kept tags s H) as [Hn Hl].
  destruct (Js.truthy (Js.get room "rmnbr")); simpl in E.
  - destruct (Nat.ltb_spec (List.length (fold_left (suggest_tag cap) tags s)) cap)
      as [Hlt|Hge]; injection E as <-.
    + pose proof (set_add_length (Js.toStr (Js.get room "rmnbr"))
                    (fold_left (suggest_tag cap) tags s)).
      split; [apply set_add_NoDup; exact Hn | lia].
    + split; assumption.
  - injection E as <-. split; assumption.
Qed.

Lemma suggest_rooms_kept (rooms : list obj) :
  forall s s', withinCap cap s -> suggest_rooms st cap s rooms = Some s' -> withinCap cap s'.
Proof.
  induction rooms as [|room rooms IH]; intros s s' H E; simpl in E.
  - injection E as <-. exact H.
  - destruct (suggest_room st cap s room) as [s1|] eqn:E1; [|discriminate].
    apply (IH s1 s'); [|exact E]. apply (suggest_room_kept s s1 room H E1).
Qed.

End Vocabulary.

(** X7. The vocabulary returned by [buildUnifiedAutocomplete] is sorted
    by code units and holds no string twice. *)
Theorem buildUnifiedAutocomplete_sorted_nodup (st : State) (items : list string) :
  buildUnifiedAutocomplete st = Some items ->
  Sorted code_unit_le items /\ NoDup items.
Proof.
  unfold buildUnifiedAutocomplete, buildUnifiedAutocompleteUpTo. intros H.
  destruct (suggest_rooms st limit [] (processedData st)) as [s|] eqn:E;
    [|discriminate].
  injection H as <-. split.
  - apply (sort_Sorted Str.leb). exact String.leb_total.
  - apply (Permutation_NoDup (l := s)).
    + symmetry. apply sort_perm.
    + apply (suggest_rooms_kept st limit (processedData st) [] s); [|exact E].
      split; [constructor | simpl; lia].
Qed.

Lemma buildUnifiedAutocomplete_sorted_nodup_witness :
  exists items,
    autocompleteItems Example.state = items
    /\ Sorted code_unit_le items /\ NoDup items.
Proof.
  eexists. split; [reflexivity|].
  apply (buildUnifiedAutocomplete_sorted_nodup Example.state).
  vm_compute. reflexivity.
Defined.

(** X8. The vocabulary never has more than one entry above the cap of
    5000: a qualified tag met just below the cap brings two entries, and
    nothing is added once the cap is reached. *)
Theorem buildUnifiedAutocomplete_size_bound (st : State) (items : list string) :
  buildUnifiedAutocomplete st = Some items ->
  List.length items <= S limit.
Proof.
  unfold buildUnifiedAutocomplete, buildUnifiedAutocompleteUpTo. intros H.
  destruct (suggest_rooms st limit [] (processedData st)) as [s|] eqn:E;
    [|discriminate].
  injection H as <-. rewrite sort_length.
  apply (suggest_rooms_kept st limit (processedData st) [] s); [|exact E].
  split; [constructor | simpl; lia].
Qed.

Lemma buildUnifiedAutocomplete_size_bound_witness :
  List.length (autocompleteItems Example.state) <= S limit.
Proof.
  apply (buildUnifiedAutocomplete_size_bound Example.state).
  vm_compute. reflexivity.
Defined.

Section VocabularyContent.

Variable st : State.
Variable cap : nat.

Lemma suggest_tag_sound (P : string -> Prop) (s : list string) (tag : string) :
  (forall x, In x s -> P x) ->
  P tag ->
  (forall value, Str.includes tag ":" = true ->
                 split_value tag = Some value -> P value) ->
  forall x, In x (suggest_tag cap s tag) -> P x.
Proof.
  intros Hs Ht Hv x. unfold suggest_tag.
  destruct (List.length s <? cap); [|apply Hs].
  destruct (Str.includes tag ":") eqn:Ei.
  - destruct (split_value tag) as [value|] eqn:Ev.
    + rewrite !set_add_In. intros [->|[->|H]]; auto.
    + rewrite set_add_In. intros [->|H]; auto.
  - rewrite set_add_In. intros [->|H]; auto.
Qed.

Lemma fold_suggest_tag_sound (P : string -> Prop) (tags : list string) :
  (forall tag, In tag tags -> P tag) ->
  (forall tag value, In tag tags -> Str.includes tag ":" = true ->
                     split_value tag = Some value -> P value) ->
  forall s, (forall x, In x s -> P x) ->
  forall x, In x (fold_left (suggest_tag cap) tags s) -> P x.
Proof.
  induction tags as [|tag tags IH]; intros Ht Hv s Hs; simpl; [exact Hs|].
  apply IH.
  - intros t Hin. apply Ht. right. exact Hin.
  - intros t v Hin. apply Hv. right. exact Hin.
  - apply suggest_tag_sound; [exact Hs | apply Ht; left; reflexivity|].
    intros v. apply Hv. left. reflexivity.
Qed.

Lemma suggest_room_sound (s s' : list string) (room : obj) :
  suggest_room st cap s room = Some s' ->
  forall x, In x s' -> In x s \/ suggestedBy st room x.
Proof.
  unfold suggest_room. intros E.
  destruct (cap <=? List.length s); [injection E as <-; auto|].
  destruct (createUnifiedTags st room) as [tags|] eqn:Et; [|discriminate].
  assert (H : forall x, In x (fold_left (suggest_tag cap) tags s) ->
                        In x s \/ suggestedBy st room x).
  { apply fold_suggest_tag_sound.
    - intros tag Hin. right. exists tags. auto.
    - intros tag value Hin Hi Hv. right. exists tags. split; [exact Et|].
      right. left. exists tag. auto.
    - auto. }
  destruct (Js.truthy (Js.get room "rmnbr")) eqn:En; simpl in E.
  - destruct (List.length (fold_left (suggest_tag cap) tags s) <? cap);
      injection E as <-; [|exact H].
    intros x. rewrite set_add_In. intros [->|Hx]; [|apply H; exact Hx].
    right. exists tags. auto.
  - injection E as <-. exact H.
Qed.

Lemma suggest_rooms_sound (rooms : list obj) :
  forall s s',
    suggest_rooms st cap s rooms = Some s' ->
    forall x, In x s' ->
      In x s \/ exists room, In room rooms /\ suggestedBy st room x.
Proof.
  induction rooms as [|room rooms IH]; intros s s' E x Hx; simpl in E.
  - injection E as <-. auto.
  - destruct (suggest_room st cap s room) as [s1|] eqn:E1; [|discriminate].
    destruct (IH s1 s' E x Hx) as [H|[r [Hr Hs]]].
    + destruct (suggest_room_sound s s1 room E1 x H) as [H'|H']; [auto|].
      right. exists room. split; [left; reflexivity | exact H'].
    + right. exists r. split; [right; exact Hr | exact Hs].
Qed.

(** The set of suggestions only grows. *)
Lemma suggest_tag_grows (s : list string) (tag : string) :
  List.length s <= List.length (suggest_tag cap s tag)
  /\ forall x, In x s -> In x (suggest_tag cap s tag).
Proof.
  unfold suggest_tag. destruct (List.length s <? cap); [|auto].
  pose proof (set_add_length tag s).
  destruct (Str.includes tag ":").
  - destruct (split_value tag) as [value|].
    + pose proof (set_add_length value (set_add tag s)).
      split; [lia|]. intros x Hx. rewrite !set_add_In. auto.
    + split; [lia|]. intros x Hx. rewrite set_add_In. auto.
  - split; [lia|]. intros x Hx. rewrite set_add_In. auto.
Qed.

Lemma fold_suggest_tag_grows (tags : list string) :
  forall s,
    List.length s <= List.length (fold_left (suggest_tag cap) tags s)
    /\ forall x, In x s -> In x (fold_left (suggest_tag cap) tags s).
Proof.
  induction tags as [|tag tags IH]; intros s; simpl; [auto|].
  destruct (suggest_tag_grows s tag) as [L1 I1].
  destruct (IH (suggest_tag cap s tag)) as [L2 I2].
  split; [lia | auto].
Qed.

Lemma suggest_room_grows (s s' : list string) (room : obj) :
  suggest_room st cap s room = Some s' ->
  List.length s <= List.length s' /\ forall x, In x s -> In x s'.
Proof.
  unfold suggest_room. intros E.
  destruct (cap <=? List.length s); [injection E as <-; auto|].
  destruct (createUnifiedTags st room) as [tags|]; [|discriminate].
  destruct (fold_suggest_tag_grows tags s) as [L I].
  destruct (Js.truthy (Js.get room "rmnbr") && _); injection E as <-; [|auto].
  pose proof (set_add_length (Js.toStr (Js.get room "rmnbr"))
                (fold_left (suggest_tag cap) tags s)).
  split; [lia|]. intros x Hx. rewrite set_add_In. auto.
Qed.

Lemma suggest_rooms_grows (rooms : list obj) :
  forall s s',
    suggest_rooms st cap s rooms = Some s' ->
    List.length s <= List.length s' /\ forall x, In x s -> In x s'.
Proof.
  induction rooms as [|room rooms IH]; intros s s' E; simpl in E.
  - injection E as <-. auto.
  - destruct (suggest_room st cap s room) as [s1|] eqn:E1; [|discriminate].
    destruct (suggest_room_grows s s1 room E1) as [L1 I1].
    destruct (IH s1 s' E) as [L2 I2]. split; [lia | auto].
Qed.

(** Below the cap, a tag and its bare value are in the set after the
    step made for the tag. *)
Lemma suggest_tag_complete (s : list string) (tag : string) :
  List.length (suggest_tag cap s tag) < cap ->
  In tag (suggest_tag cap s tag)
  /\ forall value, Str.includes tag ":" = true ->
                   split_value tag = Some value ->
                   In value (suggest_tag cap s tag).
Proof.
  unfold suggest_tag.
  destruct (Nat.ltb_spec (List.length s) cap) as [Hlt|Hge]; [|lia].
  intros _. destruct (Str.includes tag ":").
  - destruct (split_value tag) as [value|].
    + rewrite !set_add_In. split; [auto|].
      intros v _ Hv. injection Hv as <-. rewrite set_add_In. auto.
    + rewrite set_add_In. split; [auto|]. intros v _ Hv. discriminate Hv.
  - rewrite set_add_In. split; [auto|]. intros v Hv. discriminate Hv.
Qed.

Lemma fold_suggest_tag_complete (tags : list string) :
  forall s,
    List.length (fold_left (suggest_tag cap) tags s) < cap ->
    forall tag, In tag tags ->
      In tag (fold_left (suggest_tag cap) tags s)
      /\ forall value, Str.includes tag ":" = true ->
                       split_value tag = Some value ->
                       In value (fold_left (suggest_tag cap) tags s).
Proof.
  induction tags as [|t tags IH]; intros s Hl tag Hin; simpl in *; [destruct Hin|].
  destruct Hin as [->|Hin]; [|apply IH; assumption].
  destruct (fold_suggest_tag_grows tags (suggest_tag cap s tag)) as [L I].
  destruct (suggest_tag_complete s tag) as [H1 H2]; [lia|].
  split; [auto|]. intros v Hi Hv. auto.
Qed.

Lemma suggest_room_complete (s s' : list string) (room : obj) :
  suggest_room st cap s room = Some s' ->
  List.length s' < cap ->
  forall x, suggestedBy st room x -> In x s'.
Proof.
  unfold suggest_room. intros E Hl x [tags [Et Hx]].
  destruct (Nat.leb_spec cap (List.length s)) as [Hge|Hlt].
  { injection E as <-. lia. }
  rewrite Et in E.
  assert (G : List.length (fold_left (suggest_tag cap) tags s) <= List.length s'
              /\ forall y, In y (fold_left (suggest_tag cap) tags s) -> In y s').
  { destruct (Js.truthy (Js.get room "rmnbr") && _); injection E as <-; [|auto].
    pose proof (set_add_length (Js.toStr (Js.get room "rmnbr"))
                  (fold_left (suggest_tag cap) tags s)).
    split; [lia|]. intros y Hy. rewrite set_add_In. auto. }
  destruct G as [GL GI].
  assert (Hf : List.length (fold_left (suggest_tag cap) tags s) < cap) by lia.
  destruct Hx as [Hx|[[tag [Hin [Hi Hv]]]|[Hn ->]]].
  - apply GI. exact (proj1 (fold_suggest_tag_complete tags s Hf x Hx)).
  - apply GI. exact (proj2 (fold_suggest_tag_complete tags s Hf tag Hin) x Hi Hv).
  - rewrite Hn in E. simpl in E.
    destruct (Nat.ltb_spec (List.length (fold_left (suggest_tag cap) tags s)) cap);
      [|lia].
    injection E as <-. rewrite set_add_In. auto.
Qed.

Lemma suggest_rooms_complete (rooms : list obj) :
  forall s s',
    suggest_rooms st cap s rooms = Some s' ->
    List.length s' < cap ->
    forall room x, In room rooms -> suggestedBy st room x -> In x s'.
Proof.
  induction rooms as [|r rooms IH]; intros s s' E Hl room x Hin Hx; simpl in *.
  - destruct Hin.
  - destruct (suggest_room st cap s r) as [s1|] eqn:E1; [|discriminate].
    destruct (suggest_rooms_grows rooms s1 s' E) as [L I].
    destruct Hin as [->|Hin].
    + apply I. apply (suggest_room_complete s s1 room E1); [lia | exact Hx].
    + apply (IH s1 s' E Hl room x Hin Hx).
Qed.

End VocabularyContent.

(** X9. Every entry of the vocabulary comes from a room of the dataset:
    it is a synthesized tag of the room, the bare value of one of its
    qualified tags, or the number of the room. *)
Theorem buildUnifiedAutocomplete_sound (st : State) (items : list string) :
  buildUnifiedAutocomplete st = Some items ->
  forall x, In x items ->
    exists room, In room (processedData st) /\ suggestedBy st room x.
Proof.
  unfold buildUnifiedAutocomplete, buildUnifiedAutocompleteUpTo. intros H x Hx.
  destruct (suggest_rooms st limit [] (processedData st)) as [s|] eqn:E;
    [|discriminate].
  injection H as <-.
  apply (Permutation_in x (sort_perm Str.leb s)) in Hx.
  destruct (suggest_rooms_sound st limit _ _ _ E x Hx) as [[]|H]. exact H.
Qed.

Lemma buildUnifiedAutocomplete_sound_witness :
  exists room,
    In room (processedData Example.state)
    /\ suggestedBy Example.state room "radiology".
Proof.
  apply (buildUnifiedAutocomplete_sound Example.state
           (autocompleteItems Example.state)).
  - vm_compute. reflexivity.
  - vm_compute. tauto.
Defined.

(** X10. While the vocabulary stays below the cap nothing is left out:
    every synthesized tag of every room, the bare value of every qualified
    tag and every room number is an entry. *)
Theorem buildUnifiedAutocomplete_complete (st : State) (items : list string) :
  buildUnifiedAutocomplete st = Some items ->
  List.length items < limit ->
  forall room x,
    In room (processedData st) -> suggestedBy st room x -> In x items.
Proof.
  unfold buildUnifiedAutocomplete, buildUnifiedAutocompleteUpTo.
  intros H Hl room x Hin Hx.
  destruct (suggest_rooms st limit [] (processedData st)) as [s|] eqn:E;
    [|discriminate].
  injection H as <-. rewrite sort_length in Hl.
  apply (Permutation_in x (Permutation_sym (sort_perm Str.leb s))).
  apply (suggest_rooms_complete st limit _ _ _ E Hl room x Hin Hx).
Qed.

Lemma buildUnifiedAutocomplete_complete_witness :
  In "level:4" (autocompleteItems Example.state).
Proof.
  apply (buildUnifiedAutocomplete_complete Example.state
           (autocompleteItems Example.state))
    with (room := hd [] (processedData Example.state)).
  - vm_compute. reflexivity.
  - apply Nat.ltb_lt. vm_compute. reflexivity.
  - vm_compute. left. reflexivity.
  - exists tags4101. split; [vm_compute; reflexivity|].
    left. vm_compute. tauto.
Defined.

(** ** Ingestion: the rooms of a merge *)

Lemma or_else_truthy (a : option value) (b : value) :
  Js.truthy (Some b) = true -> Js.truthy (Some (Js.or_else a b)) = true.
Proof.
  intros H. unfold Js.or_else. destruct a as [v|]; [|exact H].
  destruct (Js.truthy (Some v)) eqn:E; [exact E | exact H].
Qed.

Lemma processRow_rejects (env : Env) (st : State) (acc : Batch) (row : obj) :
  acceptedRow row = false -> processRow env st acc row = acc.
Proof.
  unfold acceptedRow, processRow. intros H.
  destruct (Js.truthy (Js.get row "rmnbr")), (Js.nullish (Js.get row "floor"));
    simpl in *; try discriminate H; reflexivity.
Qed.

Lemma processRow_accepts (env : Env) (st : State) (acc : Batch) (row : obj) :
  acceptedRow row = true ->
  exists room rowTags,
    processed (processRow env st acc row) = processed acc ++ [room]
    /\ mergedFrom row room
    /\ Js.get room "tags" = Some (VArr (List.map VStr rowTags))
    /\ buildings (processRow env st acc row)
       = Js.uniq Js.same_value
           (buildings acc
            ++ [Js.or_else (Js.get row "bld_descrshort") (VStr "Unknown Building")])
    /\ floors (processRow env st acc row)
       = Js.uniq String.eqb (floors acc ++ [Js.toStr (Js.get row "floor")])
    /\ batchTags (processRow env st acc row)
       = Js.uniq String.eqb (batchTags acc ++ rowTags).
Proof.
  unfold acceptedRow, processRow. intros H.
  destruct (Js.truthy (Js.get row "rmnbr")), (Js.nullish (Js.get row "floor"));
    simpl in H; try discriminate H. simpl orb. cbv iota.
  destruct (normalizeAbbreviation env st (Js.get row "rmtyp_descrshort") (unmapped acc))
    as [type unmapped1].
  destruct (normalizeAbbreviation env st (Js.get row "rmsubtyp_descrshort") unmapped1)
    as [sub unmapped2].
  cbv zeta. eexists. eexists.
  split; [reflexivity|]. split; [|split; [|repeat split]].
  - unfold mergedFrom. repeat split.
    + intros k Hk. unfold derivedColumn in Hk. simpl in Hk.
      repeat (apply orb_false_iff in Hk; destruct Hk as [?E Hk]).
      rewrite !get_put_other; try reflexivity;
        intros <-; rewrite String.eqb_refl in *; discriminate.
    + apply get_set_same.
    + cbn [Js.put]. rewrite get_set_same. apply or_else_truthy. reflexivity.
    + eexists. rewrite !get_put_other by discriminate. apply get_set_same.
    + eexists. rewrite !get_put_other by discriminate. apply get_set_same.
    + eexists. rewrite !get_put_other by discriminate. apply get_set_same.
  - rewrite !get_put_other by discriminate. apply get_set_same.
Qed.

Lemma fold_processRow_rooms (env : Env) (st : State) (data : list obj) :
  forall acc,
    exists added,
      processed (fold_left (processRow env st) data acc) = processed acc ++ added
      /\ Forall2 mergedFrom (filter acceptedRow data) added.
Proof.
  induction data as [|row data IH]; intros acc; simpl.
  - exists []. rewrite app_nil_r. split; [reflexivity | constructor].
  - destruct (acceptedRow row) eqn:Ha.
    + destruct (processRow_accepts env st acc row Ha)
        as [room [rowTags [Hp [Hm _]]]].
      destruct (IH (processRow env st acc row)) as [added [Hf Hr]].
      exists (room :: added). rewrite Hf, Hp, <- app_assoc. simpl.
      split; [reflexivity | constructor; assumption].
    + rewrite (processRow_rejects env st acc row Ha). apply IH.
Qed.

(** X11. A merge appends one room for every row that has a truthy room
    number and a floor, in the order of the rows, and drops the other
    rows.  The room keeps every column of its row but the five the merge
    writes itself (id, typeFull, tags, mgisLink, building); its building
    is the short building name of the row, or "Unknown Building", and is
    never empty. *)
Theorem processRoomData_rooms (env : Env) (st : State) (data : list obj) :
  exists added,
    processedData (processRoomData env st data) = processedData st ++ added
    /\ Forall2 mergedFrom (filter acceptedRow data) added.
Proof.
  unfold processRoomData. rewrite createSearchIndex_processedData.
  unfold mergeRoomData. cbn [processedData].
  destruct (fold_processRow_rooms env st data
              {| processed := []; unmapped := []; buildings := []; floors := [];
                 batchTags := [];
                 uniqueIdCounter := Z.of_nat (List.length (processedData st)) |})
    as [added [Hf Hr]].
  exists added. rewrite Hf. split; [reflexivity | exact Hr].
Qed.

(** ** Ingestion: category tags *)

(** X12. [generateTags] returns, once each, the tags of the rules whose
    pattern accepts the room type or the department (the empty string
    when the row has no department), and nothing else. *)
Theorem generateTags_rules (env : Env) (roomType : value)
    (department : option value) :
  NoDup (generateTags env roomType department)
  /\ forall tag,
       In tag (generateTags env roomType department)
       <-> exists rule,
             In rule (tagRules env) /\ snd rule = tag
             /\ (fst rule (Js.to_string roomType) = true
                 \/ fst rule (Js.to_string
                                (Js.or_else department (VStr EmptyString)))
                    = true).
Proof.
  unfold generateTags. split.
  - apply (uniq_NoDup String.eqb String.eqb_eq).
  - intros tag. rewrite (uniq_In String.eqb String.eqb_eq), in_map_iff.
    split.
    + intros [rule [Hs Hin]]. apply filter_In in Hin as [Hin Hf].
      exists rule. apply orb_true_iff in Hf. auto.
    + intros [rule [Hin [Hs Hf]]]. exists rule. split; [exact Hs|].
      apply filter_In. split; [exact Hin|]. apply orb_true_iff. exact Hf.
Qed.

(** ** Ingestion: the facet lists *)

Lemma processRow_collects (env : Env) (st : State) (acc : Batch) (row : obj) :
  (forall b, In b (buildings acc) -> In b (buildings (processRow env st acc row)))
  /\ (forall f, In f (floors acc) -> In f (floors (processRow env st acc row)))
  /\ (forall t, In t (batchTags acc) -> In t (batchTags (processRow env st acc row))).
Proof.
  destruct (acceptedRow row) eqn:Ha.
  - destruct (processRow_accepts env st acc row Ha)
      as [room [rowTags [_ [_ [_ [Hb [Hf Ht]]]]]]].
    rewrite Hb, Hf, Ht. repeat split; intros x Hx.
    + apply uniq_In_sound; [exact same_value_sound|]. apply in_app_iff. auto.
    + apply (uniq_In String.eqb String.eqb_eq). apply in_app_iff. auto.
    + apply (uniq_In String.eqb String.eqb_eq). apply in_app_iff. auto.
  - rewrite (processRow_rejects env st acc row Ha). auto.
Qed.

Lemma batchCovers_mono (a b : Batch) (room : obj) :
  (forall x, In x (buildings a) -> In x (buildings b)) ->
  (forall x, In x (floors a) -> In x (floors b)) ->
  (forall x, In x (batchTags a) -> In x (batchTags b)) ->
  batchCovers a room -> batchCovers b room.
Proof.
  intros Hb Hf Ht [C1 [C2 C3]]. repeat split; auto.
  intros l tag Hl Hin. destruct (C3 l tag Hl Hin) as [t [E Hi]].
  exists t. auto.
Qed.

Lemma fold_processRow_collects (env : Env) (st : State) (data : list obj) :
  forall acc,
    (forall room, In room (processed acc) -> batchCovers acc room) ->
    let batch := fold_left (processRow env st) data acc in
    (forall b, In b (buildings acc) -> In b (buildings batch))
    /\ (forall f, In f (floors acc) -> In f (floors batch))
    /\ (forall t, In t (batchTags acc) -> In t (batchTags batch))
    /\ forall room, In room (processed batch) -> batchCovers batch room.
Proof.
  induction data as [|row data IH]; intros acc Hacc; simpl; [auto|].
  destruct (processRow_collects env st acc row) as [Mb [Mf Mt]].
  assert (Hacc' : forall room, In room (processed (processRow env st acc row)) ->
                               batchCovers (processRow env st acc row) room).
  { intros room Hin. destruct (acceptedRow row) eqn:Ha.
    + destruct (processRow_accepts env st acc row Ha)
        as [r [rowTags [Hp [Hm [Htags [Hb [Hf Ht]]]]]]].
      rewrite Hp in Hin. apply in_app_iff in Hin as [Hin|[<-|[]]].
      * apply (batchCovers_mono acc); auto.
      * destruct Hm as [Hcols [Hbld _]]. repeat split.
        -- intros b E. rewrite Hbld in E. injection E as <-. rewrite Hb.
           apply uniq_In_sound; [exact same_value_sound|].
           apply in_app_iff. right. left. reflexivity.
        -- rewrite (Hcols "floor" eq_refl), Hf.
           apply (uniq_In String.eqb String.eqb_eq).
           apply in_app_iff. right. left. reflexivity.
        -- intros l tag E Hi. rewrite Htags in E. injection E as <-.
           apply in_map_iff in Hi as [t [<- Hi]]. exists t.
           split; [reflexivity|]. rewrite Ht.
           apply (uniq_In String.eqb String.eqb_eq).
           apply in_app_iff. right. exact Hi.
    + rewrite (processRow_rejects env st acc row Ha) in *. auto. }
  destruct (IH (processRow env st acc row) Hacc') as [Nb [Nf [Nt Nc]]].
  split; [intros b Hb; apply Nb, Mb, Hb|].
  split; [intros f Hf; apply Nf, Mf, Hf|].
  split; [intros t Ht; apply Nt, Mt, Ht | exact Nc].
Qed.

Lemma createSearchIndex_facets (st : State) :
  availableBuildings (createSearchIndex st) = availableBuildings st
  /\ availableFloors (createSearchIndex st) = availableFloors st
  /\ availableTags (createSearchIndex st) = availableTags st.
Proof.
  unfold createSearchIndex.
  destruct (processedData st);
    [| destruct (mapM (createUnifiedTags st) (o :: l))];
    destruct (buildUnifiedAutocomplete st); repeat split; reflexivity.
Qed.

Lemma processRoomData_facetsCover (env : Env) (st : State) (data : list obj) :
  (forall room, In room (processedData st) -> facetsCover st room) ->
  forall room, In room (processedData (processRoomData env st data)) ->
               facetsCover (processRoomData env st data) room.
Proof.
  intros Hst room. unfold processRoomData, facetsCover.
  destruct (createSearchIndex_facets (mergeRoomData env st data)) as [-> [-> ->]].
  rewrite createSearchIndex_processedData.
  unfold mergeRoomData. cbn [processedData availableBuildings availableFloors availableTags].
  set (start := {| processed := []; unmapped := []; buildings := []; floors := [];
                   batchTags := [];
                   uniqueIdCounter := Z.of_nat (List.length (processedData st)) |}).
  destruct (fold_processRow_collects env st data start) as [_ [_ [_ Hc]]];
    [intros r []|].
  intros Hin. apply in_app_iff in Hin as [Hin|Hin].
  - destruct (Hst room Hin) as [C1 [C2 C3]]. repeat split.
    + intros b E. apply In_facet_values, in_app_iff. left. apply C1. exact E.
    + apply In_facet_strings, in_app_iff. left. exact C2.
    + intros l tag E Hi. apply In_facet_values, in_app_iff. left.
      apply (C3 l tag E Hi).
  - destruct (Hc room Hin) as [C1 [C2 C3]]. repeat split.
    + intros b E. apply In_facet_values, in_app_iff. right. apply C1. exact E.
    + apply In_facet_strings, in_app_iff. right. exact C2.
    + intros l tag E Hi. apply In_facet_values, in_app_iff. right.
      destruct (C3 l tag E Hi) as [t [-> Ht]]. apply in_map. exact Ht.
Qed.

(** X13. After any sequence of merges into the empty store, the facet
    lists cover every room of the dataset: the building of the room is in
    [availableBuildings], its floor (as a string) in [availableFloors] and
    each of its category tags in [availableTags]. *)
Theorem merge_facets_cover_rooms (env : Env) (batches : list (list obj)) :
  forall room,
    In room (processedData (mergeBatches env initialState batches)) ->
    facetsCover (mergeBatches env initialState batches) room.
Proof.
  unfold mergeBatches.
  assert (G : forall st,
             (forall room, In room (processedData st) -> facetsCover st room) ->
             forall room,
               In room (processedData (fold_left (processRoomData env) batches st)) ->
               facetsCover (fold_left (processRoomData env) batches st) room).
  { induction batches as [|data batches IH]; intros st Hst; simpl; [exact Hst|].
    apply IH. apply processRoomData_facetsCover. exact Hst. }
  apply G. intros room [].
Qed.

Lemma merge_facets_cover_rooms_witness :
  facetsCover Example.state (hd [] (processedData Example.state)).
Proof.
  apply (merge_facets_cover_rooms Example.env
           [[Example.row4101; Example.row4102]]).
  vm_compute. left. reflexivity.
Defined.

(** ** The abbreviation normalizer: known and unknown codes *)

(** The tables are plain objects: a code that names a property of
    [Object.prototype] is mapped by them, to what they inherit under that
    name, and is not counted. *)
Lemma normalizeAbbreviation_inherited_code :
  normalizeAbbreviation Example.env initialState (Some (VStr "constructor")) []
  = (VNative "constructor", []).
Proof. reflexivity. Qed.



(** ** Occupant data *)

Lemma has_set {A} (k k' : string) (v : A) (o : jsobj A) :
  Js.has (Js.set k v o) k' = String.eqb k k' || Js.has o k'.
Proof.
  unfold Js.has at 1. destruct (String.eqb_spec k k') as [<-|Hne].
  - rewrite get_set_same. reflexivity.
  - rewrite get_set_other by exact Hne. reflexivity.
Qed.

Lemma staffOf_set_same (k : string) (l : list string) (o : jsobj (list string)) :
  staffOf (Js.set k l o) k = l.
Proof. unfold staffOf. rewrite get_set_same. reflexivity. Qed.

Lemma staffOf_set_other (k k' : string) (l : list string)
    (o : jsobj (list string)) :
  k <> k' -> staffOf (Js.set k l o) k' = staffOf o k'.
Proof. intros H. unfold staffOf. rewrite get_set_other by exact H. reflexivity. Qed.

Lemma staffOf_absent (k : string) (o : jsobj (list string)) :
  Js.has o k = false -> staffOf o k = [].
Proof. unfold Js.has, staffOf. destruct (Js.get o k); [discriminate | reflexivity]. Qed.

Lemma staffExtends_refl (s : jsobj (list string)) : staffExtends s s.
Proof. intros key. auto. Qed.

Lemma staffExtends_trans (a b c : jsobj (list string)) :
  staffExtends a b -> staffExtends b c -> staffExtends a c.
Proof.
  intros H1 H2 key. destruct (H1 key) as [A1 A2], (H2 key) as [B1 B2].
  split; auto.
Qed.

Lemma staffExtends_declare (key : string) (s : jsobj (list string)) :
  staffExtends s (if Js.has s key then s else Js.set key [] s).
Proof.
  destruct (Js.has s key) eqn:E; [apply staffExtends_refl|].
  intros k. split.
  - intros H. rewrite has_set, H. apply orb_true_r.
  - intros tag. destruct (String.eqb_spec key k) as [<-|Hne].
    + rewrite (staffOf_absent key s E). intros [].
    + rewrite staffOf_set_other by exact Hne. auto.
Qed.

Lemma staffExtends_push (key tag : string) (s : jsobj (list string)) :
  staffExtends s (Js.set key (staffOf s key ++ [tag]) s).
Proof.
  intros k. split.
  - intros H. rewrite has_set, H. apply orb_true_r.
  - intros t. destruct (String.eqb_spec key k) as [<-|Hne].
    + rewrite staffOf_set_same, in_app_iff. auto.
    + rewrite staffOf_set_other by exact Hne. auto.
Qed.

(** [addOccupant] row by row. *)
Lemma addOccupant_row (st : State) (store : jsobj (list string)) (occ : obj) :
  addOccupant st store occ
  = match occupantRow st occ with
    | Skipped => (store, false)
    | Attached key staffTag =>
        match Js.read store key with
        | Js.Inherited => (store, true)
        | _ =>
            let declared :=
              if Js.has store key then store else Js.set key [] store in
            if List.existsb (String.eqb staffTag) (staffOf declared key)
            then (declared, false)
            else (Js.set key (staffOf declared key ++ [staffTag]) declared, false)
        end
    | Malformed key =>
        match Js.read store key with
        | Js.Inherited => (store, true)
        | _ => (if Js.has store key then store else Js.set key [] store, true)
        end
    end.
Proof.
  unfold addOccupant, occupantRow.
  destruct (Js.truthy (Js.get occ "rmrecnbr")); [|reflexivity].
  destruct (Js.truthy (Js.get occ "person_name")); [|reflexivity].
  simpl orb. simpl andb. cbv iota.
  match goal with
  | |- context [List.find ?p ?l] => destruct (List.find p l) as [room|]
  end; [|reflexivity].
  destruct (Js.get occ "person_name") as [[| | |name| | |]|]; try reflexivity.
  destruct (Js.read store (Js.toStr (Js.get room "id"))); try reflexivity;
    cbv zeta;
    fold (staffOf (if Js.has store (Js.toStr (Js.get room "id"))
                   then store
                   else Js.set (Js.toStr (Js.get room "id")) [] store)
            (Js.toStr (Js.get room "id")));
    destruct (List.existsb _ _); reflexivity.
Qed.

Lemma read_has {A} (store : jsobj A) (key : string) :
  Js.has store key = true -> exists l, Js.read store key = Js.Own l.
Proof.
  unfold Js.has, Js.read. destruct (Js.get store key) as [l|]; [|discriminate].
  intros _. exists l. reflexivity.
Qed.

Lemma addOccupant_extends (st : State) (store : jsobj (list string)) (occ : obj) :
  staffExtends store (fst (addOccupant st store occ)).
Proof.
  rewrite addOccupant_row. destruct (occupantRow st occ) as [|key tag|key].
  - apply staffExtends_refl.
  - destruct (Js.read store key); try apply staffExtends_refl;
      cbv zeta; destruct (List.existsb _ _); simpl;
      try apply staffExtends_declare;
      (eapply staffExtends_trans; [apply staffExtends_declare|];
       apply staffExtends_push).
  - destruct (Js.read store key); try apply staffExtends_refl;
      apply staffExtends_declare.
Qed.

Lemma has_declare (key : string) (s : jsobj (list string)) :
  Js.has (if Js.has s key then s else Js.set key [] s) key = true.
Proof.
  destruct (Js.has s key) eqn:E; [exact E|].
  rewrite has_set, String.eqb_refl. reflexivity.
Qed.

Lemma addOccupant_settles (st : State) (store : jsobj (list string)) (occ : obj) :
  snd (addOccupant st store occ) = false ->
  settled st (fst (addOccupant st store occ)) occ.
Proof.
  rewrite addOccupant_row. unfold settled.
  destruct (occupantRow st occ) as [|key tag|key]; [auto| |].
  - destruct (Js.read store key); try discriminate;
      cbv zeta; intros _;
      (destruct (List.existsb (String.eqb tag) _) eqn:E; simpl;
       [ split; [apply has_declare|];
         apply (existsb_eqb_In String.eqb String.eqb_eq); exact E
       | split;
         [ rewrite has_set, String.eqb_refl; reflexivity
         | rewrite staffOf_set_same, in_app_iff; right; left; reflexivity ] ]).
  - destruct (Js.read store key); discriminate.
Qed.

Lemma settled_mono (st : State) (s s' : jsobj (list string)) (occ : obj) :
  settled st s occ -> staffExtends s s' -> settled st s' occ.
Proof.
  unfold settled. destruct (occupantRow st occ) as [|key tag|key]; auto.
  intros [H1 H2] E. destruct (E key) as [E1 E2]. auto.
Qed.

Lemma settled_fixed (st : State) (s : jsobj (list string)) (occ : obj) :
  settled st s occ -> addOccupant st s occ = (s, false).
Proof.
  rewrite addOccupant_row. unfold settled.
  destruct (occupantRow st occ) as [|key tag|key]; [reflexivity| |intros []].
  intros [H1 H2]. destruct (read_has s key H1) as [l ->]. cbv zeta. rewrite H1.
  apply (existsb_eqb_In String.eqb String.eqb_eq) in H2. rewrite H2. reflexivity.
Qed.

Lemma addOccupants_extends (st : State) (data : list obj) :
  forall store, staffExtends store (staffStore (addOccupants st store data)).
Proof.
  induction data as [|occ data IH]; intros store; simpl;
    [apply staffExtends_refl|].
  pose proof (addOccupant_extends st store occ) as H.
  destruct (addOccupant st store occ) as [s thrown]. simpl in H.
  destruct thrown; [exact H|].
  eapply staffExtends_trans; [exact H | apply IH].
Qed.

Lemma addOccupants_settles (st : State) (data : list obj) :
  forall store,
    staffThrown (addOccupants st store data) = false ->
    Forall (settled st (staffStore (addOccupants st store data))) data.
Proof.
  induction data as [|occ data IH]; intros store H; simpl in *; [constructor|].
  pose proof (addOccupant_settles st store occ) as Hs.
  destruct (addOccupant st store occ) as [s thrown]. simpl in Hs.
  destruct thrown; [discriminate H|].
  constructor; [|apply IH; exact H].
  apply (settled_mono st s); [apply Hs; reflexivity|].
  apply addOccupants_extends.
Qed.

Lemma addOccupants_fixed (st : State) (data : list obj) (store : jsobj (list string)) :
  Forall (settled st store) data ->
  addOccupants st store data = {| staffStore := store; staffThrown := false |}.
Proof.
  induction 1 as [|occ data Hocc _ IH]; simpl; [reflexivity|].
  rewrite (settled_fixed st store occ Hocc). exact IH.
Qed.

(** The staff tags are computed from the rooms only. *)
Lemma addOccupants_rooms (st st' : State) (data : list obj) :
  processedData st' = processedData st ->
  forall store, addOccupants st' store data = addOccupants st store data.
Proof.
  intros E. induction data as [|occ data IH]; intros store; simpl; [reflexivity|].
  assert (H : addOccupant st' store occ = addOccupant st store occ).
  { unfold addOccupant. rewrite E. reflexivity. }
  rewrite H. destruct (addOccupant st store occ) as [s thrown].
  destruct thrown; [reflexivity | apply IH].
Qed.

Lemma createSearchIndex_idempotent (st : State) :
  createSearchIndex (createSearchIndex st) = createSearchIndex st.
Proof.
  unfold createSearchIndex at 2.
  destruct (processedData st) as [|room rooms] eqn:Ep.
  - destruct (buildUnifiedAutocomplete st) as [items|] eqn:Eb.
    + unfold createSearchIndex. cbn [processedData set_autocompleteItems].
      rewrite Ep.
      change (buildUnifiedAutocomplete (set_autocompleteItems items st))
        with (buildUnifiedAutocomplete st).
      rewrite Eb. reflexivity.
    + unfold createSearchIndex. rewrite Ep, Eb. reflexivity.
  - destruct (mapM (createUnifiedTags st) (room :: rooms)) as [tags|] eqn:Em.
    + destruct (buildUnifiedAutocomplete st) as [items|] eqn:Eb.
      * unfold createSearchIndex. cbn [processedData set_autocompleteItems].
        rewrite Ep.
        change (mapM (createUnifiedTags (set_autocompleteItems items st))
                  (room :: rooms))
          with (mapM (createUnifiedTags st) (room :: rooms)).
        rewrite Em.
        change (buildUnifiedAutocomplete (set_autocompleteItems items st))
          with (buildUnifiedAutocomplete st).
        rewrite Eb. reflexivity.
      * unfold createSearchIndex. rewrite Ep, Em, Eb. reflexivity.
    + unfold createSearchIndex. rewrite Ep, Em. reflexivity.
Qed.

Lemma createSearchIndex_staffTags (st : State) :
  staffTags (createSearchIndex st) = staffTags st
  /\ currentPage (createSearchIndex st) = currentPage st.
Proof.
  destruct (createSearchIndex_shape st) as [->|[items ->]]; split; reflexivity.
Qed.

Lemma set_staffTags_createSearchIndex (store : jsobj (list string)) (st : State) :
  set_staffTags store 1%Z (createSearchIndex (set_staffTags store 1%Z st))
  = createSearchIndex (set_staffTags store 1%Z st).
Proof.
  destruct (createSearchIndex_shape (set_staffTags store 1%Z st)) as [->|[items ->]];
    reflexivity.
Qed.

(** X16. Loading an occupant file a second time changes nothing: when
    no row of the first load threw, the store after the second load is
    the store after the first, so that no staff tag is ever stored twice
    for a room by the same rows. *)
Theorem processOccupantData_idempotent (st st1 : State) (data : list obj) :
  processOccupantData st data = (st1, false) ->
  processOccupantData st1 data = (st1, false).
Proof.
  unfold processOccupantData. intros H.
  destruct (staffThrown (addOccupants st (staffTags st) data)) eqn:Et;
    [discriminate H|].
  injection H as <-.
  set (s1 := staffStore (addOccupants st (staffTags st) data)).
  destruct (createSearchIndex_staffTags (set_staffTags s1 1%Z st)) as [-> _].
  cbn [staffTags set_staffTags].
  rewrite (addOccupants_rooms st (createSearchIndex (set_staffTags s1 1%Z st)))
    by (rewrite createSearchIndex_processedData; reflexivity).
  rewrite (addOccupants_fixed st data s1)
    by (apply addOccupants_settles; exact Et).
  cbn [staffThrown staffStore].
  rewrite set_staffTags_createSearchIndex, createSearchIndex_idempotent.
  reflexivity.
Qed.

Lemma processOccupantData_idempotent_witness :
  processOccupantData staffedState occupants4101 = (staffedState, false).
Proof.
  apply (processOccupantData_idempotent Example.state).
  vm_compute. reflexivity.
Defined.

(** X17. A load of occupant rows of which none throws keeps the rooms
    and every staff tag that was stored, resets the page to 1, and leaves, for
    every row with a record number and a name whose record number is that
    of a room, the tag "Staff: " followed by the trimmed name under the id
    of the first such room. *)
Theorem processOccupantData_attaches (st st1 : State) (data : list obj) :
  processOccupantData st data = (st1, false) ->
  processedData st1 = processedData st
  /\ currentPage st1 = 1%Z
  /\ staffExtends (staffTags st) (staffTags st1)
  /\ forall occ key staffTag,
       In occ data -> occupantRow st occ = Attached key staffTag ->
       In staffTag (staffOf (staffTags st1) key).
Proof.
  unfold processOccupantData. intros H.
  destruct (staffThrown (addOccupants st (staffTags st) data)) eqn:Et;
    [discriminate H|].
  injection H as <-.
  set (s1 := staffStore (addOccupants st (staffTags st) data)).
  destruct (createSearchIndex_staffTags (set_staffTags s1 1%Z st)) as [-> ->].
  rewrite createSearchIndex_processedData.
  cbn [staffTags currentPage processedData set_staffTags].
  split; [reflexivity|]. split; [reflexivity|].
  split; [apply addOccupants_extends|].
  intros occ key staffTag Hin Hrow.
  pose proof (addOccupants_settles st data (staffTags st) Et) as Hall.
  rewrite Forall_forall in Hall. specialize (Hall occ Hin).
  unfold settled in Hall. rewrite Hrow in Hall. apply Hall.
Qed.

Lemma processOccupantData_attaches_witness :
  In "Staff: Ada Lovelace" (staffOf (staffTags staffedState) "0").
Proof.
  apply (processOccupantData_attaches Example.state staffedState occupants4101)
    with (occ := hd [] occupants4101).
  - vm_compute. reflexivity.
  - left. reflexivity.
  - vm_compute. reflexivity.
Defined.

(** ** Search: the staff of a room *)

Lemma lower_char_idempotent (c : ascii) :
  Str.lower_char (Str.lower_char c) = Str.lower_char c.
Proof. destruct c as [[] [] [] [] [] [] [] []]; reflexivity. Qed.

Lemma toLowerCase_idempotent (s : string) :
  Str.toLowerCase (Str.toLowerCase s) = Str.toLowerCase s.
Proof.
  unfold Str.toLowerCase.
  induction s as [|c s IH]; cbn [Str.map]; [reflexivity|].
  rewrite lower_char_idempotent, IH. reflexivity.
Qed.

(** The pieces of a lower-case string are in lower case. *)
Lemma split_on_lower (sep : ascii -> bool) (s : string) :
  Str.toLowerCase s = s ->
  forall w, In w (Str.split_on sep s) -> Str.toLowerCase w = w.
Proof.
  unfold Str.toLowerCase.
  induction s as [|c s IH]; cbn [Str.map Str.split_on]; intros H w Hw.
  - destruct Hw as [<-|[]]. reflexivity.
  - injection H as Hc Hs. specialize (IH Hs).
    destruct (sep c).
    + destruct (Str.starts_with_sep sep s).
      * apply IH. exact Hw.
      * destruct Hw as [<-|Hw]; [reflexivity | apply IH; exact Hw].
    + destruct (Str.split_on sep s) as [|p ps].
      * destruct Hw as [<-|[]]. cbn [Str.map]. rewrite Hc. reflexivity.
      * destruct Hw as [<-|Hw].
        -- cbn [Str.map]. rewrite Hc. f_equal. apply IH. left. reflexivity.
        -- apply IH. right. exact Hw.
Qed.

Lemma createUnifiedTags_staff (st : State) (room : obj) (roomTags : list string)
    (staffTag w : string) :
  createUnifiedTags st room = Some roomTags ->
  In staffTag (staffOf (staffTags st) (Js.toStr (Js.get room "id"))) ->
  In w (staffTag_tags staffTag) ->
  In w roomTags.
Proof.
  intros H Hs Hw. unfold staffOf in Hs.
  destruct (Js.get (staffTags st) (Js.toStr (Js.get room "id"))) as [staff|] eqn:E;
    [|destruct Hs].
  unfold createUnifiedTags, Js.read in H. rewrite E in H.
  cbv beta iota zeta in H.
  repeat match type of H with
         | (match ?e with Some _ => _ | None => None end) = Some _ =>
             destruct e; [|discriminate H]
         end.
  injection H as <-.
  apply (uniq_In String.eqb String.eqb_eq).
  rewrite !in_app_iff. do 7 right. left.
  apply in_concat. exists (staffTag_tags staffTag). split; [|exact Hw].
  apply in_map. exact Hs.
Qed.

(** X18. A room is found by the name of its staff: every word of more
    than one character of the name on a staff tag of the room, typed as a
    query (it must hold no comma), returns the room. *)
Theorem searchRoomsByTags_finds_staff
    (st : State) (room : obj) (staffTag w : string) (result : list obj) :
  In room (processedData st) ->
  In staffTag (staffOf (staffTags st) (Js.toStr (Js.get room "id"))) ->
  In w (long_words Str.is_space 1
          (Str.toLowerCase (Str.remove_first "Staff: " staffTag))) ->
  is_term w = true ->
  searchRoomsByTags st w = Some result ->
  In room result.
Proof.
  intros Hin Hs Hw Ht H.
  assert (Hl : Str.toLowerCase w = w).
  { unfold long_words in Hw. apply filter_In in Hw as [Hw _].
    apply (split_on_lower Str.is_space _ (toLowerCase_idempotent _) w Hw). }
  destruct (createUnifiedTags st room) as [roomTags|] eqn:Htags.
  - apply (searchRoomsByTags_term_In st w result Ht H room roomTags Hin Htags).
    rewrite Hl.
    apply (createUnifiedTags_staff st room roomTags staffTag w Htags Hs).
    unfold staffTag_tags, label_tags. cbv zeta.
    apply in_app_iff. right. exact Hw.
  - rewrite (searchRoomsByTags_None_intro st w room) in H.
    + discriminate H.
    + apply term_not_empty. exact Ht.
    + rewrite (searchTermsOf_term _ Ht). discriminate.
    + exact Hin.
    + exact Htags.
Qed.

Lemma searchRoomsByTags_finds_staff_witness :
  In (hd [] (processedData staffedState))
    (firstn 1 (processedData staffedState)).
Proof.
  apply (searchRoomsByTags_finds_staff staffedState _ "Staff: Ada Lovelace"
           "lovelace").
  - vm_compute. left. reflexivity.
  - vm_compute. left. reflexivity.
  - vm_compute. right. left. reflexivity.
  - reflexivity.
  - vm_compute. reflexivity.
Defined.

(** ** Custom tag import: the counters *)

Lemma storeSize_app (a b : jsobj (list obj)) :
  storeSize (a ++ b) = storeSize a + storeSize b.
Proof.
  unfold storeSize. rewrite map_app, list_sum_app. reflexivity.
Qed.

Lemma storeSize_replace (k : string) (l : list obj) (o : jsobj (list obj)) :
  Js.has o k = true ->
  storeSize (Js.replace k l o) + List.length (tagsOf o k)
  = storeSize o + List.length l.
Proof.
  unfold Js.has, tagsOf, storeSize.
  induction o as [|[k0 l0] o IH]; simpl; [discriminate|].
  destruct (String.eqb k0 k); simpl; [lia|].
  intros H. specialize (IH H). lia.
Qed.

Lemma storeSize_insert_index (i : N) (k : string) (l : list obj)
    (o : jsobj (list obj)) :
  storeSize (Js.insert_index i k l o) = storeSize o + List.length l.
Proof.
  unfold storeSize. induction o as [|[k0 l0] o IH]; simpl; [lia|].
  destruct (Js.array_index k0) as [j|]; [destruct (j <? i)%N|]; simpl; lia.
Qed.

Lemma storeSize_set (k : string) (l : list obj) (o : jsobj (list obj)) :
  storeSize (Js.set k l o) + List.length (tagsOf o k)
  = storeSize o + List.length l.
Proof.
  unfold Js.set. destruct (Js.has o k) eqn:H.
  - apply storeSize_replace. exact H.
  - assert (E : tagsOf o k = []).
    { unfold Js.has in H. unfold tagsOf. destruct (Js.get o k);
        [discriminate | reflexivity]. }
    rewrite E. simpl. destruct (Js.array_index k).
    + rewrite storeSize_insert_index. lia.
    + rewrite storeSize_app. unfold storeSize at 2. simpl. lia.
Qed.

Lemma storeSize_declare (key : string) (store : jsobj (list obj)) :
  storeSize (if Js.has store key then store else Js.set key [] store)
  = storeSize store.
Proof.
  destruct (Js.has store key) eqn:H; [reflexivity|].
  pose proof (storeSize_set key [] store) as E. simpl in E.
  assert (T : tagsOf store key = []).
  { unfold Js.has in H. unfold tagsOf. destruct (Js.get store key);
      [discriminate | reflexivity]. }
  rewrite T in E. simpl in E. lia.
Qed.

Lemma importStep_refl (a : TagImport) : importStep a a.
Proof.
  repeat split; try lia. intros k. exists []. rewrite app_nil_r. reflexivity.
Qed.

Lemma importStep_trans (a b c : TagImport) :
  importStep a b -> importStep b c -> importStep a c.
Proof.
  intros [S1 [L1 P1]] [S2 [L2 P2]]. repeat split; try lia.
  intros k. destruct (P1 k) as [x Hx], (P2 k) as [y Hy].
  exists (x ++ y). rewrite Hy, Hx, app_assoc. reflexivity.
Qed.

Lemma importTags_step (env : Env) (key : string) (tagsToImport : list value) :
  forall acc, importStep acc (importTags env key acc tagsToImport).
Proof.
  induction tagsToImport as [|tag rest IH]; intros acc; simpl;
    [apply importStep_refl|].
  destruct (richTagOf env tag) as [rich|].
  - match goal with |- context [negb ?b] => destruct b end; simpl negb; cbv iota.
    + apply IH.
    + eapply importStep_trans; [|apply IH].
      unfold importStep. cbn [tagStore importedCount].
      pose proof (storeSize_set key (tagsOf (tagStore acc) key ++ [rich])
                    (tagStore acc)) as E.
      rewrite length_app in E. simpl in E.
      split; [lia|]. split; [lia|].
      intros k. rewrite tagsOf_set.
      destruct (String.eqb_spec key k) as [<-|Hne].
      * exists [rich]. reflexivity.
      * exists []. rewrite app_nil_r. reflexivity.
  - unfold importStep. cbn [tagStore importedCount].
    split; [lia|]. split; [lia|].
    intros k. exists []. rewrite app_nil_r. reflexivity.
Qed.

Lemma importEntry_step (env : Env) (st : State) (roomReference : option value)
    (acc : TagImport) (entry : string * value) :
  importStep acc (importEntry env st roomReference acc entry).
Proof.
  unfold importEntry. destruct entry as [roomIdFromFile tagsToImport].
  destruct tagsToImport as [| | | |[|t ts]| |]; try apply importStep_refl.
  destruct (resolveTargetRoom st roomIdFromFile _) as [[targetRoom|]|].
  - destruct (Js.read (tagStore acc) (Js.toStr (Js.get targetRoom "id")));
      try (unfold importStep; cbn [tagStore importedCount];
           split; [lia|]; split; [lia|];
           intros k; exists []; rewrite app_nil_r; reflexivity);
      (eapply importStep_trans; [|apply importTags_step];
       unfold importStep; cbn [tagStore importedCount];
       rewrite storeSize_declare; split; [lia|]; split; [lia|];
       intros k; rewrite tagsOf_declare; exists []; rewrite app_nil_r;
       reflexivity).
  - unfold importStep. cbn [tagStore importedCount].
    split; [lia|]. split; [lia|].
    intros k. exists []. rewrite app_nil_r. reflexivity.
  - unfold importStep. cbn [tagStore importedCount].
    split; [lia|]. split; [lia|].
    intros k. exists []. rewrite app_nil_r. reflexivity.
Qed.

Lemma importEntries_step (env : Env) (st : State) (roomReference : option value)
    (entries : list (string * value)) :
  forall acc, importStep acc (importEntries env st roomReference acc entries).
Proof.
  induction entries as [|entry rest IH]; intros acc; simpl;
    [apply importStep_refl|].
  destruct (thrown (importEntry env st roomReference acc entry)).
  - apply importEntry_step.
  - eapply importStep_trans; [apply importEntry_step | apply IH].
Qed.

Lemma createSearchIndex_customTags (st : State) :
  customTags (createSearchIndex st) = customTags st.
Proof.
  destruct (createSearchIndex_shape st) as [->|[items ->]]; reflexivity.
Qed.

(** X19. An import of custom tags never removes or reorders a tag: for
    every room the tags stored before are followed by the tags added.
    The counter of imported tags is exactly the number of tags added to
    the store, also when an exception stopped the import half-way; the
    rooms are untouched. *)
Theorem importCustomTags_accounting
    (env : Env) (text : string) (st st' : State) (result : TagImport) :
  importCustomTags env text st = (st', Some result) ->
  processedData st' = processedData st
  /\ storeSize (customTags st') = storeSize (customTags st) + importedCount result
  /\ forall key, exists added,
       tagsOf (customTags st') key = tagsOf (customTags st) key ++ added.
Proof.
  unfold importCustomTags. intros H.
  destruct (Json.parse text) as [importData|]; [|discriminate].
  destruct (importCustomTagsData env st importData) as [r|] eqn:E;
    [|discriminate].
  injection H as <- <-.
  pose proof E as E'. apply importCustomTagsData_inv in E' as [t [_ ->]].
  match goal with |- context [importEntries env st ?ref ?acc ?entries] =>
    pose proof (importEntries_step env st ref entries acc) as [S [_ P]];
    set (r := importEntries env st ref acc entries) in *
  end.
  cbn [tagStore importedCount] in S, P.
  assert (C : customTags (if thrown r
                          then set_customTags (tagStore r) st
                          else createSearchIndex (set_customTags (tagStore r) st))
              = tagStore r).
  { destruct (thrown r); [reflexivity|]. rewrite createSearchIndex_customTags.
    reflexivity. }
  assert (D : processedData (if thrown r
                             then set_customTags (tagStore r) st
                             else createSearchIndex (set_customTags (tagStore r) st))
              = processedData st).
  { destruct (thrown r); [reflexivity|]. rewrite createSearchIndex_processedData.
    reflexivity. }
  rewrite C, D. split; [reflexivity|]. split; [lia | exact P].
Qed.

Lemma importCustomTags_accounting_witness :
  exists st' result,
    importCustomTags Example.env (Json.stringify Example.icuFile)
      Example.taggedState = (st', Some result)
    /\ storeSize (customTags st')
       = storeSize (customTags Example.taggedState) + importedCount result.
Proof.
  destruct (importCustomTags Example.env (Json.stringify Example.icuFile)
              Example.taggedState) as [st' [result|]] eqn:E;
    [|vm_compute in E; discriminate E].
  exists st', result. split; [reflexivity|].
  apply (importCustomTags_accounting Example.env
           (Json.stringify Example.icuFile) Example.taggedState st' result E).
Defined.

Lemma importTags_skipped (env : Env) (key : string) (tagsToImport : list value) :
  forall acc,
    skippedCount (importTags env key acc tagsToImport) = skippedCount acc.
Proof.
  induction tagsToImport as [|x l IH]; intros acc; simpl; [reflexivity|].
  destruct (richTagOf env x); [|reflexivity].
  match goal with |- context [negb ?b] => destruct b end; simpl negb; cbv iota;
    rewrite IH; reflexivity.
Qed.

Lemma importEntry_skipped (env : Env) (st : State) (roomReference : option value)
    (acc : TagImport) (entry : string * value) :
  thrown (importEntry env st roomReference acc entry) = false ->
  skippedCount (importEntry env st roomReference acc entry)
  = skippedCount acc
    + (if entryUnresolved st roomReference entry then 1 else 0).
Proof.
  unfold importEntry, entryUnresolved, entryRead, entryRef.
  destruct entry as [roomIdFromFile tagsToImport]. cbn [fst snd].
  destruct tagsToImport as [| | | |[|t ts]| |]; cbn [andb]; try lia.
  destruct (resolveTargetRoom st roomIdFromFile _) as [[targetRoom|]|].
  - destruct (Js.read (tagStore acc) (Js.toStr (Js.get targetRoom "id")));
      try (intros H; discriminate H);
      intros _; rewrite importTags_skipped; cbn [skippedCount]; lia.
  - intros _. cbn [skippedCount]. lia.
  - intros H. discriminate H.
Qed.

Lemma importEntries_skipped (env : Env) (st : State) (roomReference : option value)
    (entries : list (string * value)) :
  forall acc,
    thrown (importEntries env st roomReference acc entries) = false ->
    skippedCount (importEntries env st roomReference acc entries)
    = skippedCount acc
      + List.length (filter (entryUnresolved st roomReference) entries).
Proof.
  induction entries as [|entry rest IH]; intros acc Ht; simpl in *; [lia|].
  destruct (thrown (importEntry env st roomReference acc entry)) eqn:E;
    [congruence|].
  rewrite (IH _ Ht), (importEntry_skipped env st roomReference acc entry E).
  destruct (entryUnresolved st roomReference entry); simpl; lia.
Qed.

(** X20. The counter of skipped entries counts exactly the entries of
    the file that hold a non-empty list of tags and for which none of the
    four look-ups finds a room; an entry whose value is not an array, or
    is an empty array, is neither imported nor counted. *)
Theorem importCustomTagsData_skipped
    (env : Env) (st : State) (importData tagsByRoom : value) (result : TagImport) :
  importCustomTagsData env st importData = Some result ->
  thrown result = false ->
  Js.prop importData "customTags" = Some tagsByRoom ->
  skippedCount result
  = List.length
      (filter (entryUnresolved st (Js.prop importData "roomReference"))
         (Js.entries tagsByRoom)).
Proof.
  intros H Ht Hp. apply importCustomTagsData_inv in H as [t [Hp' ->]].
  rewrite Hp in Hp'. injection Hp' as <-.
  rewrite (importEntries_skipped env st _ _ _ Ht). reflexivity.
Qed.

Lemma importCustomTagsData_skipped_witness :
  exists result,
    importCustomTagsData Example.env Example.state strayFile = Some result
    /\ skippedCount result = 1.
Proof.
  destruct (importCustomTagsData Example.env Example.state strayFile)
    as [result|] eqn:E; [|vm_compute in E; discriminate E].
  exists result. split; [reflexivity|].
  rewrite (importCustomTagsData_skipped Example.env Example.state strayFile
             (VObj [("0", VArr []); ("77", VArr [VStr "Lost"])]) result E).
  - vm_compute. reflexivity.
  - vm_compute in E. injection E as <-. reflexivity.
  - reflexivity.
Defined.

(** ** Custom tag export *)

Lemma keys_replace {A} (k : string) (v : A) (o : jsobj A) :
  Js.keys (Js.replace k v o) = Js.keys o.
Proof.
  unfold Js.keys. induction o as [|[k0 v0] o IH]; simpl; [reflexivity|].
  destruct (String.eqb k0 k); simpl; [reflexivity | rewrite IH; reflexivity].
Qed.

Lemma has_keys {A B} (o : jsobj A) (o' : jsobj B) (k : string) :
  Js.keys o = Js.keys o' -> Js.has o k = Js.has o' k.
Proof.
  unfold Js.keys, Js.has. revert o'.
  induction o as [|[k0 v0] o IH]; intros [|[k1 v1] o'] H; simpl in *;
    try discriminate H; [reflexivity|].
  injection H as -> H. destruct (String.eqb k1 k); [reflexivity | apply IH, H].
Qed.

Lemma keys_replace_both {A B} (k : string) (v : A) (v' : B)
    (o : jsobj A) (o' : jsobj B) :
  Js.keys o = Js.keys o' -> Js.keys (Js.replace k v o) = Js.keys (Js.replace k v' o').
Proof. intros H. rewrite !keys_replace. exact H. Qed.

Lemma keys_insert_index {A B} (i : N) (k : string) (v : A) (v' : B)
    (o : jsobj A) (o' : jsobj B) :
  Js.keys o = Js.keys o' ->
  Js.keys (Js.insert_index i k v o) = Js.keys (Js.insert_index i k v' o').
Proof.
  unfold Js.keys. revert o'.
  induction o as [|[k0 v0] o IH]; intros [|[k1 v1] o'] H; simpl in *;
    try discriminate H; [reflexivity|].
  injection H as -> H.
  destruct (Js.array_index k1) as [j|]; [destruct (j <? i)%N|]; simpl;
    rewrite ?(IH o' H), ?H; reflexivity.
Qed.

Lemma keys_set {A B} (k : string) (v : A) (v' : B) (o : jsobj A) (o' : jsobj B) :
  Js.keys o = Js.keys o' -> Js.keys (Js.set k v o) = Js.keys (Js.set k v' o').
Proof.
  intros H. unfold Js.set. rewrite (has_keys o o' k H).
  destruct (Js.has o' k).
  - apply keys_replace_both. exact H.
  - destruct (Js.array_index k).
    + apply keys_insert_index. exact H.
    + unfold Js.keys in *. rewrite !map_app, H. reflexivity.
Qed.

Lemma exportEntry_exportedFrom (st : State) (acc acc' : obj * obj)
    (roomId : string) :
  exportedFrom st acc ->
  exportEntry st acc roomId = Some acc' ->
  exportedFrom st acc'.
Proof.
  intros [Hk Hall] H. unfold exportEntry in H. cbn [fst snd] in *.
  fold (byRawId st roomId) in H.
  destruct (byRawId st roomId) as [[room|]|] eqn:Er; [| |discriminate H].
  - destruct (tagsOf (customTags st) roomId) as [|tag tags] eqn:Et;
      [simpl in H; injection H as <-; split; assumption|].
    destruct (Js.is_prototype roomId); simpl in H.
    + injection H as <-. split; assumption.
    + injection H as <-. unfold exportedFrom. cbn [fst snd]. split.
      * apply keys_set. exact Hk.
      * intros k Hhas. destruct (String.eqb_spec roomId k) as [<-|Hne].
        -- exists room, tag, tags. rewrite !get_set_same. auto.
        -- rewrite has_set in Hhas.
           destruct (String.eqb_spec roomId k); [contradiction|].
           simpl in Hhas. destruct (Hall k Hhas) as [r [t [ts [H1 [H2 [H3 H4]]]]]].
           exists r, t, ts. rewrite !get_set_other by exact Hne. auto.
  - injection H as <-. split; assumption.
Qed.

Lemma exportEntries_exportedFrom (st : State) (roomIds : list string) :
  forall acc acc',
    exportedFrom st acc ->
    exportEntries st acc roomIds = Some acc' ->
    exportedFrom st acc'.
Proof.
  induction roomIds as [|roomId rest IH]; intros acc acc' Ha H; simpl in H.
  - injection H as <-. exact Ha.
  - destruct (exportEntry st acc roomId) as [acc1|] eqn:E; [|discriminate H].
    apply (IH acc1 acc' (exportEntry_exportedFrom st acc acc1 roomId Ha E) H).
Qed.

(** X21. The document written by [exportCustomTags] has the version
    "1.2" and the time of the call; its [customTags] and [roomReference]
    objects have the same keys, at least one; under each key stand the
    tags of the store for that key, not empty, and the reference block
    (room number, type, record number, building) of the room of the
    dataset whose id is the key. *)
Theorem exportCustomTags_document (st : State) (now : string) (doc : value) :
  exportCustomTags st now = Some (Some doc) ->
  exists tagsByRoom roomReference,
    doc = VObj [("version", VStr "1.2"); ("timestamp", VStr now);
                ("customTags", VObj tagsByRoom);
                ("roomReference", VObj roomReference)]
    /\ tagsByRoom <> []
    /\ exportedFrom st (tagsByRoom, roomReference).
Proof.
  unfold exportCustomTags. intros H.
  destruct (List.length (Js.keys (customTags st)) =? 0); [discriminate H|].
  destruct (exportEntries st ([], []) (Js.keys (customTags st)))
    as [[tagsByRoom roomReference]|] eqn:E; [|discriminate H].
  cbn [fst snd] in H.
  destruct tagsByRoom as [|entry more]; [discriminate H|].
  injection H as <-. exists (entry :: more), roomReference.
  split; [reflexivity|]. split; [discriminate|].
  apply (exportEntries_exportedFrom st (Js.keys (customTags st)) ([], []));
    [|exact E].
  split; [reflexivity|]. intros k Hk. discriminate Hk.
Qed.

Lemma exportCustomTags_document_witness :
  exists tagsByRoom roomReference,
    exportCustomTags Example.taggedState "2025-01-01T00:00:00.000Z"
    = Some (Some (VObj [("version", VStr "1.2");
                        ("timestamp", VStr "2025-01-01T00:00:00.000Z");
                        ("customTags", VObj tagsByRoom);
                        ("roomReference", VObj roomReference)]))
    /\ exportedFrom Example.taggedState (tagsByRoom, roomReference).
Proof.
  destruct (exportCustomTags Example.taggedState "2025-01-01T00:00:00.000Z")
    as [[doc|]|] eqn:E; try (vm_compute in E; discriminate E).
  destruct (exportCustomTags_document Example.taggedState _ doc E)
    as [t [r [-> [_ H]]]].
  exists t, r. split; [reflexivity | exact H].
Defined.

(** ** Custom tag export, then import *)

Lemma in_keys_has {A} (o : jsobj A) (k : string) :
  In k (Js.keys o) <-> Js.has o k = true.
Proof.
  unfold Js.keys, Js.has. induction o as [|[k0 v0] o IH]; simpl.
  - split; [intros [] | discriminate].
  - destruct (String.eqb_spec k0 k) as [->|Hne].
    + split; auto.
    + rewrite <- IH. split; [intros [H|H]; [contradiction | exact H] | auto].
Qed.

Lemma keys_insert_index_perm {A} (i : N) (k : string) (v : A) (o : jsobj A) :
  Permutation (Js.keys (Js.insert_index i k v o)) (k :: Js.keys o).
Proof.
  unfold Js.keys. induction o as [|[k0 v0] o IH]; simpl; [reflexivity|].
  destruct (Js.array_index k0) as [j|]; [destruct (j <? i)%N|]; simpl;
    try reflexivity.
  rewrite IH. apply perm_swap.
Qed.

Lemma keys_set_NoDup {A} (k : string) (v : A) (o : jsobj A) :
  NoDup (Js.keys o) -> NoDup (Js.keys (Js.set k v o)).
Proof.
  intros H. unfold Js.set. destruct (Js.has o k) eqn:E.
  - rewrite keys_replace. exact H.
  - assert (Hk : ~ In k (Js.keys o)).
    { rewrite in_keys_has. congruence. }
    destruct (Js.array_index k).
    + apply (Permutation_NoDup (l := k :: Js.keys o)).
      * symmetry. apply keys_insert_index_perm.
      * constructor; assumption.
    + unfold Js.keys in *. rewrite map_app. simpl.
      apply NoDup_app; [exact H | constructor; [intros [] | constructor] |].
      intros x Hx [<-|[]]. contradiction.
Qed.

Lemma get_In_NoDup {A} (o : jsobj A) (k : string) (v : A) :
  NoDup (Js.keys o) -> In (k, v) o -> Js.get o k = Some v.
Proof.
  unfold Js.keys. induction o as [|[k0 v0] o IH]; simpl; intros Hn Hin;
    [destruct Hin|].
  inversion Hn as [|? ? Hk Hn']; subst.
  destruct Hin as [E|Hin].
  - injection E as -> ->. rewrite String.eqb_refl. reflexivity.
  - destruct (String.eqb_spec k0 k) as [->|Hne]; [|apply IH; assumption].
    exfalso. apply Hk. apply in_map_iff. exists (k, v). auto.
Qed.

Lemma exportEntries_keys_NoDup (st : State) (roomIds : list string) :
  forall acc acc',
    NoDup (Js.keys (fst acc)) ->
    exportEntries st acc roomIds = Some acc' ->
    NoDup (Js.keys (fst acc')).
Proof.
  induction roomIds as [|roomId rest IH]; intros acc acc' Ha H; simpl in H.
  - injection H as <-. exact Ha.
  - destruct (exportEntry st acc roomId) as [acc1|] eqn:E; [|discriminate H].
    apply (IH acc1 acc'); [|exact H].
    unfold exportEntry in E. fold (byRawId st roomId) in E.
    destruct (byRawId st roomId) as [[room|]|]; [| |discriminate E].
    + destruct (_ && _); injection E as <-; [|exact Ha].
      cbn [fst]. apply keys_set_NoDup. exact Ha.
    + injection E as <-. exact Ha.
Qed.

Lemma importTags_objects (env : Env) (key : string) (tags : list obj) :
  forall acc,
    thrown (importTags env key acc (List.map VObj tags)) = thrown acc.
Proof.
  induction tags as [|t tags IH]; intros acc; simpl; [reflexivity|].
  match goal with |- context [negb ?b] => destruct b end; simpl negb; cbv iota;
    rewrite IH; reflexivity.
Qed.

Lemma findM_In {A} (p : A -> option bool) (l : list A) (x : A) :
  findM p l = Some (Some x) -> In x l.
Proof.
  induction l as [|y l IH]; simpl; [discriminate|].
  destruct (p y) as [[|]|]; [| |discriminate].
  - intros H. injection H as <-. left. reflexivity.
  - intros H. right. apply IH. exact H.
Qed.

(** The room an exported key stands for is found again by the import. *)
Lemma resolveTargetRoom_exported (st : State) (roomId : string) (room : obj) :
  byRawId st roomId = Some (Some room) ->
  exists target,
    resolveTargetRoom st roomId (Some (VObj (roomReferenceOf room)))
    = Some (Some target)
    /\ In target (processedData st).
Proof.
  intros H. rewrite resolveTargetRoom_order.
  unfold resolutionOrder, firstFound.
  destruct (byRecordNumber st (Some (VObj (roomReferenceOf room))))
    as [target|] eqn:E.
  - exists target. split; [reflexivity|].
    unfold byRecordNumber in E.
    destruct (Js.truthy _); [|discriminate E].
    apply find_some in E as [E _]. exact E.
  - rewrite H. exists room. split; [reflexivity|].
    apply (findM_In _ _ _ H).
Qed.

Lemma read_plain {A} (store : jsobj A) (key : string) :
  Js.inherited key = false -> Js.read store key <> Js.Inherited.
Proof.
  intros H. unfold Js.read. rewrite H. destruct (Js.get store key); discriminate.
Qed.

Lemma importEntries_exported (env : Env) (st : State) (roomReference : obj)
    (entries : list (string * value)) :
  (forall room, In room (processedData st) -> plainId room = true) ->
  (forall roomId v,
      In (roomId, v) entries ->
      exists room tags,
        byRawId st roomId = Some (Some room)
        /\ v = Shape.of_rooms tags
        /\ Js.lookup roomReference roomId = Some (VObj (roomReferenceOf room))) ->
  forall acc,
    thrown acc = false ->
    thrown (importEntries env st (Some (VObj roomReference)) acc entries) = false
    /\ skippedCount (importEntries env st (Some (VObj roomReference)) acc entries)
       = skippedCount acc.
Proof.
  intros Hplain.
  induction entries as [|[roomId v] rest IH]; intros Hall acc Ha;
    cbn [importEntries]; [auto|].
  destruct (Hall roomId v (or_introl eq_refl)) as [room [tags [Hr [-> Hg]]]].
  assert (Hrest : forall k x, In (k, x) rest ->
            exists room tags,
              byRawId st k = Some (Some room)
              /\ x = Shape.of_rooms tags
              /\ Js.lookup roomReference k = Some (VObj (roomReferenceOf room))).
  { intros k x Hin. apply Hall. right. exact Hin. }
  assert (Hstep :
            thrown (importEntry env st (Some (VObj roomReference)) acc
                      (roomId, Shape.of_rooms tags)) = false
            /\ skippedCount (importEntry env st (Some (VObj roomReference)) acc
                               (roomId, Shape.of_rooms tags))
               = skippedCount acc).
  { unfold importEntry, Shape.of_rooms.
    destruct tags as [|t ts]; [auto|].
    change (List.map VObj (t :: ts)) with (VObj t :: List.map VObj ts).
    cbn [Js.truthy Js.prop]. rewrite Hg.
    destruct (resolveTargetRoom_exported st roomId room Hr) as [target [-> Hin]].
    change (VObj t :: List.map VObj ts) with (List.map VObj (t :: ts)).
    pose proof (read_plain (tagStore acc) (Js.toStr (Js.get target "id"))) as Hp.
    specialize (Hplain target Hin). unfold plainId in Hplain.
    apply negb_true_iff in Hplain. specialize (Hp Hplain).
    destruct (Js.read (tagStore acc) (Js.toStr (Js.get target "id")));
      [| contradiction |];
      rewrite importTags_objects, importTags_skipped; auto. }
  destruct Hstep as [Ht Hs]. rewrite Ht.
  destruct (IH Hrest _ Ht) as [H1 H2]. split; [exact H1|]. rewrite H2. exact Hs.
Qed.

(** X22. The document written by [exportCustomTags], handed to the loop
    of [importCustomTags] on the store that wrote it, is read to its end:
    no entry throws, and no entry is skipped, since every exported key
    finds a room again, by the record number of its reference block or by
    the key itself.  The ids of the rooms are taken to be plain: a room
    whose id is the name of a property of [Object.prototype] (no merge
    gives such an id, a session file can) makes the import throw when it
    is the room found. *)
Theorem exportCustomTags_import_resolves
    (env : Env) (st : State) (now : string) (doc : value) :
  (forall room, In room (processedData st) -> plainId room = true) ->
  exportCustomTags st now = Some (Some doc) ->
  exists result,
    importCustomTagsData env st doc = Some result
    /\ thrown result = false
    /\ skippedCount result = 0.
Proof.
  intros Hplain H. unfold exportCustomTags in H.
  destruct (List.length (Js.keys (customTags st)) =? 0); [discriminate H|].
  destruct (exportEntries st ([], []) (Js.keys (customTags st)))
    as [[tagsByRoom roomReference]|] eqn:E; [|discriminate H].
  cbn [fst snd] in H.
  destruct (List.length (Js.keys tagsByRoom) =? 0); [discriminate H|].
  injection H as <-.
  assert (Hn : NoDup (Js.keys tagsByRoom)).
  { apply (exportEntries_keys_NoDup st (Js.keys (customTags st)) ([], [])
             (tagsByRoom, roomReference)); [constructor | exact E]. }
  assert (Hex : exportedFrom st (tagsByRoom, roomReference)).
  { apply (exportEntries_exportedFrom st (Js.keys (customTags st)) ([], []));
      [|exact E].
    split; [reflexivity|]. intros k Hk. discriminate Hk. }
  destruct Hex as [Hk Hall]. cbn [fst snd] in Hk, Hall.
  unfold importCustomTagsData.
  cbn [Js.member Js.prop Js.lookup Js.get String.eqb Ascii.eqb Bool.eqb
         Js.truthy Js.entries].
  eexists. split; [reflexivity|].
  apply importEntries_exported; [exact Hplain | | reflexivity].
  intros roomId v Hin.
  assert (Hhas : Js.has tagsByRoom roomId = true).
  { apply in_keys_has. unfold Js.keys. apply in_map_iff.
    exists (roomId, v). auto. }
  destruct (Hall roomId Hhas) as [room [tag [tags [H1 [H2 [H3 H4]]]]]].
  exists room, (tag :: tags). split; [exact H1|].
  split; [|unfold Js.lookup; rewrite H4; reflexivity].
  rewrite (get_In_NoDup tagsByRoom roomId v Hn Hin) in H3.
  injection H3 as ->. reflexivity.
Qed.

Lemma exportCustomTags_import_resolves_witness :
  exists doc result,
    exportCustomTags Example.taggedState "2025-01-01T00:00:00.000Z"
    = Some (Some doc)
    /\ importCustomTagsData Example.env Example.taggedState doc = Some result
    /\ thrown result = false
    /\ skippedCount result = 0.
Proof.
  destruct (exportCustomTags Example.taggedState "2025-01-01T00:00:00.000Z")
    as [[doc|]|] eqn:E; try (vm_compute in E; discriminate E).
  assert (Hplain : forall room,
             In room (processedData Example.taggedState) -> plainId room = true).
  { intros room Hin. vm_compute in Hin.
    destruct Hin as [<-|[<-|[]]]; reflexivity. }
  destruct (exportCustomTags_import_resolves Example.env Example.taggedState
              _ doc Hplain E) as [result H].
  exists doc, result. split; [reflexivity | exact H].
Defined.

(** ** Session files *)

(** X23. [exportSession] writes a file unless the store is empty: it
    exports nothing exactly when there is no room and no key in the
    custom tags; the encoding itself never fails. *)
Theorem exportSession_refuses_empty (now : string) (st : State) :
  exportSession now st = None
  <-> processedData st = [] /\ customTags st = [].
Proof.
  unfold exportSession, Js.keys.
  destruct (decodeSession_encodeSession
              (Json.stringify (sessionDocument now st))) as [c [Hc _]].
  rewrite Hc. clear Hc.
  destruct (processedData st) as [|room rooms];
    destruct (customTags st) as [|entry entries];
    cbn [List.length List.map Nat.eqb andb];
    split; try discriminate; auto; intros [H1 H2]; discriminate.
Qed.

Lemma enc_base64_char (n : nat) : n < 64 -> base64_char (Base64.enc n) = true.
Proof. intros H. unfold base64_char. rewrite (dec_enc n H). reflexivity. Qed.

Lemma btoa_base64_bounded (n : nat) :
  forall s, String.length s <= n ->
    Str.forallb base64_char (Base64.btoa s) = true
    /\ String.length (Base64.btoa s) mod 4 = 0.
Proof.
  induction n as [n IH] using lt_wf_ind. intros s Hn.
  destruct s as [|a [|b [|c r]]].
  - split; reflexivity.
  - pose proof (code_bound a) as Ha. cbn [Base64.btoa].
    assert (Str.code a / 4 < 64) by (apply Nat.Div0.div_lt_upper_bound; lia).
    pose proof (Nat.mod_upper_bound (Str.code a) 4).
    cbn [Str.forallb String.length].
    rewrite !enc_base64_char by lia. split; reflexivity.
  - pose proof (code_bound a) as Ha. pose proof (code_bound b) as Hb.
    cbn [Base64.btoa].
    assert (Str.code a / 4 < 64) by (apply Nat.Div0.div_lt_upper_bound; lia).
    assert (Str.code b / 16 < 16) by (apply Nat.Div0.div_lt_upper_bound; lia).
    pose proof (Nat.mod_upper_bound (Str.code a) 4).
    pose proof (Nat.mod_upper_bound (Str.code b) 16).
    cbn [Str.forallb String.length].
    rewrite !enc_base64_char by lia. split; reflexivity.
  - pose proof (code_bound a) as Ha. pose proof (code_bound b) as Hb.
    pose proof (code_bound c) as Hc.
    cbn [Base64.btoa].
    assert (Str.code a / 4 < 64) by (apply Nat.Div0.div_lt_upper_bound; lia).
    assert (Str.code b / 16 < 16) by (apply Nat.Div0.div_lt_upper_bound; lia).
    assert (Str.code c / 64 < 4) by (apply Nat.Div0.div_lt_upper_bound; lia).
    pose proof (Nat.mod_upper_bound (Str.code a) 4).
    pose proof (Nat.mod_upper_bound (Str.code b) 16).
    pose proof (Nat.mod_upper_bound (Str.code c) 64).
    destruct (IH (String.length r)) with (s := r) as [I1 I2];
      [simpl in Hn; lia | lia |].
    cbn [Str.forallb String.length].
    rewrite !enc_base64_char by lia. rewrite I1. split; [reflexivity|].
    change (S (S (S (S (String.length (Base64.btoa r))))))
      with (4 + String.length (Base64.btoa r)).
    rewrite <- Nat.Div0.add_mod_idemp_r, I2. reflexivity.
Qed.

(** X24. The text of an exported session is plain base64: every
    character is a letter, a digit, [+], [/] or the padding [=], and the
    length is a multiple of four. *)
Theorem exportSession_base64 (now : string) (st : State) (compressedData : string) :
  exportSession now st = Some compressedData ->
  Str.forallb base64_char compressedData = true
  /\ String.length compressedData mod 4 = 0.
Proof.
  unfold exportSession, encodeSession. intros H.
  destruct (_ && _); [discriminate H|].
  destruct (Uri.unescape _) as [bytes|]; [|discriminate H].
  injection H as <-.
  apply (btoa_base64_bounded (String.length bytes)). lia.
Qed.

Lemma exportSession_base64_witness :
  exists compressedData,
    exportSession "2025-01-01T00:00:00.000Z" Example.taggedState
    = Some compressedData
    /\ Str.forallb base64_char compressedData = true.
Proof.
  destruct (decodeSession_encodeSession
              (Json.stringify
                 (sessionDocument "2025-01-01T00:00:00.000Z" Example.taggedState)))
    as [c [Hc _]].
  assert (E : exportSession "2025-01-01T00:00:00.000Z" Example.taggedState
              = Some c).
  { unfold exportSession.
    assert (R : (List.length (processedData Example.taggedState) =? 0) = false)
      by (vm_compute; reflexivity).
    rewrite R. exact Hc. }
  exists c. split; [exact E|].
  apply (exportSession_base64 "2025-01-01T00:00:00.000Z" Example.taggedState c E).
Defined.
(** ** Session round trip: the settings *)

Lemma or_else_array (l : list value) (default : value) :
  Js.or_else (Some (VArr l)) default = VArr l.
Proof. reflexivity. Qed.

Lemma or_else_object (o : obj) (default : value) :
  Js.or_else (Some (VObj o)) default = VObj o.
Proof. reflexivity. Qed.

(** X25. The settings of a session go through the file as well: the
    import of an exported session restores the search query and the active
    filters, takes "desktop" and 10 in place of a view mode or a page size
    that is falsy (a page size of 0, "show all", comes back as 10), and
    resets the page to 1.  What the file does not carry, the unmapped
    counter and the user's abbreviation table, stays as it was in the
    running store, and the file is added to the list of loaded files. *)
Theorem session_round_trip_settings (env : Env) (now fileName : string)
    (st st0 : State) :
  wf_session st = true ->
  processedData st <> [] \/ customTags st <> [] ->
  exists compressedData st',
    exportSession now st = Some compressedData
    /\ importSession env fileName compressedData st0 = Restored st'
    /\ searchQuery st' = searchQuery st
    /\ tags (activeFilters st') = tags (activeFilters st)
    /\ building (activeFilters st')
       = option_map normalize (building (activeFilters st))
    /\ floor (activeFilters st') = option_map normalize (floor (activeFilters st))
    /\ currentViewMode st'
       = Js.or_else (Some (normalize (currentViewMode st))) (VStr "desktop")
    /\ resultsPerPage st'
       = Js.or_else (Some (normalize (resultsPerPage st))) (VNum 10)
    /\ currentPage st' = 1%Z
    /\ unmappedAbbreviations st' = unmappedAbbreviations st0
    /\ customAbbreviationMappings st' = customAbbreviationMappings st0
    /\ loadedFiles st'
       = loadedFiles st0
         ++ [[("name", VStr fileName); ("type", VStr "session");
              ("status", VStr "processed")]].
Proof.
  intros Hwf Hne.
  destruct (decodeSession_encodeSession (Json.stringify (sessionDocument now st)))
    as [compressedData [He Hd]].
  pose proof (numeric_sessionDocument now st Hwf) as Hnum.
  apply wf_session_parts in Hwf
    as [Hr [Hc [Ht [Hs [Hbc [Hb [Hf [Hv Hp]]]]]]]].
  destruct (as_rooms_normalize (processedData st)) as [rooms Hrooms].
  assert (Hcustom : exists custom,
             Shape.as_dict (Shape.as_array Shape.as_obj)
               (normalize (Shape.of_dict Shape.of_rooms (customTags st)))
             = Some custom).
  { rewrite normalize_of_dict by (intros; reflexivity || exact Hc).
    apply as_dict_some. intros l. apply as_rooms_normalize. }
  destruct Hcustom as [custom Hcustom].
  assert (N3 : normalize (Shape.of_dict Shape.of_strings (staffTags st))
               = Shape.of_dict Shape.of_strings (staffTags st)).
  { apply normalize_wf.
    - rewrite wf_of_dict, Hs. cbn [andb].
      apply forallb_forall. intros [k l] _. apply wf_of_strings.
    - rewrite json_of_dict. apply forallb_forall. intros [k l] _.
      apply json_of_strings. }
  assert (Hq : Shape.as_string
                 (Js.or_else (Some (VStr (searchQuery st))) (VStr EmptyString))
               = Some (searchQuery st)).
  { destruct (searchQuery st); reflexivity. }
  destruct (settings_of_document st
              [("processedData", normalize (Shape.of_rooms (processedData st)));
               ("customTags",
                normalize (Shape.of_dict Shape.of_rooms (customTags st)));
               ("staffTags",
                normalize (Shape.of_dict Shape.of_strings (staffTags st)));
               ("buildingColors", normalize (VObj (buildingColors st)));
               ("activeFilters", normalize (Shape.of_filters (activeFilters st)));
               ("searchQuery", VStr (searchQuery st))] eq_refl eq_refl)
    as [Sv Sp].
  destruct (importSession_document env fileName compressedData
              (Json.stringify (sessionDocument now st)) _ _ st0
              rooms custom (staffTags st)
              (Js.literal
                 (List.map (fun kv : string * value => (fst kv, normalize (snd kv)))
                    (written (buildingColors st))))
              {| building := option_map normalize (building (activeFilters st));
                 floor := option_map normalize (floor (activeFilters st));
                 tags := tags (activeFilters st) |}
              (searchQuery st)
              Hd
              (eq_trans (parse_stringify _ Hnum)
                 (f_equal Some (normalize_sessionDocument now st)))
              eq_refl eq_refl)
    as [st' [Hi [_ [Hfl [Hsq [Hvm [Hrp [Hpg [Hu [Hm Hl]]]]]]]]]].
  - change (Shape.as_array Shape.as_obj
              (Js.or_else
                 (Some (normalize (Shape.of_rooms (processedData st)))) (VArr []))
            = Some rooms).
    unfold Shape.of_rooms in *. cbn [normalize] in *.
    rewrite or_else_array. exact Hrooms.
  - change (Shape.as_dict (Shape.as_array Shape.as_obj)
              (Js.or_else
                 (Some (normalize (Shape.of_dict Shape.of_rooms (customTags st))))
                 (VObj []))
            = Some custom).
    rewrite normalize_of_dict in * by (intros; reflexivity || exact Hc).
    unfold Shape.of_dict in *. rewrite or_else_object. exact Hcustom.
  - change (Shape.as_dict (Shape.as_array Shape.as_string)
              (Js.or_else
                 (Some (normalize (Shape.of_dict Shape.of_strings (staffTags st))))
                 (VObj []))
            = Some (staffTags st)).
    rewrite N3. unfold Shape.of_dict at 1. cbn [Js.or_else Js.truthy].
    apply (as_dict_of_dict (Shape.as_array Shape.as_string) Shape.of_strings).
    intros l. apply mapM_as_string.
  - change (Shape.as_obj
              (Js.or_else (Some (normalize (VObj (buildingColors st)))) (VObj []))
            = Some (Js.literal
                      (List.map
                         (fun kv : string * value => (fst kv, normalize (snd kv)))
                         (written (buildingColors st))))).
    rewrite normalize_members. reflexivity.
  - change (Shape.as_filters
              (Js.or_else (Some (normalize (Shape.of_filters (activeFilters st))))
                 defaultFilters)
            = Some {| building := option_map normalize (building (activeFilters st));
                      floor := option_map normalize (floor (activeFilters st));
                      tags := tags (activeFilters st) |}).
    apply as_filters_of_filters_explicit; assumption.
  - exact Hq.
  - exists compressedData, st'.
    split.
    { unfold exportSession.
      destruct (processedData st) as [|r rs] eqn:Er;
        [destruct (customTags st) as [|t ts] eqn:Et|];
        [destruct Hne as [H|H]; contradiction | exact He | exact He]. }
    rewrite Hfl. cbn [tags building floor].
    rewrite Hvm, Hrp, Sv, Sp. repeat split; assumption.
Qed.

Lemma session_round_trip_settings_witness :
  wf_session Example.filteredState = true
  /\ exists compressedData st',
       exportSession "2025-01-01T00:00:00.000Z" Example.filteredState
       = Some compressedData
       /\ importSession Example.env "session.umsess" compressedData initialState
          = Restored st'
       /\ searchQuery st' = "41"
       /\ tags (activeFilters st') = ["Imaging"]
       /\ currentPage st' = 1%Z.
Proof.
  split; [vm_compute; reflexivity|].
  destruct (session_round_trip_settings Example.env "2025-01-01T00:00:00.000Z"
              "session.umsess" Example.filteredState initialState)
    as [c [st' [H1 [H2 [H3 [H4 [_ [_ [_ [_ [H5 _]]]]]]]]]]].
  - vm_compute. reflexivity.
  - left. intros H. vm_compute in H. discriminate H.
  - exists c, st'. repeat split; assumption.
Defined.

(** ** Pagination *)

Lemma le_ceil_div (p a n : Z) :
  (0 < n)%Z -> ((p <=? ceil_div a n) = ((p - 1) * n <? a))%Z.
Proof.
  intros Hn. unfold ceil_div.
  pose proof (Z.div_mod (- a) n ltac:(lia)) as E.
  pose proof (Z.mod_pos_bound (- a) n Hn) as B.
  destruct (Z.leb_spec p (- (- a / n))), (Z.ltb_spec ((p - 1) * n) a);
    try reflexivity; exfalso; nia.
Qed.

(** The pages of a page size that is an integer [n], not 0. *)
Lemma totalPagesOf_integer (totalItems : nat) (n : Z) :
  n <> 0%Z ->
  totalPagesOf totalItems (VNum n) = Pages (ceil_div (Z.of_nat totalItems) n).
Proof.
  intros Hn. unfold totalPagesOf. cbn [Js.strict_eq Num.of_value].
  destruct (Z.eqb_spec n 0) as [E|_]; [contradiction|].
  unfold Num.of_Z.
  destruct (Z.eqb_spec (Z.abs n) 0) as [E|_]; [lia|].
  cbn [Z.leb Z.compare]. do 2 f_equal.
  destruct (Z.ltb_spec n 0); lia.
Qed.

Lemma goToPage_positive_size (st : State) (pageNumber n : Z) :
  resultsPerPage st = VNum n ->
  (0 < n)%Z ->
  goToPage pageNumber st
  = if ((1 <=? pageNumber)
        && ((pageNumber - 1) * n <? Z.of_nat (List.length (currentFilteredData st))))%Z
    then set_currentPage pageNumber st
    else st.
Proof.
  intros Hr Hn. unfold goToPage. rewrite Hr, totalPagesOf_integer by lia.
  cbn [Js.strict_eq].
  destruct (Z.eqb_spec n 0) as [->|Hne]; [lia|]. cbn [andb].
  cbn [le_pages]. rewrite le_ceil_div by lia. reflexivity.
Qed.

Lemma goToPage_other_sizes (st : State) (pageNumber n : Z) :
  resultsPerPage st = VNum n ->
  (n <= 0)%Z ->
  goToPage pageNumber st
  = if ((n =? 0) && (pageNumber =? 1))%Z then set_currentPage pageNumber st else st.
Proof.
  intros Hr Hn. unfold goToPage. rewrite Hr.
  cbn [Js.strict_eq].
  destruct (Z.eqb_spec n 0) as [->|Hne].
  - destruct (Z.eqb_spec pageNumber 1) as [->|Hp]; reflexivity.
  - rewrite totalPagesOf_integer by exact Hne.
    cbn [andb le_pages].
    destruct (Z.leb_spec 1 pageNumber); [|reflexivity]. cbn [andb].
    destruct (Z.leb_spec pageNumber
                (ceil_div (Z.of_nat (List.length (currentFilteredData st))) n))
      as [H1|H1]; [|reflexivity].
    exfalso. unfold ceil_div in H1.
    assert (E : (- Z.of_nat (List.length (currentFilteredData st)) / n
                 = Z.of_nat (List.length (currentFilteredData st)) / - n)%Z).
    { rewrite <- (Z.div_opp_opp _ n) by exact Hne. rewrite Z.opp_involutive.
      reflexivity. }
    rewrite E in H1.
    pose proof (Z.div_pos (Z.of_nat (List.length (currentFilteredData st)))
                  (- n)%Z).
    lia.
Qed.

(** X26. With a page size that is a number, [goToPage] moves to the page
    asked for in two cases only.  With a positive page size: when the
    page holds a room of the current result, that is, the page number is
    at least 1 and the rooms of the pages before it do not exhaust the
    result (with an empty result no page is accepted, not even page 1).
    With the page size 0 ("show all"): when the page is page 1.  Any other
    request, and every request under a negative page size, leaves the
    store as it is. *)
Theorem goToPage_in_range (st : State) (pageNumber n : Z) :
  resultsPerPage st = VNum n ->
  goToPage pageNumber st
  = if (((n =? 0) && (pageNumber =? 1))
        || ((0 <? n) && (1 <=? pageNumber)
            && ((pageNumber - 1) * n
                <? Z.of_nat (List.length (currentFilteredData st)))))%Z
    then set_currentPage pageNumber st
    else st.
Proof.
  intros Hr. destruct (Z.ltb_spec 0 n) as [Hn|Hn].
  - rewrite (goToPage_positive_size st pageNumber n Hr Hn).
    destruct (Z.eqb_spec n 0); [lia|]. reflexivity.
  - rewrite (goToPage_other_sizes st pageNumber n Hr Hn).
    rewrite andb_false_l, orb_false_r. reflexivity.
Qed.

Lemma goToPage_in_range_witness :
  currentPage (goToPage 1 displayedState) = 1%Z
  /\ goToPage 2 displayedState = displayedState.
Proof.
  split.
  - rewrite (goToPage_in_range displayedState 1 10); reflexivity.
  - rewrite (goToPage_in_range displayedState 2 10); reflexivity.
Defined.

(** ** The autocomplete box *)

Lemma In_firstn {A} (n : nat) (l : list A) (x : A) : In x (firstn n l) -> In x l.
Proof.
  revert l. induction n as [|n IH]; intros [|y l]; simpl; try tauto.
  intros [->|H]; auto.
Qed.

Lemma NoDup_firstn {A} (n : nat) (l : list A) : NoDup l -> NoDup (firstn n l).
Proof.
  revert l. induction n as [|n IH]; intros [|y l] H; simpl; try constructor.
  - inversion H as [|? ? Hy Hl]; subst. intros Hin. apply Hy.
    apply (In_firstn n l y Hin).
  - inversion H; subst. apply IH. assumption.
Qed.

Lemma NoDup_filter' {A} (p : A -> bool) (l : list A) :
  NoDup l -> NoDup (filter p l).
Proof.
  induction 1 as [|x l Hx Hl IH]; simpl; [constructor|].
  destruct (p x); [|exact IH]. constructor; [|exact IH].
  rewrite filter_In. tauto.
Qed.

Lemma startsWith_includes (s p : string) :
  Str.startsWith s p = true -> Str.includes s p = true.
Proof.
  unfold Str.startsWith. intros H.
  destruct s; cbn [Str.includes]; rewrite H; reflexivity.
Qed.

Lemma prefix_refl (s : string) : String.prefix s s = true.
Proof. induction s as [|c s IH]; simpl; [reflexivity|].
  destruct (ascii_dec c c); [exact IH | contradiction]. Qed.

(** X27. The autocomplete box shows at most ten suggestions.  Each is a
    non-empty entry of the vocabulary that contains the query, case
    ignored; when the query starts with a digit each one starts with the
    query.  No suggestion is shown twice as long as the vocabulary holds
    no entry twice. *)
Theorem updateAutocomplete_matches (st : State) (query : string) :
  List.length (updateAutocomplete st query) <= 10
  /\ (forall m, In m (updateAutocomplete st query) ->
        In m (autocompleteItems st)
        /\ m <> EmptyString
        /\ Str.includes (Str.toLowerCase m) (Str.toLowerCase query) = true
        /\ (Str.starts_with_digit query = true ->
            Str.startsWith (Str.toLowerCase m) (Str.toLowerCase query) = true))
  /\ (NoDup (autocompleteItems st) -> NoDup (updateAutocomplete st query)).
Proof.
  unfold updateAutocomplete.
  set (lowerQuery := Str.toLowerCase query).
  set (stringItems := filter (fun item => 0 <? String.length item)
                        (autocompleteItems st)).
  assert (Hitem : forall m, In m stringItems ->
                    In m (autocompleteItems st) /\ m <> EmptyString).
  { intros m Hm. apply filter_In in Hm as [Hm Hl]. split; [exact Hm|].
    intros ->. discriminate Hl. }
  assert (Hnd : NoDup (autocompleteItems st) -> NoDup stringItems).
  { apply NoDup_filter'. }
  destruct (String.eqb query EmptyString || (String.length query <? 1)).
  { split; [simpl; lia|]. split; [intros m []|]. intros _. constructor. }
  destruct (Str.starts_with_digit query).
  - split; [rewrite length_firstn; lia|]. split.
    + intros m Hm. apply In_firstn, filter_In in Hm as [Hm Hp].
      destruct (Hitem m Hm) as [H1 H2].
      assert (Hs : Str.startsWith (Str.toLowerCase m) lowerQuery = true).
      { apply orb_true_iff in Hp as [Hp|Hp]; [exact Hp|].
        apply String.eqb_eq in Hp. rewrite Hp. apply prefix_refl. }
      split; [exact H1|]. split; [exact H2|].
      split; [apply startsWith_includes; exact Hs | intros _; exact Hs].
    + intros H. apply NoDup_firstn, NoDup_filter', Hnd, H.
  - split; [rewrite length_app, !length_firstn; lia|]. split.
    + intros m Hm. apply in_app_iff in Hm as [Hm|Hm];
        apply In_firstn, filter_In in Hm as [Hm Hp];
        destruct (Hitem m Hm) as [H1 H2].
      * split; [exact H1|]. split; [exact H2|].
        split; [apply startsWith_includes; exact Hp | discriminate].
      * apply andb_prop in Hp as [_ Hp].
        split; [exact H1|]. split; [exact H2|].
        split; [exact Hp | discriminate].
    + intros H. apply NoDup_app.
      * apply NoDup_firstn, NoDup_filter', Hnd, H.
      * apply NoDup_firstn, NoDup_filter', Hnd, H.
      * intros m H1 H2.
        apply In_firstn, filter_In in H1 as [_ H1].
        apply In_firstn, filter_In in H2 as [_ H2].
        rewrite H1 in H2. discriminate H2.
Qed.

(** ** The tag dialog *)

Lemma someSameName_false (name : option value) (tags : list obj) :
  someSameName name tags = Some false ->
  tags = []
  \/ exists n, Js.toLowerCase name = Some n
               /\ forall tag, In tag tags ->
                    exists a, Js.toLowerCase (Js.get tag "name") = Some a
                              /\ a <> n.
Proof.
  induction tags as [|tag rest IH]; simpl; intros H; [left; reflexivity|].
  right.
  destruct (Js.toLowerCase (Js.get tag "name")) as [a|] eqn:Ea; [|discriminate H].
  destruct (Js.toLowerCase name) as [b|] eqn:Eb; [|discriminate H].
  destruct (String.eqb_spec a b) as [->|Hne]; [discriminate H|].
  exists b. split; [reflexivity|].
  intros t [<-|Hin]; [exists a; auto|].
  destruct (IH H) as [->|[n [En Hall]]]; [destruct Hin|].
  injection En as <-. apply Hall. exact Hin.
Qed.

(** The dialog on a room whose tags the store holds, or none. *)
Lemma push_distinct_names (roomId : string) (newRichTag : obj)
    (store : jsobj (list obj)) :
  let declared := if Js.has store roomId then store else Js.set roomId [] store in
  let result :=
    match someSameName (Js.get newRichTag "name") (tagsOf declared roomId) with
    | None => (declared, ModalThrew)
    | Some true => (declared, DuplicateName)
    | Some false =>
        (Js.set roomId (tagsOf declared roomId ++ [newRichTag]) declared, TagAdded)
    end in
  (forall key, NoDup (lowerNames (tagsOf store key)) ->
               NoDup (lowerNames (tagsOf (fst result) key)))
  /\ (forall key, Some key <> Some roomId ->
                  tagsOf (fst result) key = tagsOf store key)
  /\ (forall key, snd result <> TagAdded ->
                  tagsOf (fst result) key = tagsOf store key)
  /\ (snd result = TagAdded ->
      exists key newRichTag,
        Some roomId = Some key
        /\ tagsOf (fst result) key = tagsOf store key ++ [newRichTag]).
Proof.
  cbv zeta.
  match goal with
  | |- context [someSameName ?n ?l] =>
      destruct (someSameName n l) as [[|]|] eqn:Es
  end; cbn [fst snd].
  - split; [intros key; rewrite tagsOf_declare; auto|].
    split; [intros key _; apply tagsOf_declare|].
    split; [intros key _; apply tagsOf_declare | intros H; discriminate H].
  - apply someSameName_false in Es. rewrite tagsOf_declare in Es.
    split; [|split; [|split]].
    + intros key Hn. rewrite tagsOf_set, !tagsOf_declare.
      destruct (String.eqb_spec roomId key) as [<-|Hne]; [|exact Hn].
      unfold lowerNames in *. rewrite map_app. simpl.
      apply NoDup_app; [exact Hn | constructor; [intros [] | constructor] |].
      intros x Hx [<-|[]].
      apply in_map_iff in Hx as [tag [Hx Hin]].
      destruct Es as [E|[n [En Hall]]]; [rewrite E in Hin; destruct Hin|].
      destruct (Hall tag Hin) as [a [Ea Hne]].
      congruence.
    + intros key Hk. rewrite tagsOf_set, !tagsOf_declare.
      destruct (String.eqb_spec roomId key) as [<-|Hne]; [congruence|reflexivity].
    + intros key Hk. contradiction.
    + intros _. exists roomId, newRichTag. split; [reflexivity|].
      rewrite tagsOf_set, String.eqb_refl, !tagsOf_declare. reflexivity.
  - split; [intros key; rewrite tagsOf_declare; auto|].
    split; [intros key _; apply tagsOf_declare|].
    split; [intros key _; apply tagsOf_declare | intros H; discriminate H].
Qed.

(** X28. The tag dialog keeps the names of the tags of a room distinct
    without regard to case: when the names of the stored tags differ
    pairwise in lower case, they still do after [addRichTagFromModal], for
    every room.  A tag is added at the end of the list of the open room
    only, and only when no stored tag has its name, case ignored; the
    tags of the other rooms are never touched. *)
Theorem addRichTagFromModal_distinct_names
    (env : Env) (room : option string) (form : TagForm)
    (store : jsobj (list obj)) :
  let result := addRichTagFromModal env room form store in
  (forall key, NoDup (lowerNames (tagsOf store key)) ->
               NoDup (lowerNames (tagsOf (fst result) key)))
  /\ (forall key, Some key <> room ->
                  tagsOf (fst result) key = tagsOf store key)
  /\ (forall key, snd result <> TagAdded ->
                  tagsOf (fst result) key = tagsOf store key)
  /\ (snd result = TagAdded ->
      exists key newRichTag,
        room = Some key
        /\ tagsOf (fst result) key = tagsOf store key ++ [newRichTag]).
Proof.
  cbv zeta. unfold addRichTagFromModal.
  destruct room as [roomId|];
    [|cbn [fst snd]; split; [auto|]; split; [auto|]; split; [auto|];
      intros H; discriminate H].
  destruct (String.eqb roomId EmptyString);
    [cbn [fst snd]; split; [auto|]; split; [auto|]; split; [auto|];
     intros H; discriminate H|].
  destruct (String.eqb (trimmedInput (tagNameInput form)) EmptyString);
    [cbn [fst snd]; split; [auto|]; split; [auto|]; split; [auto|];
     intros H; discriminate H|].
  cbv zeta.
  destruct (Js.read store roomId);
    [ apply push_distinct_names
    | cbn [fst snd]; split; [auto|]; split; [auto|]; split; [auto|];
      intros H; discriminate H
    | apply push_distinct_names ].
Qed.

(** ** Search: when it cannot throw *)

Lemma textual_label {A} (v : option value) (f : string -> list A) :
  textual v = true ->
  exists r,
    (if Js.truthy v then l <- Js.toLowerCase v ;; Some (f l) else Some [])
    = Some r.
Proof.
  intros H. destruct v as [[| | |s| | |]|]; simpl in *;
    try discriminate H; try (eexists; reflexivity).
  - destruct b; [discriminate H | eexists; reflexivity].
  - destruct (negb (n =? 0)%Z); [discriminate H | eexists; reflexivity].
  - destruct (negb (String.eqb s EmptyString)); eexists; reflexivity.
Qed.

Lemma textual_label_if {A} (v : option value) (c : bool)
    (f : string -> list A) :
  textual v = true ->
  exists r,
    (if Js.truthy v && c then l <- Js.toLowerCase v ;; Some (f l) else Some [])
    = Some r.
Proof.
  intros H. destruct c.
  - rewrite andb_true_r. apply textual_label. exact H.
  - rewrite andb_false_r. eexists. reflexivity.
Qed.

Lemma mapM_total {A B} (f : A -> option B) (l : list A) :
  (forall x, In x l -> exists y, f x = Some y) ->
  exists ys, mapM f l = Some ys.
Proof.
  induction l as [|x l IH]; intros H; simpl; [eexists; reflexivity|].
  destruct (H x (or_introl eq_refl)) as [y ->].
  destruct IH as [ys ->]; [intros z Hz; apply H; right; exact Hz|].
  eexists. reflexivity.
Qed.

Lemma customTag_tags_total (tagObj : obj) :
  textualTag tagObj = true -> exists r, customTag_tags tagObj = Some r.
Proof.
  unfold textualTag, customTag_tags. intros H.
  apply andb_prop in H as [H H3]. apply andb_prop in H as [H1 H2].
  destruct (textual_label (Js.get tagObj "name")
              (label_tags "custom:" Str.is_space 1) H1) as [a ->].
  destruct (textual_label (Js.get tagObj "type")
              (fun l => [("tagtype:" ++ l)%string]) H2) as [b ->].
  destruct (textual_label (Js.get tagObj "color")
              (fun l => [("color:" ++ l)%string]) H3) as [c ->].
  eexists. reflexivity.
Qed.

Lemma createUnifiedTags_total (st : State) (room : obj) :
  textualRoom st room = true ->
  exists roomTags, createUnifiedTags st room = Some roomTags.
Proof.
  unfold textualRoom, createUnifiedTags. intros H.
  apply andb_prop in H as [H H6]. apply andb_prop in H as [H H5].
  apply andb_prop in H as [H H4]. apply andb_prop in H as [H H3].
  apply andb_prop in H as [H1 H2]. apply andb_prop in H1 as [H0 H1].
  unfold plainId in H0. apply negb_true_iff in H0.
  cbv zeta.
  destruct (textual_label (Js.get room "building")
              (label_tags "building:" Str.is_space 1) H1) as [t1 ->].
  destruct (textual_label_if (Js.get room "bld_descrshort")
              (negb (Js.strict_eq (Js.get room "bld_descrshort")
                       (Js.get room "building")))
              (label_tags "building:" Str.is_space 1) H2) as [t2 ->].
  destruct (textual_label (Js.get room "dept_descr")
              (label_tags "department:" Str.is_space 2) H3) as [t4 ->].
  destruct (textual_label (Js.get room "typeFull")
              (label_tags "type:" Str.is_type_sep 2) H4) as [t5 ->].
  assert (T6 : exists t6,
             match Js.get room "tags" with
             | Some (VArr l) => ts <- mapM category_tags l ;; Some (concat ts)
             | v => if Js.truthy v then None else Some []
             end = Some t6).
  { destruct (Js.get room "tags") as [[| | | |l| |]|];
      try (apply negb_true_iff in H5; rewrite H5; eexists; reflexivity).
    destruct (mapM_total category_tags l) as [ts ->]; [|eexists; reflexivity].
    intros x Hx. rewrite forallb_forall in H5. specialize (H5 x Hx).
    destruct x; try discriminate H5. eexists. reflexivity. }
  destruct T6 as [t6 ->].
  unfold Js.read. rewrite H0.
  unfold tagsOf in H6.
  destruct (Js.get (staffTags st) (Js.toStr (Js.get room "id")));
    (destruct (Js.get (customTags st) (Js.toStr (Js.get room "id")))
       as [custom|];
     [ destruct (mapM_total customTag_tags custom) as [ts ->];
       [| eexists; reflexivity];
       intros x Hx; apply customTag_tags_total;
       rewrite forallb_forall in H6; apply H6; exact Hx
     | eexists; reflexivity ]).
Qed.

Lemma filterM_total {A} (p : A -> option bool) (l : list A) :
  (forall x, In x l -> exists b, p x = Some b) ->
  exists r, filterM p l = Some r.
Proof.
  induction l as [|x l IH]; intros H; simpl; [eexists; reflexivity|].
  destruct (H x (or_introl eq_refl)) as [b ->].
  destruct IH as [ys ->]; [intros z Hz; apply H; right; exact Hz|].
  eexists. reflexivity.
Qed.

(** X29. On a dataset whose labels are strings the search never throws:
    when, for every room, the id is no name of a property of
    [Object.prototype] and the building names, the department, the type,
    the category tags and the names, types and colours of the custom tags
    are strings or are falsy, every query has a result.  The store is one
    of the model: the custom tags of a room are a list of objects, its
    staff tags a list of strings.  (A label of another type, such as a
    building name read as a number, is what makes [toLowerCase] throw; an
    id such as "constructor" makes [state.customTags[room.id].forEach]
    throw.) *)
Theorem searchRoomsByTags_total_on_strings (st : State) (query : string) :
  (forall room, In room (processedData st) -> textualRoom st room = true) ->
  exists result, searchRoomsByTags st query = Some result.
Proof.
  intros H. unfold searchRoomsByTags.
  destruct (String.eqb query EmptyString || _); [eexists; reflexivity|].
  destruct (List.length (searchTermsOf query) =? 0); [eexists; reflexivity|].
  apply filterM_total. intros room Hin. unfold roomMatches.
  destruct (createUnifiedTags_total st room (H room Hin)) as [roomTags ->].
  eexists. reflexivity.
Qed.

Lemma searchRoomsByTags_total_on_strings_witness :
  exists result, searchRoomsByTags Example.taggedState "icu" = Some result.
Proof.
  apply searchRoomsByTags_total_on_strings.
  intros room Hin. vm_compute in Hin.
  destruct Hin as [<-|[<-|[]]]; vm_compute; reflexivity.
Defined.

(** ** The unmapped counter of a batch *)









(** ** The keyboard in the autocomplete box *)

Lemma pressed_down (n : nat) :
  forall (options : list string) (i : Z) (st : State),
    options <> [] ->
    (-1 <= i < Z.of_nat (List.length options))%Z ->
    pressed "ArrowDown" n
      {| boxHidden := false; boxOptions := options; activeIndex := i |} st
    = ({| boxHidden := false; boxOptions := options;
          activeIndex :=
            match n with
            | O => i
            | S _ => ((i + Z.of_nat n) mod Z.of_nat (List.length options))%Z
            end |}, st).
Proof.
  induction n as [|n IH]; intros options i st Hne Hi; [reflexivity|].
  cbn [pressed]. unfold handleAutocompleteKeydown.
  cbn [boxHidden boxOptions activeIndex].
  set (count := Z.of_nat (List.length options)) in *.
  assert (Hc : (0 < count)%Z).
  { subst count. destruct options; [contradiction | simpl; lia]. }
  destruct (Z.eqb_spec count 0); [lia|].
  cbn [String.eqb Ascii.eqb Bool.eqb].
  assert (Hr : Z.rem (i + 1) count = ((i + 1) mod count)%Z).
  { apply Z.rem_mod_nonneg; lia. }
  rewrite Hr, IH.
  - f_equal. f_equal. destruct n as [|n]; [f_equal; lia|].
    fold count. rewrite Zplus_mod_idemp_l. f_equal. lia.
  - exact Hne.
  - fold count. pose proof (Z.mod_pos_bound (i + 1) count Hc). lia.
Qed.

(** X15. Typing a query and walking down the suggestions selects them in
    turn and wraps around: when the box shows [n] suggestions for the
    query, pressing ArrowDown [k + 1] times and then Enter makes the
    suggestion of rank [k mod n] the search query, goes back to page 1 and
    hides the box. *)
Theorem autocomplete_arrow_down_enter
    (st : State) (query : string) (box : AutocompleteBox) (k : nat)
    (selected : string) :
  nth_error (updateAutocomplete st query)
    (k mod List.length (updateAutocomplete st query)) = Some selected ->
  let shown := updateAutocompleteBox st query box in
  let '(walked, st1) := pressed "ArrowDown" (S k) shown st in
  let '(closed, st2) := handleAutocompleteKeydown "Enter" walked st1 in
  searchQuery st2 = selected
  /\ currentPage st2 = 1%Z
  /\ boxHidden closed = true
  /\ processedData st2 = processedData st.
Proof.
  intros Hsel. cbv zeta.
  assert (Hne : updateAutocomplete st query <> []).
  { intros E. rewrite E in Hsel.
    destruct (k mod List.length (@nil string)); simpl in Hsel; discriminate Hsel. }
  assert (Hq : String.eqb query EmptyString || (String.length query <? 1) = false).
  { destruct (String.eqb query EmptyString || (String.length query <? 1)) eqn:E;
      [|reflexivity].
    exfalso. apply Hne. unfold updateAutocomplete. rewrite E. reflexivity. }
  unfold updateAutocompleteBox. rewrite Hq.
  destruct (updateAutocomplete st query) as [|m matches] eqn:Em; [contradiction|].
  rewrite pressed_down by (try discriminate; simpl; lia).
  set (n := List.length (m :: matches)) in *.
  assert (Hn : 0 < n) by (subst n; simpl; lia).
  assert (Hi : ((-1 + Z.of_nat (S k)) mod Z.of_nat n)%Z = Z.of_nat (k mod n)).
  { replace (-1 + Z.of_nat (S k))%Z with (Z.of_nat k) by lia.
    rewrite Nat2Z.inj_mod. reflexivity. }
  rewrite Hi. unfold handleAutocompleteKeydown.
  cbn [boxHidden boxOptions activeIndex]. fold n.
  destruct (Z.eqb_spec (Z.of_nat n) 0); [lia|].
  cbn [String.eqb Ascii.eqb Bool.eqb].
  destruct (Z.ltb_spec (-1) (Z.of_nat (k mod n))); [|lia].
  unfold optionAt. destruct (Z.ltb_spec (Z.of_nat (k mod n)) 0); [lia|].
  rewrite Nat2Z.id, Hsel. cbn [searchQuery currentPage boxHidden set_searchQuery
                                 processedData].
  repeat split; reflexivity.
Qed.

Lemma autocomplete_arrow_down_enter_witness :
  updateAutocomplete Example.state "rad" = ["radiology"; "department:radiology"]
  /\ searchQuery
       (snd (let '(walked, st1) :=
               pressed "ArrowDown" 4
                 (updateAutocompleteBox Example.state "rad" emptyBox)
                 Example.state in
             handleAutocompleteKeydown "Enter" walked st1))
     = "department:radiology".
Proof.
  split; [vm_compute; reflexivity|].
  pose proof (autocomplete_arrow_down_enter Example.state "rad" emptyBox 3
                "department:radiology") as T.
  cbv zeta in T.
  destruct (pressed "ArrowDown" 4
              (updateAutocompleteBox Example.state "rad" emptyBox) Example.state)
    as [walked st1].
  destruct (handleAutocompleteKeydown "Enter" walked st1) as [closed st2].
  apply T. vm_compute. reflexivity.
Defined.
